(** * Invoice link-sharing backend: a shallow embedding of [main.py] and
    [schemas.py], with the properties of the specification proved on it.

    Python [float]s are IEEE-754 binary64 numbers; they are modelled by the
    kernel's primitive floats, whose operations are specified by
    [FloatAxioms] against [SpecFloat]. *)

From Stdlib Require Import ZArith List String Ascii Bool Lia.
From Stdlib Require Import Floats.
Import ListNotations.

Open Scope string_scope.
Open Scope Z_scope.

(** ** Python numbers *)

Module PyNum.

(** A Python number as this program meets them: an [int] or a [float]. *)
Inductive number : Type :=
| PyInt (z : Z)
| PyFloat (f : float).

(** [float(z)] for an integer [z]: the nearest binary64 number. *)
Definition float_of_int (z : Z) : float :=
  SF2Prim (binary_normalize prec emax z 0 false).

(** Whether [float(z)] raises [OverflowError]: the integer is beyond the
    range of binary64, so that the nearest number would be an infinity. *)
Definition float_overflows (z : Z) : bool :=
  is_infinity (float_of_int z).

(** [float(x)]. *)
Definition to_float (x : number) : float :=
  match x with
  | PyInt z => float_of_int z
  | PyFloat f => f
  end.

(** The decimal literal [m * 10^-k] read as a binary64 number (what
    [strtod] and the JSON decoder do): the quotient, rounded once. *)
Definition decimal (m : Z) (k : positive) : float :=
  match m with
  | Z0 => zero
  | Zpos p => SF2Prim (SFdiv prec emax (S754_finite false p 0)
                                      (S754_finite false (10 ^ k) 0))
  | Zneg p => SF2Prim (SFdiv prec emax (S754_finite true p 0)
                                      (S754_finite false (10 ^ k) 0))
  end.

(** [x + y], [x - y] and [x * y]: exact on two ints, binary64 as soon as one operand
    is a float. *)
Definition add (x y : number) : number :=
  match x, y with
  | PyInt a, PyInt b => PyInt (a + b)
  | _, _ => PyFloat (to_float x + to_float y)%float
  end.

Definition sub (x y : number) : number :=
  match x, y with
  | PyInt a, PyInt b => PyInt (a - b)
  | _, _ => PyFloat (to_float x - to_float y)%float
  end.

Definition mul (x y : number) : number :=
  match x, y with
  | PyInt a, PyInt b => PyInt (a * b)
  | _, _ => PyFloat (to_float x * to_float y)%float
  end.

(** Exact comparison of an integer with a binary64 number, as Python
    compares an [int] with a [float]; [None] when the float is a NaN. *)
Definition compare_int_float (z : Z) (f : float) : option comparison :=
  match Prim2SF f with
  | S754_nan => None
  | S754_infinity s => Some (if s then Gt else Lt)
  | S754_zero _ => Some (z ?= 0)
  | S754_finite s m e =>
      let v := if s then Zneg m else Zpos m in
      Some (if 0 <=? e then z ?= v * 2 ^ e else z * 2 ^ (- e) ?= v)
  end.

Definition compare (x y : number) : option comparison :=
  match x, y with
  | PyInt a, PyInt b => Some (a ?= b)
  | PyFloat a, PyFloat b => SFcompare (Prim2SF a) (Prim2SF b)
  | PyInt a, PyFloat b => compare_int_float a b
  | PyFloat a, PyInt b => option_map CompOpp (compare_int_float b a)
  end.

(** [x < y], [x > y], [x == y]: false whenever a NaN is involved. *)
Definition lt (x y : number) : bool :=
  match compare x y with Some Lt => true | _ => false end.

Definition gt (x y : number) : bool :=
  match compare x y with Some Gt => true | _ => false end.

Definition eq (x y : number) : bool :=
  match compare x y with Some Eq => true | _ => false end.

(** [max(x, y)]: the first argument unless the second is strictly greater. *)
Definition max (x y : number) : number :=
  if gt y x then y else x.

(** [sum(xs)]: the items added from left to right onto the int [0], as
    the language defines it. (CPython from 3.12 on adds several floats with
    a compensated loop that can differ from this in the last bit; with at
    most two items the compensation is the exact rounding error of the one
    addition and changes nothing.) *)
Definition sum (xs : list number) : number :=
  fold_left add xs (PyInt 0).

(** The integer nearest to [m * 2^e * 100], ties to the even one. *)
Definition hundredths (m : positive) (e : Z) : Z :=
  if 0 <=? e then Zpos m * 2 ^ e * 100
  else
    let d := 2 ^ (- e) in
    let q := (Zpos m * 100) / d in
    let r := (Zpos m * 100) mod d in
    match 2 * r ?= d with
    | Lt => q
    | Gt => q + 1
    | Eq => if Z.even q then q else q + 1
    end.

(** [round(x, 2)] on a float: NaNs, infinities and zeros round to
    themselves; any other value is rounded (on its exact binary value, ties
    to even) to a decimal with two places, which is read back as a float. *)
Definition float_round2 (x : float) : float :=
  match Prim2SF x with
  | S754_finite s m e =>
      match hundredths m e with
      | Zpos n => SF2Prim (SFdiv prec emax (S754_finite s n 0)
                                          (S754_finite false 100 0))
      | _ => if s then neg_zero else zero
      end
  | _ => x
  end.

(** [round(x, 2)]: an int is returned unchanged. *)
Definition round2 (x : number) : number :=
  match x with
  | PyInt z => PyInt z
  | PyFloat f => PyFloat (float_round2 f)
  end.

End PyNum.

Import PyNum.

(** ** Python values and dicts *)

(** A calendar date or date-time as a program value; only its ISO-8601
    rendering is ever observed. *)
Record date : Type := mkDate { year : Z; month : Z; day : Z }.

(** A BSON ObjectId: an opaque 12-byte value, carried as a string. *)
Definition ObjectId : Type := string.

#[local] Set Warnings "-register-all".

(** The values that travel through the handlers: decoded JSON bodies,
    dumped models, stored documents and responses. A dict keeps its entries
    in insertion order. *)
Inductive value : Type :=
| VNone
| VBool (b : bool)
| VNum (n : number)
| VStr (s : string)
| VDate (d : date)
| VOid (o : ObjectId)
| VList (l : list value)
| VDict (d : list (string * value)).

Definition dict : Type := list (string * value).

Module Dict.

(** [d.get(k)], with [None] for an absent key. *)
Fixpoint get (k : string) (d : dict) : option value :=
  match d with
  | [] => None
  | (k', v) :: d' => if String.eqb k k' then Some v else get k d'
  end.

(** [d.get(k, default)]. *)
Definition get_default (k : string) (default : value) (d : dict) : value :=
  match get k d with
  | Some v => v
  | None => default
  end.

(** [d[k] = v]: an existing key keeps its place, a new one goes last. *)
Fixpoint set (k : string) (v : value) (d : dict) : dict :=
  match d with
  | [] => [(k, v)]
  | (k', v') :: d' =>
      if String.eqb k k' then (k, v) :: d' else (k', v') :: set k v d'
  end.

(** The dict left by [d.pop(k)]. *)
Fixpoint remove (k : string) (d : dict) : dict :=
  match d with
  | [] => []
  | (k', v') :: d' =>
      if String.eqb k k' then d' else (k', v') :: remove k d'
  end.

Definition keys (d : dict) : list string := map fst d.

End Dict.

(** Truth value of a Python object, as [if x] and [not x] test it. *)
Definition truthy (v : value) : bool :=
  match v with
  | VNone => false
  | VBool b => b
  | VNum n => negb (PyNum.eq n (PyInt 0))
  | VStr s => negb (String.eqb s EmptyString)
  | VDate _ => true
  | VOid _ => true
  | VList l => match l with [] => false | _ => true end
  | VDict d => match d with [] => false | _ => true end
  end.

(** [every_leaf p v]: [p] holds of every value inside [v] that is not
    itself a list or a dict ([v] included). *)
Fixpoint every_leaf (p : value -> bool) (v : value) : bool :=
  match v with
  | VList l => forallb (every_leaf p) l
  | VDict d => forallb (fun kv => every_leaf p (snd kv)) d
  | _ => p v
  end.

(** ** The store and the libraries behind the handlers *)

(** The document store: the (collection, document) pairs inserted so far,
    oldest first. *)
Definition store : Type := list (string * dict).

(** What the handlers use of their libraries (bson, pydantic with
    email-validator, the store's driver, Python's builtins) and this model
    leaves open. *)
Record Library : Type := {
  (** [ObjectId(s)] for a string [s]; [None] when it raises. *)
  ObjectId_new : string -> option ObjectId;
  (** [str(oid)]. *)
  ObjectId_str : ObjectId -> string;
  (** [str(v)] for a value that is neither a string nor an ObjectId. *)
  repr : value -> string;
  (** [d.isoformat()]. *)
  isoformat : date -> string;
  (** pydantic's [EmailStr]: the normalised address, [None] when refused. *)
  validate_email : string -> option string;
  (** pydantic's [date] validator on an input value. *)
  validate_date : value -> option date;
  (** pydantic's lax coercion to [float] of an input that is not a number. *)
  lax_float : value -> option float;
  (** The identifier the store gives the next document. *)
  generate_id : store -> ObjectId
}.

(** ** schemas.py *)

Record InvoiceItem : Type := {
  description : string;
  quantity : number;
  unit_price : float
}.

Record Invoice : Type := {
  customer_name : string;
  customer_email : string;
  customer_address : option string;
  invoice_number : option string;
  issue_date : date;
  due_date : option date;
  currency : string;
  items : list InvoiceItem;
  notes : option string;
  status : string;
  subtotal : float;
  tax : number;
  discount : number;
  total : float
}.

(** *** Validation errors *)

Inductive loc_item : Type :=
| Key (k : string)
| Index (i : nat).

Inductive error_type : Type :=
| missing
| string_type
| float_type
| greater_than_equal
| email_value_error
| date_type
| list_type
| model_type.

Record error_details : Type := { loc : list loc_item; type_ : error_type }.

(** The outcome of a validator: the validated value, or every error met. *)
Inductive result (A : Type) : Type :=
| Valid (a : A)
| Invalid (errors : list error_details).
Arguments Valid {A} a.
Arguments Invalid {A} errors.

Definition fail {A : Type} (t : error_type) : result A :=
  Invalid [{| loc := []; type_ := t |}].

Definition prefix (l : loc_item) (e : error_details) : error_details :=
  {| loc := l :: loc e; type_ := type_ e |}.

(** The errors of a field or element are reported under its location. *)
Definition under {A : Type} (l : loc_item) (r : result A) : result A :=
  match r with
  | Valid a => Valid a
  | Invalid es => Invalid (map (prefix l) es)
  end.

(** Fields are validated one after the other and all errors are kept. *)
Definition ap {A B : Type} (f : result (A -> B)) (x : result A) : result B :=
  match f, x with
  | Valid g, Valid a => Valid (g a)
  | Valid _, Invalid es => Invalid es
  | Invalid es, Valid _ => Invalid es
  | Invalid es, Invalid es' => Invalid (es ++ es')
  end.

Notation "f <*> x" := (ap f x) (at level 52, left associativity).

Section Validation.

Variable lib : Library.

(** *** Field types *)

(** [str]: only a string is taken. *)
Definition str_validator (v : value) : result string :=
  match v with
  | VStr s => Valid s
  | _ => fail string_type
  end.

(** [Optional[T]]: [None], or whatever [T] takes. *)
Definition optional_validator {A : Type} (T : value -> result A) (v : value)
  : result (option A) :=
  match v with
  | VNone => Valid None
  | _ => Valid (@Some A) <*> T v
  end.

(** [EmailStr]. *)
Definition email_validator (v : value) : result string :=
  match v with
  | VStr s =>
      match validate_email lib s with
      | Some e => Valid e
      | None => fail email_value_error
      end
  | _ => fail string_type
  end.

(** [date]. *)
Definition date_validator (v : value) : result date :=
  match validate_date lib v with
  | Some d => Valid d
  | None => fail date_type
  end.

(** [float]: a float as it is (infinities and NaNs included), an int
    converted unless the conversion overflows, anything else through the lax
    coercion. *)
Definition float_validator (v : value) : result float :=
  match v with
  | VNum (PyFloat f) => Valid f
  | VNum (PyInt z) =>
      if float_overflows z then fail float_type else Valid (float_of_int z)
  | _ =>
      match lax_float lib v with
      | Some f => Valid f
      | None => fail float_type
      end
  end.

(** [float] with [ge=0]: refused unless [value >= 0] holds. *)
Definition float_ge0_validator (v : value) : result float :=
  match float_validator v with
  | Valid f => if (0 <=? f)%float then Valid f else fail greater_than_equal
  | Invalid es => Invalid es
  end.

(** [List[T]]: each element under its index. *)
Fixpoint list_items {A : Type} (T : value -> result A) (i : nat)
  (l : list value) : result (list A) :=
  match l with
  | [] => Valid []
  | v :: l' => Valid cons <*> under (Index i) (T v) <*> list_items T (S i) l'
  end.

Definition list_validator {A : Type} (T : value -> result A) (v : value)
  : result (list A) :=
  match v with
  | VList l => list_items T 0 l
  | _ => fail list_type
  end.

(** *** Fields *)

(** [Field(...)]: a required field. *)
Definition required {A : Type} (k : string) (T : value -> result A) (d : dict)
  : result A :=
  match Dict.get k d with
  | Some v => under (Key k) (T v)
  | None => under (Key k) (fail missing)
  end.

(** [Field(default)]: the default is taken as it is written. *)
Definition defaulted {A : Type} (k : string) (default : A)
  (T : value -> result A) (d : dict) : result A :=
  match Dict.get k d with
  | Some v => under (Key k) (T v)
  | None => Valid default
  end.

Definition as_float (r : result float) : result number :=
  Valid PyFloat <*> r.

(** *** Models *)

Definition InvoiceItem_validator (v : value) : result InvoiceItem :=
  match v with
  | VDict d =>
      Valid Build_InvoiceItem
        <*> required "description" str_validator d
        <*> defaulted "quantity" (PyInt 1)
              (fun x => as_float (float_ge0_validator x)) d
        <*> required "unit_price" float_ge0_validator d
  | _ => fail model_type
  end.

Definition Invoice_validator (v : value) : result Invoice :=
  match v with
  | VDict d =>
      Valid Build_Invoice
        <*> required "customer_name" str_validator d
        <*> required "customer_email" email_validator d
        <*> defaulted "customer_address" None
              (optional_validator str_validator) d
        <*> defaulted "invoice_number" None
              (optional_validator str_validator) d
        <*> required "issue_date" date_validator d
        <*> defaulted "due_date" None (optional_validator date_validator) d
        <*> defaulted "currency" "USD" str_validator d
        <*> defaulted "items" []
              (list_validator InvoiceItem_validator) d
        <*> defaulted "notes" None (optional_validator str_validator) d
        <*> defaulted "status" "unpaid" str_validator d
        <*> required "subtotal" float_ge0_validator d
        <*> defaulted "tax" (PyInt 0)
              (fun x => as_float (float_ge0_validator x)) d
        <*> defaulted "discount" (PyInt 0)
              (fun x => as_float (float_ge0_validator x)) d
        <*> required "total" float_ge0_validator d
  | _ => fail model_type
  end.

(** *** [model_dump] *)

Definition dump_option {A : Type} (f : A -> value) (o : option A) : value :=
  match o with
  | Some a => f a
  | None => VNone
  end.

Definition dump_item (it : InvoiceItem) : value :=
  VDict [ ("description", VStr (description it));
          ("quantity", VNum (quantity it));
          ("unit_price", VNum (PyFloat (unit_price it))) ].

Definition model_dump (p : Invoice) : dict :=
  [ ("customer_name", VStr (customer_name p));
    ("customer_email", VStr (customer_email p));
    ("customer_address", dump_option VStr (customer_address p));
    ("invoice_number", dump_option VStr (invoice_number p));
    ("issue_date", VDate (issue_date p));
    ("due_date", dump_option VDate (due_date p));
    ("currency", VStr (currency p));
    ("items", VList (map dump_item (items p)));
    ("notes", dump_option VStr (notes p));
    ("status", VStr (status p));
    ("subtotal", VNum (PyFloat (subtotal p)));
    ("tax", VNum (tax p));
    ("discount", VNum (discount p));
    ("total", VNum (PyFloat (total p))) ].

End Validation.

(** ** main.py *)

(** What a handler ends in and what a route answers: a JSON body with
    status 200 (for a handler, the value it returns), an [HTTPException]
    raised by the handler, the 422 answer to a body the request model
    refuses, or the 500 answer to an exception nobody catches. *)
Inductive response : Type :=
| JSONResponse (content : value)
| HTTPException (status_code : Z) (detail : string)
| RequestValidationError (errors : list error_details)
| InternalServerError.

Definition status_of (r : response) : Z :=
  match r with
  | JSONResponse _ => 200
  | HTTPException c _ => c
  | RequestValidationError _ => 422
  | InternalServerError => 500
  end.

(** *** What the framework does around a handler

    The value a handler returns is encoded by FastAPI ([jsonable_encoder]
    turns dates into ISO strings) and rendered with
    [json.dumps(..., allow_nan=False)]; a value that cannot be rendered is an
    exception nobody catches. The answer to a refused body is rendered the
    same way, and each of its errors echoes the input it refused. *)

(** What can be rendered: any value but a float that is an infinity or a
    NaN, and an ObjectId (the encoder has no rule for it). *)
Definition json_leaf (v : value) : bool :=
  match v with
  | VNum (PyFloat f) => is_finite f
  | VOid _ => false
  | _ => true
  end.

Definition json_compliant (v : value) : bool := every_leaf json_leaf v.

(** The value at a location inside a body. *)
Fixpoint value_at (v : value) (l : list loc_item) : option value :=
  match l with
  | [] => Some v
  | Key k :: l' =>
      match v with
      | VDict d =>
          match Dict.get k d with
          | Some x => value_at x l'
          | None => None
          end
      | _ => None
      end
  | Index i :: l' =>
      match v with
      | VList xs =>
          match nth_error xs i with
          | Some x => value_at x l'
          | None => None
          end
      | _ => None
      end
  end.

(** The input an error echoes: the value that was refused or, for a missing
    field, the object that lacks it. *)
Definition error_input (body : value) (e : error_details) : value :=
  let l := match type_ e with
           | missing => removelast (loc e)
           | _ => loc e
           end in
  match value_at body l with
  | Some v => v
  | None => VNone
  end.

(** Whether the 422 answer listing the errors [es] of [body] can be
    rendered. *)
Definition report_compliant (body : value) (es : list error_details) : bool :=
  forallb (fun e => json_compliant (error_input body e)) es.

(** What the route answers when its handler ends in [r]. The content of a
    200 is kept as the handler returned it; a date left in it is written as
    its ISO string. *)
Definition rendered (r : response) : response :=
  match r with
  | JSONResponse content =>
      if json_compliant content then r else InternalServerError
  | _ => r
  end.

Section Handlers.

Variable lib : Library.

(** The documents of a collection, oldest first. *)
Definition collection (st : store) (name : string) : list dict :=
  map snd (filter (fun cd => String.eqb (fst cd) name) st).

Definition has_id (oid : ObjectId) (doc : dict) : bool :=
  match Dict.get "_id" doc with
  | Some (VOid o) => String.eqb o oid
  | _ => false
  end.

(** Modelled from the spec: the gateway's [findOne(collectionName,
    identifier)] behind [db[name].find_one({"_id": oid})], which is not in
    the sources: the document of the collection with that identifier, or
    nothing. *)
Definition find_one (st : store) (name : string) (oid : ObjectId)
  : option dict :=
  List.find (has_id oid) (collection st name).

(** Modelled from the spec: [create_document] of the [database] module,
    which is not in the sources: the gateway's [insert(collectionName,
    document)] appends the document to the named collection under a newly
    generated identifier and returns that identifier as a string. *)
Definition create_document (st : store) (name : string) (data : dict)
  : store * string :=
  let oid := generate_id lib st in
  ((st ++ [(name, Dict.set "_id" (VOid oid) data)])%list, ObjectId_str lib oid).

(** [str(v)]. *)
Definition py_str (v : value) : string :=
  match v with
  | VStr s => s
  | VOid o => ObjectId_str lib o
  | _ => repr lib v
  end.

Definition date_keys : list string :=
  ["issue_date"; "due_date"; "created_at"; "updated_at"].

(** The body of the loop over the date keys. *)
Definition isoformat_key (doc : dict) (key : string) : dict :=
  match Dict.get key doc with
  | Some (VDate d) => Dict.set key (VStr (isoformat lib d)) doc
  | _ => doc
  end.

Definition serialize_invoice (doc : dict) : dict :=
  if negb (truthy (VDict doc)) then doc
  else
    let '(id, doc) :=
      match Dict.get "_id" doc with
      | Some v =>
          if truthy v then (VStr (py_str v), Dict.remove "_id" doc)
          else (VNone, doc)
      | None => (VNone, doc)
      end in
    let doc := Dict.set "id" id doc in
    fold_left isoformat_key date_keys doc.

(** [create_invoice]. [data] is [payload.model_dump()], so the items of
    [data.get("items", [])] are the dumped items of [payload], and
    [data.get("tax", 0)], [data.get("discount", 0)] its [tax] and
    [discount]. *)
Definition create_invoice (db : option store) (payload : Invoice)
  : option store * response :=
  match db with
  | None => (db, HTTPException 500 "Database not available")
  | Some st =>
      let data := model_dump payload in
      let subtotal :=
        PyNum.sum
          (map (fun item =>
                  PyNum.mul (quantity item) (PyFloat (unit_price item)))
               (items payload)) in
      let data := Dict.set "subtotal" (VNum (round2 subtotal)) data in
      let total :=
        PyNum.sub
          (PyNum.add subtotal (PyFloat (to_float (tax payload))))
          (PyFloat (to_float (discount payload))) in
      let data :=
        Dict.set "total" (VNum (round2 (PyNum.max total (PyInt 0)))) data in
      let '(st', inserted_id) := create_document st "invoice" data in
      let share_url := ("/public/invoices/" ++ inserted_id)%string in
      (Some st',
       JSONResponse
         (VDict [("id", VStr inserted_id); ("share_url", VStr share_url)]))
  end.

(** [POST /api/invoices]: the body is validated against the request model
    before the handler runs. A refused body is answered 422 with the errors,
    unless an echoed input keeps that answer from being rendered. (What the
    handler returns, two strings, can always be rendered.) *)
Definition post_api_invoices (db : option store) (body : value)
  : option store * response :=
  match Invoice_validator lib body with
  | Invalid es =>
      if report_compliant body es
      then (db, RequestValidationError (map (prefix (Key "body")) es))
      else (db, InternalServerError)
  | Valid payload => create_invoice db payload
  end.

(** [get_invoice], the handler of [GET /api/invoices/{invoice_id}]:
    [JSONResponse content] stands for the dict it returns. Subscripting a
    [db] that is [None] raises an exception the handler does not catch. *)
Definition get_invoice (db : option store) (invoice_id : string) : response :=
  match ObjectId_new lib invoice_id with
  | None => HTTPException 400 "Invalid invoice id"
  | Some oid =>
      match db with
      | None => InternalServerError
      | Some st =>
          match find_one st "invoice" oid with
          | None => HTTPException 404 "Invoice not found"
          | Some doc =>
              if negb (truthy (VDict doc))
              then HTTPException 404 "Invoice not found"
              else JSONResponse (VDict (serialize_invoice doc))
          end
      end
  end.

Definition public_keys : list string :=
  ["id"; "invoice_number"; "customer_name"; "customer_email";
   "customer_address"; "issue_date"; "due_date"; "currency"; "items";
   "notes"; "status"; "subtotal"; "tax"; "discount"; "total"].

(** [public_invoice], the handler of [GET /public/invoices/{invoice_id}]. *)
Definition public_invoice (db : option store) (invoice_id : string)
  : response :=
  match ObjectId_new lib invoice_id with
  | None => HTTPException 400 "Invalid invoice id"
  | Some oid =>
      match db with
      | None => InternalServerError
      | Some st =>
          match find_one st "invoice" oid with
          | None => HTTPException 404 "Invoice not found"
          | Some doc =>
              if negb (truthy (VDict doc))
              then HTTPException 404 "Invoice not found"
              else
                let doc := serialize_invoice doc in
                JSONResponse (VDict
                  [ ("id", Dict.get_default "id" VNone doc);
                    ("invoice_number",
                     Dict.get_default "invoice_number" VNone doc);
                    ("customer_name",
                     Dict.get_default "customer_name" VNone doc);
                    ("customer_email",
                     Dict.get_default "customer_email" VNone doc);
                    ("customer_address",
                     Dict.get_default "customer_address" VNone doc);
                    ("issue_date", Dict.get_default "issue_date" VNone doc);
                    ("due_date", Dict.get_default "due_date" VNone doc);
                    ("currency", Dict.get_default "currency" VNone doc);
                    ("items", Dict.get_default "items" (VList []) doc);
                    ("notes", Dict.get_default "notes" VNone doc);
                    ("status", Dict.get_default "status" VNone doc);
                    ("subtotal", Dict.get_default "subtotal" VNone doc);
                    ("tax", Dict.get_default "tax" VNone doc);
                    ("discount", Dict.get_default "discount" VNone doc);
                    ("total", Dict.get_default "total" VNone doc) ])
          end
      end
  end.

(** [GET /api/invoices/{invoice_id}] and
    [GET /public/invoices/{invoice_id}], as the routes answer: what the
    handler returns, rendered. *)
Definition get_api_invoice (db : option store) (invoice_id : string)
  : response :=
  rendered (get_invoice db invoice_id).

Definition get_public_invoice (db : option store) (invoice_id : string)
  : response :=
  rendered (public_invoice db invoice_id).

(** The handlers' reading of a lookup: the error it ends in, or the document
    it found. *)
Definition lookup_outcome (db : option store) (invoice_id : string)
  : response + dict :=
  match ObjectId_new lib invoice_id with
  | None => inl (HTTPException 400 "Invalid invoice id")
  | Some oid =>
      match db with
      | None => inl InternalServerError
      | Some st =>
          match find_one st "invoice" oid with
          | None => inl (HTTPException 404 "Invoice not found")
          | Some doc => inr doc
          end
      end
  end.

(** The error a response carries, if it is one. *)
Definition failure (r : response) : option response :=
  match r with
  | JSONResponse _ => None
  | e => Some e
  end.

End Handlers.

(** *** The other routes and helpers of main.py *)

Section OtherHandlers.

Variable lib : Library.

(** [ObjectIdStr.validate]: the string form of the input when it makes an
    ObjectId; [None] stands for the [ValueError]. *)
Definition ObjectIdStr_validate (v : value) : option string :=
  match ObjectId_new lib (py_str lib v) with
  | Some _ => Some (py_str lib v)
  | None => None
  end.

(** [GET /]. *)
Definition read_root : dict :=
  [("message", VStr "Invoice Link Sharing Backend Running")].

(** ["ok" if os.getenv(name) else "not"]: an unset or empty variable is
    falsy. *)
Definition env_flag (getenv : string -> option string) (name : string)
  : value :=
  match getenv name with
  | Some s => if negb (String.eqb s EmptyString) then VStr "✅ Set"
              else VStr "❌ Not Set"
  | None => VStr "❌ Not Set"
  end.

(** [GET /test]. [getenv] is the process environment and
    [list_collection_names] the driver's call, [None] when it raises; the
    outer handler of the source guards a test that cannot raise. *)
Definition test_database (getenv : string -> option string)
  (list_collection_names : store -> option (list string))
  (db : option store) : dict :=
  let response :=
    [ ("backend", VStr "✅ Running");
      ("database", VStr "❌ Not Available");
      ("database_url", env_flag getenv "DATABASE_URL");
      ("database_name", env_flag getenv "DATABASE_NAME");
      ("connection_status", VStr "Not Connected");
      ("collections", VList []) ] in
  match db with
  | Some st =>
      let response := Dict.set "database" (VStr "✅ Connected") response in
      let response :=
        Dict.set "connection_status" (VStr "Connected") response in
      match list_collection_names st with
      | Some names => Dict.set "collections" (VList (map VStr names)) response
      | None => response
      end
  | None => response
  end.

(** [list_invoices], the handler of [GET /api/invoices]. [get_documents]
    is the gateway's function of the [database] module, which is not in the
    sources; it is called with the empty filter. *)
Definition list_invoices
  (get_documents : store -> string -> option Z -> list dict)
  (db : option store) (limit : option Z) : response :=
  match db with
  | None => HTTPException 500 "Database not available"
  | Some st =>
      JSONResponse
        (VList (map (fun d => VDict (serialize_invoice lib d))
                    (get_documents st "invoice" limit)))
  end.

(** [GET /api/invoices], as the route answers. *)
Definition get_api_invoices
  (get_documents : store -> string -> option Z -> list dict)
  (db : option store) (limit : option Z) : response :=
  rendered (list_invoices get_documents db limit).

End OtherHandlers.

(** The field names of the [Invoice] schema, in declaration order. *)
Definition schema_keys : list string :=
  ["customer_name"; "customer_email"; "customer_address"; "invoice_number";
   "issue_date"; "due_date"; "currency"; "items"; "notes"; "status";
   "subtotal"; "tax"; "discount"; "total"].

(** A number field with [ge=0] and a default: the default as written, or a
    float that passed [>= 0]. *)
Definition default_or_ge0 (default : Z) (n : number) : Prop :=
  n = PyInt default \/ exists f, n = PyFloat f /\ (0 <=? f)%float = true.

(** Zero of either sign, a NaN, or a number above zero: what [x < 0]
    refuses. *)
Definition not_below_zero (x : spec_float) : Prop :=
  match x with
  | S754_zero _ | S754_nan => True
  | S754_infinity s | S754_finite s _ _ => s = false
  end.

(** A Python number that [x < 0] refuses. *)
Definition number_not_below_zero (n : number) : Prop :=
  match n with
  | PyInt z => 0 <= z
  | PyFloat f => not_below_zero (Prim2SF f)
  end.

(** ** Vocabulary of the statements *)

(** [item.quantity * item.unit_price]. *)
Definition line_amount (item : InvoiceItem) : number :=
  PyNum.mul (quantity item) (PyFloat (unit_price item)).

(** The sum of the line amounts of an invoice, before any rounding. *)
Definition raw_subtotal (p : Invoice) : number :=
  PyNum.sum (map line_amount (items p)).

(** [s + tax - discount], clamped at zero and rounded, as the total is
    computed from a subtotal [s]. *)
Definition total_from (s : number) (p : Invoice) : number :=
  round2
    (PyNum.max
       (PyNum.sub (PyNum.add s (PyFloat (to_float (tax p))))
                  (PyFloat (to_float (discount p))))
       (PyInt 0)).

(** *** A created invoice as the read routes return it *)

Section CreatedViews.

Variable lib : Library.

(** The validated fields in schema order, dates as ISO strings, subtotal and
    total as computed, followed by the identifier. *)
Definition created_owner_view (payload : Invoice) (id : string) : value :=
  VDict
    [ ("customer_name", VStr (customer_name payload));
      ("customer_email", VStr (customer_email payload));
      ("customer_address", dump_option VStr (customer_address payload));
      ("invoice_number", dump_option VStr (invoice_number payload));
      ("issue_date", VStr (isoformat lib (issue_date payload)));
      ("due_date",
       dump_option (fun t => VStr (isoformat lib t)) (due_date payload));
      ("currency", VStr (currency payload));
      ("items", VList (map dump_item (items payload)));
      ("notes", dump_option VStr (notes payload));
      ("status", VStr (status payload));
      ("subtotal", VNum (round2 (raw_subtotal payload)));
      ("tax", VNum (tax payload));
      ("discount", VNum (discount payload));
      ("total", VNum (total_from (raw_subtotal payload) payload));
      ("id", VStr id) ].

(** The same values under the 15 public keys. *)
Definition created_public_view (payload : Invoice) (id : string) : value :=
  VDict
    [ ("id", VStr id);
      ("invoice_number", dump_option VStr (invoice_number payload));
      ("customer_name", VStr (customer_name payload));
      ("customer_email", VStr (customer_email payload));
      ("customer_address", dump_option VStr (customer_address payload));
      ("issue_date", VStr (isoformat lib (issue_date payload)));
      ("due_date",
       dump_option (fun t => VStr (isoformat lib t)) (due_date payload));
      ("currency", VStr (currency payload));
      ("items", VList (map dump_item (items payload)));
      ("notes", dump_option VStr (notes payload));
      ("status", VStr (status payload));
      ("subtotal", VNum (round2 (raw_subtotal payload)));
      ("tax", VNum (tax payload));
      ("discount", VNum (discount payload));
      ("total", VNum (total_from (raw_subtotal payload) payload)) ].

End CreatedViews.

(** Whether every number of a created invoice is finite: the quantities and
    unit prices, the tax, the discount, and the subtotal and total as
    computed. An integer is; a float is unless it is an infinity or a NaN. *)
Definition finite_number (n : number) : bool :=
  match n with
  | PyInt _ => true
  | PyFloat f => is_finite f
  end.

Definition finite_item (item : InvoiceItem) : bool :=
  finite_number (quantity item) && is_finite (unit_price item).

Definition finite_amounts (payload : Invoice) : bool :=
  forallb finite_item (items payload)
  && (finite_number (round2 (raw_subtotal payload))
      && (finite_number (tax payload)
          && (finite_number (discount payload)
              && finite_number (total_from (raw_subtotal payload) payload)))).

(** *** The stored subtotal in the words of the specification

    "The sum over all items of quantity times unit price, rounded to 2
    decimal places", written without the handler's own arithmetic: the
    amounts are added in order in binary64, and the result is replaced by
    the float nearest to the nearest multiple of 1/100 of its exact value. *)







(** A number (not a NaN) with sign bit [s]. *)
Definition has_sign (s : bool) (x : spec_float) : Prop :=
  match x with
  | S754_zero s' | S754_infinity s' | S754_finite s' _ _ => s' = s
  | S754_nan => False
  end.

(** A validation outcome that reports an error at location [l]. *)
Definition reports {A : Type} (r : result A) (l : list loc_item) : Prop :=
  exists es, r = Invalid es /\ In l (map loc es).

(** A validation outcome that reports the error [e]. *)
Definition reports_error {A : Type} (r : result A) (e : error_details)
  : Prop :=
  exists es, r = Invalid es /\ In e es.

(** The error of a required field that is absent. *)
Definition missing_at (k : string) : error_details :=
  {| loc := [Key k]; type_ := missing |}.

(** *** The field constraints of the specification, section 3

    These follow the words of the specification, not the schema: which
    fields are required, which texts must be non-empty, which numbers must
    not be negative. [subtotal] and [total] are server-set there, so a
    payload may leave them out. *)

Section SpecConstraints.

Variable lib : Library.

Definition spec_text (nonempty : bool) (v : value) : bool :=
  match v with
  | VStr s => if nonempty then negb (String.eqb s EmptyString) else true
  | _ => false
  end.

Definition spec_optional (ok : value -> bool) (v : value) : bool :=
  match v with
  | VNone => true
  | _ => ok v
  end.

Definition spec_nonneg_number (v : value) : bool :=
  match v with
  | VNum (PyInt z) => 0 <=? z
  | VNum (PyFloat f) => (0 <=? f)%float
  | _ => false
  end.

(** Every integer of a payload is within the range of a float. *)
Definition int_fits (v : value) : bool :=
  match v with
  | VNum (PyInt z) => negb (float_overflows z)
  | _ => true
  end.

Definition ints_fit (v : value) : bool := every_leaf int_fits v.

Definition spec_email (v : value) : bool :=
  match v with
  | VStr s => match validate_email lib s with Some _ => true | None => false end
  | _ => false
  end.

Definition spec_date (v : value) : bool :=
  match validate_date lib v with Some _ => true | None => false end.

Definition spec_field (k : string) (is_required : bool) (ok : value -> bool)
  (d : dict) : bool :=
  match Dict.get k d with
  | Some v => ok v
  | None => negb is_required
  end.

Definition spec_item (v : value) : bool :=
  match v with
  | VDict d =>
      spec_field "description" true (spec_text true) d
      && spec_field "quantity" false spec_nonneg_number d
      && spec_field "unit_price" true spec_nonneg_number d
  | _ => false
  end.

Definition spec_items (v : value) : bool :=
  match v with
  | VList l => forallb spec_item l
  | _ => false
  end.

Definition spec_section3 (d : dict) : bool :=
  spec_field "customer_name" true (spec_text true) d
  && spec_field "customer_email" true spec_email d
  && spec_field "customer_address" false (spec_optional (spec_text false)) d
  && spec_field "invoice_number" false (spec_optional (spec_text false)) d
  && spec_field "issue_date" true spec_date d
  && spec_field "due_date" false (spec_optional spec_date) d
  && spec_field "currency" false (spec_text false) d
  && spec_field "items" false spec_items d
  && spec_field "notes" false (spec_optional (spec_text false)) d
  && spec_field "status" false (spec_text false) d
  && spec_field "subtotal" false spec_nonneg_number d
  && spec_field "tax" false spec_nonneg_number d
  && spec_field "discount" false spec_nonneg_number d
  && spec_field "total" false spec_nonneg_number d.

End SpecConstraints.

(** *** The violations of a creation payload

    [violation body l]: the body breaks a field constraint at location [l]:
    a required field is missing, a value has a type the field does not take,
    a number is negative, the e-mail address or a date is malformed. A text
    field takes a string only. A number field takes a number and whatever
    the lax coercion of the library converts (pydantic converts a numeric
    string); it does not take an integer beyond the range of a float. *)

Definition is_text (v : value) : bool :=
  match v with VStr _ => true | _ => false end.

Definition is_list (v : value) : bool :=
  match v with VList _ => true | _ => false end.

Definition is_object (v : value) : bool :=
  match v with VDict _ => true | _ => false end.

Definition is_number (v : value) : bool :=
  match v with VNum _ => true | _ => false end.

Section Violations.

Variable lib : Library.

Inductive item_violation : value -> list loc_item -> Prop :=
| item_not_object v :
    is_object v = false -> item_violation v []
| item_missing d k :
    In k ["description"; "unit_price"] -> Dict.get k d = None ->
    item_violation (VDict d) [Key k]
| item_description_type d v :
    Dict.get "description" d = Some v -> is_text v = false ->
    item_violation (VDict d) [Key "description"]
| item_number_type d k v :
    In k ["quantity"; "unit_price"] -> Dict.get k d = Some v ->
    is_number v = false -> lax_float lib v = None ->
    item_violation (VDict d) [Key k]
| item_number_too_large d k z :
    In k ["quantity"; "unit_price"] -> Dict.get k d = Some (VNum (PyInt z)) ->
    float_overflows z = true ->
    item_violation (VDict d) [Key k]
| item_negative d k v f :
    In k ["quantity"; "unit_price"] -> Dict.get k d = Some v ->
    float_validator lib v = Valid f -> (f <? 0)%float = true ->
    item_violation (VDict d) [Key k].

Inductive violation : value -> list loc_item -> Prop :=
| body_not_object v :
    is_object v = false -> violation v []
| missing_field d k :
    In k ["customer_name"; "customer_email"; "issue_date"] ->
    Dict.get k d = None ->
    violation (VDict d) [Key k]
| text_type d k v :
    In k ["customer_name"; "customer_email"; "currency"; "status"] ->
    Dict.get k d = Some v -> is_text v = false ->
    violation (VDict d) [Key k]
| optional_text_type d k v :
    In k ["customer_address"; "invoice_number"; "notes"] ->
    Dict.get k d = Some v -> is_text v = false -> v <> VNone ->
    violation (VDict d) [Key k]
| number_type d k v :
    In k ["subtotal"; "tax"; "discount"; "total"] ->
    Dict.get k d = Some v -> is_number v = false -> lax_float lib v = None ->
    violation (VDict d) [Key k]
| number_too_large d k z :
    In k ["subtotal"; "tax"; "discount"; "total"] ->
    Dict.get k d = Some (VNum (PyInt z)) -> float_overflows z = true ->
    violation (VDict d) [Key k]
| negative_number d k v f :
    In k ["subtotal"; "tax"; "discount"; "total"] ->
    Dict.get k d = Some v ->
    float_validator lib v = Valid f -> (f <? 0)%float = true ->
    violation (VDict d) [Key k]
| malformed_email d s :
    Dict.get "customer_email" d = Some (VStr s) ->
    validate_email lib s = None ->
    violation (VDict d) [Key "customer_email"]
| malformed_issue_date d v :
    Dict.get "issue_date" d = Some v -> validate_date lib v = None ->
    violation (VDict d) [Key "issue_date"]
| malformed_due_date d v :
    Dict.get "due_date" d = Some v -> v <> VNone ->
    validate_date lib v = None ->
    violation (VDict d) [Key "due_date"]
| items_type d v :
    Dict.get "items" d = Some v -> is_list v = false ->
    violation (VDict d) [Key "items"]
| in_item d l i v loc :
    Dict.get "items" d = Some (VList l) -> nth_error l i = Some v ->
    item_violation v loc ->
    violation (VDict d) (Key "items" :: Index i :: loc).

End Violations.

(** ** A concrete library, for running the handlers

    Simple stand-ins for the library functions: 24 hexadecimal digits make
    an ObjectId, [YYYY-MM-DD] a date, [local@domain.tld] an e-mail address;
    nothing but a number is coerced to a float; the store numbers its
    documents. They are used in examples only. *)

Module Reference.

Definition is_digit (c : ascii) : bool :=
  let n := nat_of_ascii c in (48 <=? n)%nat && (n <=? 57)%nat.

Definition is_hex (c : ascii) : bool :=
  let n := nat_of_ascii c in
  is_digit c || ((97 <=? n)%nat && (n <=? 102)%nat)
             || ((65 <=? n)%nat && (n <=? 70)%nat).

Definition lower (c : ascii) : ascii :=
  let n := nat_of_ascii c in
  if (65 <=? n)%nat && (n <=? 90)%nat then ascii_of_nat (n + 32) else c.

Fixpoint all_chars (p : ascii -> bool) (s : string) : bool :=
  match s with
  | EmptyString => true
  | String c s' => p c && all_chars p s'
  end.

Fixpoint map_chars (f : ascii -> ascii) (s : string) : string :=
  match s with
  | EmptyString => EmptyString
  | String c s' => String (f c) (map_chars f s')
  end.

Definition objectid_new (s : string) : option ObjectId :=
  if (String.length s =? 24)%nat && all_chars is_hex s
  then Some (map_chars lower s) else None.

Definition digit_value (c : ascii) : Z := Z.of_nat (nat_of_ascii c) - 48.

Fixpoint number_of (s : string) (acc : Z) : Z :=
  match s with
  | EmptyString => acc
  | String c s' => number_of s' (10 * acc + digit_value c)
  end.

Definition parse_date (v : value) : option date :=
  match v with
  | VStr s =>
      let y := substring 0 4 s in
      let m := substring 5 2 s in
      let d := substring 8 2 s in
      if (String.length s =? 10)%nat
         && String.eqb (substring 4 1 s) "-"
         && String.eqb (substring 7 1 s) "-"
         && all_chars is_digit y && all_chars is_digit m
         && all_chars is_digit d
         && (1 <=? number_of m 0) && (number_of m 0 <=? 12)
         && (1 <=? number_of d 0) && (number_of d 0 <=? 28)
      then Some (mkDate (number_of y 0) (number_of m 0) (number_of d 0))
      else None
  | _ => None
  end.

Definition digit_char (z : Z) : ascii := ascii_of_nat (Z.to_nat (48 + z mod 10)).

Fixpoint digits (width : nat) (z : Z) (acc : string) : string :=
  match width with
  | O => acc
  | S w => digits w (z / 10) (String (digit_char z) acc)
  end.

Definition iso (d : date) : string :=
  (digits 4 (year d) EmptyString ++ "-" ++ digits 2 (month d) EmptyString ++ "-"
     ++ digits 2 (day d) EmptyString)%string.

Fixpoint count_char (c : ascii) (s : string) : nat :=
  match s with
  | EmptyString => O
  | String c' s' => ((if Ascii.eqb c c' then 1 else 0) + count_char c s')%nat
  end.

Definition is_atom_char (c : ascii) : bool :=
  let n := nat_of_ascii c in
  is_digit c || ((97 <=? n)%nat && (n <=? 122)%nat)
             || Ascii.eqb c "."%char || Ascii.eqb c "-"%char
             || Ascii.eqb c "@"%char.

Definition email (s : string) : option string :=
  match index 0 "@" s with
  | Some i =>
      let domain := substring (S i) (String.length s - S i) s in
      if (1 <=? i)%nat && (count_char "@"%char s =? 1)%nat
         && all_chars is_atom_char s
         && match index 1 "." domain with
            | Some j => (S j <? String.length domain)%nat
            | None => false
            end
      then Some s else None
  | None => None
  end.

Definition next_id (st : store) : ObjectId :=
  digits 24 (Z.of_nat (List.length st)) EmptyString.

Definition lib : Library :=
  {| ObjectId_new := objectid_new;
     ObjectId_str := fun o => o;
     repr := fun _ => "<object>";
     isoformat := iso;
     validate_email := email;
     validate_date := parse_date;
     lax_float := fun _ => None;
     generate_id := next_id |}.

(** A decimal numeral, digits with at most one point between them, read as
    a float; pydantic's lax mode converts such a string for a [float]
    field. *)
Definition float_of_text (v : value) : option float :=
  match v with
  | VStr s =>
      match index 0 "." s with
      | Some i =>
          let whole := substring 0 i s in
          let fraction := substring (S i) (String.length s - S i) s in
          if (1 <=? String.length whole)%nat
             && (1 <=? String.length fraction)%nat
             && all_chars is_digit whole && all_chars is_digit fraction
          then Some (decimal (number_of (whole ++ fraction)%string 0)
                             (Pos.of_nat (String.length fraction)))
          else None
      | None =>
          if (1 <=? String.length s)%nat && all_chars is_digit s
          then Some (float_of_int (number_of s 0))
          else None
      end
  | _ => None
  end.

(** The same library with that coercion. *)
Definition lax_lib : Library :=
  {| ObjectId_new := objectid_new;
     ObjectId_str := fun o => o;
     repr := fun _ => "<object>";
     isoformat := iso;
     validate_email := email;
     validate_date := parse_date;
     lax_float := float_of_text;
     generate_id := next_id |}.

(** The request body of the specification's first example. *)
Definition widget_fields : dict :=
  [ ("customer_name", VStr "Ada Lovelace");
    ("customer_email", VStr "ada@analytical.io");
    ("issue_date", VStr "2024-03-01");
    ("items", VList [ VDict [ ("description", VStr "Widget");
                              ("quantity", VNum (PyInt 2));
                              ("unit_price", VNum (PyFloat (decimal 999 2))) ] ]);
    ("subtotal", VNum (PyInt 0));
    ("tax", VNum (PyFloat (decimal 15 1)));
    ("discount", VNum (PyInt 0));
    ("total", VNum (PyInt 0)) ].

Definition widget_body : value := VDict widget_fields.


(** The body of the specification's second example: no items, tax 0,
    discount 5. *)
Definition discount_body : value :=
  VDict [ ("customer_name", VStr "Ada Lovelace");
          ("customer_email", VStr "ada@analytical.io");
          ("issue_date", VStr "2024-03-01");
          ("items", VList []);
          ("subtotal", VNum (PyInt 0));
          ("tax", VNum (PyInt 0));
          ("discount", VNum (PyInt 5));
          ("total", VNum (PyInt 0)) ].

(** A body whose discount lies between the stored subtotal plus tax and the
    unrounded sum plus tax: one item at 6137.865, tax 518150.13999999996,
    discount 524288. *)
Definition between_body : value :=
  VDict [ ("customer_name", VStr "Ada Lovelace");
          ("customer_email", VStr "ada@analytical.io");
          ("issue_date", VStr "2024-03-01");
          ("items", VList [ VDict [ ("description", VStr "Survey");
                                    ("quantity", VNum (PyInt 1));
                                    ("unit_price",
                                     VNum (PyFloat 0x1.7f9dd70a3d70ap+12)) ] ]);
          ("subtotal", VNum (PyInt 0));
          ("tax", VNum (PyFloat 0x1.fa0188f5c28f5p+18));
          ("discount", VNum (PyFloat 0x1p+19));
          ("total", VNum (PyInt 0)) ].

(** The Widget request without [subtotal] and [total]. *)
Definition widget_body_without_totals : dict :=
  [ ("customer_name", VStr "Ada Lovelace");
    ("customer_email", VStr "ada@analytical.io");
    ("issue_date", VStr "2024-03-01");
    ("items", VList [ VDict [ ("description", VStr "Widget");
                              ("quantity", VNum (PyInt 2));
                              ("unit_price", VNum (PyFloat (decimal 999 2))) ] ]);
    ("tax", VNum (PyFloat (decimal 15 1)));
    ("discount", VNum (PyInt 0)) ].

(** The Widget request with a negative quantity. *)
Definition negative_quantity_body : value :=
  VDict [ ("customer_name", VStr "Ada Lovelace");
          ("customer_email", VStr "ada@analytical.io");
          ("issue_date", VStr "2024-03-01");
          ("items", VList [ VDict [ ("description", VStr "Widget");
                                    ("quantity", VNum (PyInt (-2)));
                                    ("unit_price", VNum (PyFloat (decimal 999 2))) ] ]);
          ("subtotal", VNum (PyInt 0));
          ("total", VNum (PyInt 0)) ].

(** The Widget request with the tax written as a string. *)
Definition text_tax_body : value :=
  VDict [ ("customer_name", VStr "Ada Lovelace");
          ("customer_email", VStr "ada@analytical.io");
          ("issue_date", VStr "2024-03-01");
          ("items", VList [ VDict [ ("description", VStr "Widget");
                                    ("quantity", VNum (PyInt 2));
                                    ("unit_price", VNum (PyFloat (decimal 999 2))) ] ]);
          ("subtotal", VNum (PyInt 0));
          ("tax", VStr "1.5");
          ("discount", VNum (PyInt 0));
          ("total", VNum (PyInt 0)) ].

(** The Widget request with tax [-Infinity], as the JSON decoder reads the
    literal. *)
Definition infinite_tax_body : value :=
  VDict [ ("customer_name", VStr "Ada Lovelace");
          ("customer_email", VStr "ada@analytical.io");
          ("issue_date", VStr "2024-03-01");
          ("items", VList [ VDict [ ("description", VStr "Widget");
                                    ("quantity", VNum (PyInt 2));
                                    ("unit_price", VNum (PyFloat (decimal 999 2))) ] ]);
          ("subtotal", VNum (PyInt 0));
          ("tax", VNum (PyFloat neg_infinity));
          ("discount", VNum (PyInt 0));
          ("total", VNum (PyInt 0)) ].



(** A stored document with fields beyond the public ones, and one that
    lacks most of them. *)
Definition sample_store : store :=
  [ ("invoice",
     [ ("_id", VOid "00000000000000000000002a");
       ("customer_name", VStr "Ada Lovelace");
       ("customer_email", VStr "ada@analytical.io");
       ("issue_date", VDate (mkDate 2024 3 1));
       ("status", VStr "paid");
       ("total", VNum (PyFloat (decimal 2148 2)));
       ("owner_notes", VStr "late payer");
       ("created_at", VDate (mkDate 2024 3 1));
       ("id", VStr "shadow") ]);
    ("invoice",
     [ ("_id", VOid "00000000000000000000002b");
       ("customer_name", VStr "Charles Babbage") ]) ].

End Reference.

(** ** More sample data *)

Module Samples.

(** A stored invoice with owner-only fields and two dates. *)
Definition owner_document : dict :=
  [ ("_id", VOid "00000000000000000000002a");
    ("customer_name", VStr "Ada Lovelace");
    ("issue_date", VDate (mkDate 2024 3 1));
    ("due_date", VNone);
    ("status", VStr "paid");
    ("owner_notes", VStr "late payer");
    ("created_at", VDate (mkDate 2024 3 2)) ].

(** A document whose [_id] is the integer 0. *)
Definition zero_id_document : dict :=
  [ ("_id", VNum (PyInt 0)); ("customer_name", VStr "Charles Babbage") ].

(** An environment with the database URL set and the name set to the empty
    string. *)
Definition environment (name : string) : option string :=
  if String.eqb name "DATABASE_URL" then Some "mongodb://localhost"
  else if String.eqb name "DATABASE_NAME" then Some EmptyString
  else None.

(** A driver whose listing of collection names fails. *)
Definition failing_listing (st : store) : option (list string) := None.

(** A gateway that returns the first [limit] documents of a collection
    (all of them without a limit). *)
Definition first_documents (st : store) (name : string) (limit : option Z)
  : list dict :=
  match limit with
  | Some n => firstn (Z.to_nat n) (collection st name)
  | None => collection st name
  end.

(** A request with only the required fields. *)
Definition minimal_fields : dict :=
  [ ("customer_name", VStr "Ada Lovelace");
    ("customer_email", VStr "ada@analytical.io");
    ("issue_date", VStr "2024-03-01");
    ("subtotal", VNum (PyInt 7));
    ("total", VNum (PyInt 9)) ].

(** An item without a quantity. *)
Definition delivery_item_fields : dict :=
  [ ("description", VStr "Delivery");
    ("unit_price", VNum (PyFloat (decimal 45 1))) ].

(** A request with two items, the second without a quantity. *)
Definition two_items_fields : dict :=
  [ ("customer_name", VStr "Ada Lovelace");
    ("customer_email", VStr "ada@analytical.io");
    ("issue_date", VStr "2024-03-01");
    ("due_date", VStr "2024-04-01");
    ("items", VList [ VDict [ ("description", VStr "Widget");
                              ("quantity", VNum (PyInt 2));
                              ("unit_price", VNum (PyFloat (decimal 999 2))) ];
                      VDict delivery_item_fields ]);
    ("subtotal", VNum (PyInt 0));
    ("tax", VNum (PyFloat (decimal 15 1)));
    ("total", VNum (PyInt 0)) ].

(** What the route answers to it on an empty store. *)
Definition two_items_outcome : option store * response :=
  post_api_invoices Reference.lib (Some []) (VDict two_items_fields).

Definition two_items_content : value :=
  match snd two_items_outcome with
  | JSONResponse content => content
  | _ => VNone
  end.

End Samples.

(** * Properties *)

(** ** Dicts *)

Module DictFacts.

Lemma get_set_same (k : string) (v : value) (d : dict) :
  Dict.get k (Dict.set k v d) = Some v.
Proof.
  induction d as [|[k' v'] d IH]; simpl.
  - now rewrite String.eqb_refl.
  - destruct (String.eqb k k') eqn:E; simpl; rewrite ?String.eqb_refl, ?E; auto.
Qed.

Lemma get_set_other (k k' : string) (v : value) (d : dict) :
  k <> k' -> Dict.get k (Dict.set k' v d) = Dict.get k d.
Proof.
  intros Hk. apply String.eqb_neq in Hk.
  induction d as [|[k0 v0] d IH]; simpl.
  - now rewrite Hk.
  - destruct (String.eqb k' k0) eqn:E; simpl.
    + apply String.eqb_eq in E. subst k0. now rewrite Hk.
    + now rewrite IH.
Qed.

Lemma get_remove_other (k k' : string) (d : dict) :
  k <> k' -> Dict.get k (Dict.remove k' d) = Dict.get k d.
Proof.
  intros Hk. apply String.eqb_neq in Hk.
  induction d as [|[k0 v0] d IH]; simpl; auto.
  destruct (String.eqb k' k0) eqn:E; simpl.
  - apply String.eqb_eq in E. subst k0. now rewrite Hk.
  - now rewrite IH.
Qed.

End DictFacts.

(** ** Values inside values *)

Module LeafFacts.

Lemma every_leaf_get (p : value -> bool) (k : string) (d : dict) (v : value) :
  every_leaf p (VDict d) = true -> Dict.get k d = Some v ->
  every_leaf p v = true.
Proof.
  cbn [every_leaf]. induction d as [|[k' v'] d IH]; cbn [forallb Dict.get snd].
  - discriminate.
  - intros H Hg. apply andb_true_iff in H. destruct H as [Hv Hd].
    destruct (String.eqb k k'); [now injection Hg as <- | now apply IH].
Qed.

Lemma every_leaf_nth (p : value -> bool) (l : list value) (i : nat)
  (v : value) :
  every_leaf p (VList l) = true -> nth_error l i = Some v ->
  every_leaf p v = true.
Proof.
  cbn [every_leaf]. intros H Hn.
  apply nth_error_In in Hn. rewrite forallb_forall in H. now apply H.
Qed.

(** What holds of every leaf of a value holds of every leaf of any value
    inside it. *)
Lemma every_leaf_at (p : value -> bool) (l : list loc_item) (v x : value) :
  every_leaf p v = true -> value_at v l = Some x -> every_leaf p x = true.
Proof.
  revert v. induction l as [|[k|i] l IH]; intros v Hv Hx; cbn [value_at] in Hx.
  - now injection Hx as <-.
  - destruct v; try discriminate.
    destruct (Dict.get k d) as [y|] eqn:E; [|discriminate].
    exact (IH y (every_leaf_get p k d y Hv E) Hx).
  - destruct v; try discriminate.
    destruct (nth_error l0 i) as [y|] eqn:E; [|discriminate].
    exact (IH y (every_leaf_nth p l0 i y Hv E) Hx).
Qed.

(** A value that holds an infinity or a NaN under one of its keys, or among
    its elements, cannot be rendered. *)
Lemma not_compliant_get (k : string) (d : dict) (f : float) :
  Dict.get k d = Some (VNum (PyFloat f)) -> is_finite f = false ->
  json_compliant (VDict d) = false.
Proof.
  intros Hg Hf. destruct (json_compliant (VDict d)) eqn:E; [|reflexivity].
  pose proof (every_leaf_get json_leaf k d _ E Hg) as H. simpl in H.
  congruence.
Qed.

Lemma not_compliant_In (v : value) (l : list value) :
  In v l -> json_compliant v = false -> json_compliant (VList l) = false.
Proof.
  intros Hin Hv. destruct (json_compliant (VList l)) eqn:E; [|reflexivity].
  unfold json_compliant in E. cbn [every_leaf] in E.
  rewrite forallb_forall in E. specialize (E v Hin).
  unfold json_compliant in Hv. congruence.
Qed.

(** The views of a created invoice can be rendered exactly when its numbers
    are finite. *)
Lemma compliant_items (l : list InvoiceItem) :
  forallb (every_leaf json_leaf) (map dump_item l) = forallb finite_item l.
Proof.
  induction l as [|item l IH]; [reflexivity|].
  cbn [map forallb]. rewrite IH. f_equal.
  unfold dump_item, finite_item. cbn [every_leaf forallb snd json_leaf andb].
  rewrite andb_true_r. now destruct (quantity item).
Qed.

Lemma compliant_number (n : number) : json_leaf (VNum n) = finite_number n.
Proof. now destruct n. Qed.

Lemma compliant_owner_view (lib : Library) (payload : Invoice) (id : string) :
  json_compliant (created_owner_view lib payload id) = finite_amounts payload.
Proof.
  unfold json_compliant, created_owner_view, finite_amounts.
  cbn [every_leaf forallb snd andb].
  rewrite compliant_items, !compliant_number.
  destruct (customer_address payload), (invoice_number payload),
    (due_date payload), (notes payload);
    cbn [dump_option every_leaf json_leaf andb];
    now rewrite !andb_true_r.
Qed.

Lemma compliant_public_view (lib : Library) (payload : Invoice) (id : string) :
  json_compliant (created_public_view lib payload id) = finite_amounts payload.
Proof.
  unfold json_compliant, created_public_view, finite_amounts.
  cbn [every_leaf forallb snd andb].
  rewrite compliant_items, !compliant_number.
  destruct (customer_address payload), (invoice_number payload),
    (due_date payload), (notes payload);
    cbn [dump_option every_leaf json_leaf andb];
    now rewrite !andb_true_r.
Qed.

Lemma value_at_app (v : value) (l1 l2 : list loc_item) :
  value_at v (l1 ++ l2)
  = match value_at v l1 with
    | Some x => value_at x l2
    | None => None
    end.
Proof.
  revert v. induction l1 as [|[k|i] l1 IH]; intros v; [reflexivity| |];
    cbn [app value_at]; destruct v; try reflexivity.
  - destruct (Dict.get k d); [apply IH | reflexivity].
  - destruct (nth_error l i); [apply IH | reflexivity].
Qed.

(** An error at a location whose value cannot be rendered echoes a value
    that cannot be rendered: that value, or the object around it. *)
Lemma error_input_not_compliant (body : value) (e : error_details) (x : value) :
  value_at body (loc e) = Some x -> json_compliant x = false ->
  json_compliant (error_input body e) = false.
Proof.
  intros Hx Hc. unfold error_input.
  assert (Hdirect : json_compliant
                      match value_at body (loc e) with
                      | Some v => v
                      | None => VNone
                      end = false) by now rewrite Hx.
  destruct (type_ e); try exact Hdirect.
  destruct (loc e) as [|i l] eqn:El; [exact Hdirect|].
  assert (Hne : i :: l <> []) by discriminate.
  rewrite (app_removelast_last (Key EmptyString) Hne), value_at_app in Hx.
  destruct (value_at body (removelast (i :: l))) as [parent|] eqn:Ep;
    [|discriminate].
  destruct (json_compliant parent) eqn:E; [|reflexivity].
  pose proof (every_leaf_at json_leaf _ parent x E Hx) as H.
  unfold json_compliant in Hc. congruence.
Qed.

Lemma report_not_compliant (body : value) (es : list error_details)
  (l : list loc_item) (x : value) :
  In l (map loc es) -> value_at body l = Some x -> json_compliant x = false ->
  report_compliant body es = false.
Proof.
  intros Hin Hx Hc. apply in_map_iff in Hin. destruct Hin as (e & <- & Hin).
  destruct (report_compliant body es) eqn:E; [|reflexivity].
  unfold report_compliant in E. rewrite forallb_forall in E.
  specialize (E e Hin).
  now rewrite (error_input_not_compliant body e x Hx Hc) in E.
Qed.

(** A body that can be rendered makes a report that can be. *)
Lemma report_compliant_of_body (body : value) (es : list error_details) :
  json_compliant body = true -> report_compliant body es = true.
Proof.
  intros H. unfold report_compliant. apply forallb_forall. intros e _.
  unfold error_input.
  destruct (value_at body _) as [x|] eqn:E; [|reflexivity].
  exact (every_leaf_at json_leaf _ body x H E).
Qed.

End LeafFacts.

(** ** Reading an invoice back *)

Section ReadProperties.

Variable lib : Library.

Lemma In_collection (st : store) (name : string) (doc : dict) :
  In doc (collection st name) <-> In (name, doc) st.
Proof.
  unfold collection. rewrite in_map_iff. split.
  - intros [[n d] [Hd Hin]]. simpl in Hd. subst d.
    apply filter_In in Hin. destruct Hin as [Hin Hn]. simpl in Hn.
    apply String.eqb_eq in Hn. now subst n.
  - intros Hin. exists (name, doc). split; [reflexivity|].
    apply filter_In. split; [assumption|]. simpl. apply String.eqb_refl.
Qed.

Lemma has_id_spec (oid : ObjectId) (doc : dict) :
  has_id oid doc = true <-> Dict.get "_id" doc = Some (VOid oid).
Proof.
  unfold has_id. destruct (Dict.get "_id" doc) as [[| | | | |o| |]|];
    try (split; [discriminate | intros [=]]).
  rewrite String.eqb_eq. split; [now intros -> | now intros [= ->]].
Qed.

(** A document found by its identifier carries it, so it is not empty. *)
Lemma find_one_Some (st : store) (name : string) (oid : ObjectId) (doc : dict) :
  find_one st name oid = Some doc ->
  In (name, doc) st /\ Dict.get "_id" doc = Some (VOid oid)
  /\ truthy (VDict doc) = true.
Proof.
  unfold find_one. intros H. apply find_some in H. destruct H as [Hin Hid].
  apply In_collection in Hin. apply has_id_spec in Hid.
  repeat split; try assumption.
  destruct doc; [discriminate | reflexivity].
Qed.

Lemma find_one_None (st : store) (name : string) (oid : ObjectId) :
  find_one st name oid = None <->
  ~ exists doc, In (name, doc) st /\ Dict.get "_id" doc = Some (VOid oid).
Proof.
  unfold find_one. split.
  - intros H [doc [Hin Hid]].
    apply In_collection in Hin. apply has_id_spec in Hid.
    pose proof (find_none _ _ H _ Hin) as Hf. congruence.
  - intros H. destruct (find (has_id oid) (collection st name)) as [doc|] eqn:E;
      [|reflexivity].
    exfalso. apply H. exists doc.
    apply find_some in E. destruct E as [Hin Hid].
    split; [now apply In_collection | now apply has_id_spec].
Qed.

Lemma get_invoice_outcome (db : option store) (invoice_id : string) :
  match lookup_outcome lib db invoice_id with
  | inl e => get_invoice lib db invoice_id = e
  | inr doc =>
      get_invoice lib db invoice_id
      = JSONResponse (VDict (serialize_invoice lib doc))
  end.
Proof.
  unfold lookup_outcome, get_invoice.
  destruct (ObjectId_new lib invoice_id) as [oid|]; [|reflexivity].
  destruct db as [st|]; [|reflexivity].
  destruct (find_one st "invoice" oid) as [doc|] eqn:E; [|reflexivity].
  apply find_one_Some in E. destruct E as (_ & _ & Ht). now rewrite Ht.
Qed.

Lemma public_invoice_outcome (db : option store) (invoice_id : string) :
  match lookup_outcome lib db invoice_id with
  | inl e => public_invoice lib db invoice_id = e
  | inr doc =>
      exists content, public_invoice lib db invoice_id = JSONResponse content
  end.
Proof.
  unfold lookup_outcome, public_invoice.
  destruct (ObjectId_new lib invoice_id) as [oid|]; [|reflexivity].
  destruct db as [st|]; [|reflexivity].
  destruct (find_one st "invoice" oid) as [doc|] eqn:E; [|reflexivity].
  apply find_one_Some in E. destruct E as (_ & _ & Ht). rewrite Ht.
  simpl. eexists. reflexivity.
Qed.

Lemma isoformat_keys_absent (k : string) (keys : list string) (d : dict) :
  Dict.get k d = None ->
  Dict.get k (fold_left (isoformat_key lib) keys d) = None.
Proof.
  revert d. induction keys as [|key keys IH]; intros d Hd; simpl; [assumption|].
  apply IH. unfold isoformat_key.
  destruct (Dict.get key d) as [[| | | |t| | |]|] eqn:E; try assumption.
  destruct (string_dec k key) as [->|Hne]; [congruence|].
  now rewrite DictFacts.get_set_other.
Qed.

Lemma isoformat_keys_other (k : string) (keys : list string) (d : dict) :
  ~ In k keys ->
  Dict.get k (fold_left (isoformat_key lib) keys d) = Dict.get k d.
Proof.
  revert d. induction keys as [|key keys IH]; intros d Hk; simpl; [reflexivity|].
  rewrite IH by (intros H; apply Hk; now right).
  unfold isoformat_key.
  destruct (Dict.get key d) as [[| | | |t| | |]|]; try reflexivity.
  apply DictFacts.get_set_other. intros ->. apply Hk. now left.
Qed.

(** [serialize_invoice] adds no key but ["id"]. *)
Lemma serialize_invoice_absent (k : string) (doc : dict) :
  k <> "id" -> Dict.get k doc = None ->
  Dict.get k (serialize_invoice lib doc) = None.
Proof.
  intros Hid Hk. unfold serialize_invoice.
  destruct (negb (truthy (VDict doc))); [assumption|].
  destruct (string_dec k "_id") as [->|Hne].
  - rewrite Hk. apply isoformat_keys_absent.
    now rewrite DictFacts.get_set_other.
  - destruct (Dict.get "_id" doc) as [v|]; [destruct (truthy v)|];
      apply isoformat_keys_absent;
      rewrite DictFacts.get_set_other by assumption;
      rewrite ?DictFacts.get_remove_other by assumption; assumption.
Qed.

(** The ["id"] of a serialized document that was found by its identifier. *)
Lemma serialize_invoice_id (oid : ObjectId) (doc : dict) :
  Dict.get "_id" doc = Some (VOid oid) ->
  Dict.get "id" (serialize_invoice lib doc)
  = Some (VStr (ObjectId_str lib oid)).
Proof.
  intros Hid. unfold serialize_invoice.
  destruct doc as [|e doc]; [discriminate|].
  cbn [truthy negb]. rewrite Hid. cbn [truthy py_str].
  rewrite isoformat_keys_other.
  - apply DictFacts.get_set_same.
  - unfold date_keys. simpl. intros [H|[H|[H|[H|[]]]]]; discriminate.
Qed.

End ReadProperties.

Section ReadClaims.

Variable lib : Library.

Lemma get_keys (k : string) (d : dict) :
  Dict.get k d <> None <-> In k (Dict.keys d).
Proof.
  induction d as [|[k' v] d IH]; simpl.
  - split; [congruence | tauto].
  - destruct (String.eqb k k') eqn:E.
    + apply String.eqb_eq in E. subst k'. split; [now left | congruence].
    + apply String.eqb_neq in E. rewrite IH. split; [now right|].
      intros [H|H]; [congruence | assumption].
Qed.

(** C4. Whatever the stored document holds, a successful answer of
    [GET /public/invoices/{invoice_id}] is an object whose keys are exactly
    the 15 public ones, in the order of the allowlist: a key is present if
    and only if it is on the list, so any other field of the stored document
    is left out. *)
Theorem public_invoice_exactly_public_keys
  (db : option store) (invoice_id : string) (content : value) :
  public_invoice lib db invoice_id = JSONResponse content ->
  exists d,
    content = VDict d
    /\ Dict.keys d = public_keys
    /\ List.length d = 15%nat
    /\ NoDup (Dict.keys d)
    /\ forall k, Dict.get k d <> None <-> In k public_keys.
Proof.
  unfold public_invoice. intros H.
  destruct (ObjectId_new lib invoice_id) as [oid|]; [|discriminate].
  destruct db as [st|]; [|discriminate].
  destruct (find_one st "invoice" oid) as [doc|]; [|discriminate].
  destruct (negb (truthy (VDict doc))); [discriminate|].
  injection H as <-. eexists. split; [reflexivity|].
  assert (Hk : forall A B C D E F G H I J K L M N O : value,
             Dict.keys [("id", A); ("invoice_number", B); ("customer_name", C);
                        ("customer_email", D); ("customer_address", E);
                        ("issue_date", F); ("due_date", G); ("currency", H);
                        ("items", I); ("notes", J); ("status", K);
                        ("subtotal", L); ("tax", M); ("discount", N);
                        ("total", O)] = public_keys) by reflexivity.
  split; [apply Hk|]. split; [reflexivity|]. split.
  - rewrite Hk. unfold public_keys.
    repeat (constructor; [simpl; intuition discriminate|]). constructor.
  - intros k. rewrite get_keys. now rewrite Hk.
Qed.

(** C5. Both read routes answer 400 exactly when the identifier is not a
    well-formed store identifier and, on a connected store, 404 exactly when
    it is well-formed and no invoice document carries it; the two routes
    fail on the same requests with the same error. *)
Theorem read_routes_error_semantics :
  (forall db invoice_id,
      status_of (get_invoice lib db invoice_id) = 400
      <-> ObjectId_new lib invoice_id = None)
  /\ (forall db invoice_id,
      status_of (public_invoice lib db invoice_id) = 400
      <-> ObjectId_new lib invoice_id = None)
  /\ (forall st invoice_id,
      status_of (get_invoice lib (Some st) invoice_id) = 404
      <-> exists oid,
            ObjectId_new lib invoice_id = Some oid
            /\ ~ exists doc, In ("invoice", doc) st
                             /\ Dict.get "_id" doc = Some (VOid oid))
  /\ (forall st invoice_id,
      status_of (public_invoice lib (Some st) invoice_id) = 404
      <-> exists oid,
            ObjectId_new lib invoice_id = Some oid
            /\ ~ exists doc, In ("invoice", doc) st
                             /\ Dict.get "_id" doc = Some (VOid oid))
  /\ (forall db invoice_id,
      failure (get_invoice lib db invoice_id)
      = failure (public_invoice lib db invoice_id)).
Proof.
  assert (H400 : forall db invoice_id,
             match lookup_outcome lib db invoice_id with
             | inl e => status_of e = 400
             | inr _ => False
             end <-> ObjectId_new lib invoice_id = None).
  { intros db invoice_id. unfold lookup_outcome.
    destruct (ObjectId_new lib invoice_id) as [oid|];
      [|split; reflexivity].
    destruct db as [st|]; [|split; discriminate].
    destruct (find_one st "invoice" oid); split;
      (discriminate || contradiction). }
  assert (H404 : forall st invoice_id,
             match lookup_outcome lib (Some st) invoice_id with
             | inl e => status_of e = 404
             | inr _ => False
             end <-> exists oid,
               ObjectId_new lib invoice_id = Some oid
               /\ ~ exists doc, In ("invoice", doc) st
                                /\ Dict.get "_id" doc = Some (VOid oid)).
  { intros st invoice_id. unfold lookup_outcome.
    destruct (ObjectId_new lib invoice_id) as [oid|].
    - destruct (find_one st "invoice" oid) as [doc|] eqn:E.
      + split; [contradiction|]. intros [o [[= <-] Hno]].
        apply find_one_None in Hno. congruence.
      + split; [|reflexivity]. intros _. exists oid.
        split; [reflexivity | now apply find_one_None].
    - split; [discriminate|]. intros [o [[=] _]]. }
  split; [|split; [|split; [|split]]].
  - intros db invoice_id. specialize (H400 db invoice_id).
    pose proof (get_invoice_outcome lib db invoice_id) as Ho.
    destruct (lookup_outcome lib db invoice_id); rewrite Ho; simpl;
      rewrite <- H400; split; (discriminate || tauto).
  - intros db invoice_id. specialize (H400 db invoice_id).
    pose proof (public_invoice_outcome lib db invoice_id) as Ho.
    destruct (lookup_outcome lib db invoice_id);
      [rewrite Ho | destruct Ho as [c ->]]; simpl;
      rewrite <- H400; split; (discriminate || tauto).
  - intros st invoice_id. specialize (H404 st invoice_id).
    pose proof (get_invoice_outcome lib (Some st) invoice_id) as Ho.
    destruct (lookup_outcome lib (Some st) invoice_id); rewrite Ho; simpl;
      rewrite <- H404; split; (discriminate || tauto).
  - intros st invoice_id. specialize (H404 st invoice_id).
    pose proof (public_invoice_outcome lib (Some st) invoice_id) as Ho.
    destruct (lookup_outcome lib (Some st) invoice_id);
      [rewrite Ho | destruct Ho as [c ->]]; simpl;
      rewrite <- H404; split; (discriminate || tauto).
  - intros db invoice_id.
    pose proof (get_invoice_outcome lib db invoice_id) as Hg.
    pose proof (public_invoice_outcome lib db invoice_id) as Hp.
    destruct (lookup_outcome lib db invoice_id) as [e|doc].
    + now rewrite Hg, Hp.
    + destruct Hp as [c ->]. now rewrite Hg.
Qed.

(** C10. In a successful answer of [GET /public/invoices/{invoice_id}]
    every one of the 15 public keys is present. The answer is built from
    the stored document found under the identifier: ["id"] is the string
    form of that identifier, and any other public key whose field the
    stored document lacks comes back as null, except ["items"], which comes
    back as the empty list. *)
Theorem public_invoice_absent_fields
  (db : option store) (invoice_id : string) (content : value) :
  public_invoice lib db invoice_id = JSONResponse content ->
  exists st oid doc d,
    db = Some st
    /\ ObjectId_new lib invoice_id = Some oid
    /\ find_one st "invoice" oid = Some doc
    /\ In ("invoice", doc) st
    /\ Dict.get "_id" doc = Some (VOid oid)
    /\ content = VDict d
    /\ (forall k, In k public_keys -> exists v, Dict.get k d = Some v)
    /\ Dict.get "id" d = Some (VStr (ObjectId_str lib oid))
    /\ (forall k, In k public_keys -> k <> "id" ->
        Dict.get k doc = None ->
        Dict.get k d = Some (if String.eqb k "items" then VList [] else VNone)).
Proof.
  unfold public_invoice. intros H.
  destruct (ObjectId_new lib invoice_id) as [oid|]; [|discriminate].
  destruct db as [st|]; [|discriminate].
  destruct (find_one st "invoice" oid) as [doc|] eqn:Hfind; [|discriminate].
  destruct (negb (truthy (VDict doc))); [discriminate|].
  injection H as <-.
  destruct (find_one_Some _ _ _ _ Hfind) as (Hin & Hid & _).
  exists st, oid, doc. eexists.
  do 5 (split; [reflexivity || assumption|]).
  split; [reflexivity|].
  split; [|split].
  - intros k Hk. unfold public_keys in Hk. simpl in Hk.
    repeat (destruct Hk as [<-|Hk]; [eexists; reflexivity|]). contradiction.
  - cbn [Dict.get String.eqb Ascii.eqb Bool.eqb]. unfold Dict.get_default.
    now rewrite (serialize_invoice_id lib oid doc Hid).
  - intros k Hk Hne Hnone.
    pose proof (serialize_invoice_absent lib k doc Hne Hnone) as Hs.
    unfold public_keys in Hk. simpl in Hk.
    destruct Hk as [<-|Hk]; [congruence|].
    repeat (destruct Hk as [<-|Hk];
            [cbn [Dict.get String.eqb Ascii.eqb Bool.eqb];
             unfold Dict.get_default; now rewrite Hs|]).
    contradiction.
Qed.

End ReadClaims.

(** ** Binary64 arithmetic *)

Module FloatFacts.

Lemma shr_1_nonneg (mrs : shr_record) :
  0 <= shr_m mrs -> 0 <= shr_m (shr_1 mrs).
Proof.
  destruct mrs as [m r s]. simpl.
  destruct m as [|[p|p|]|[p|p|]]; simpl; lia.
Qed.

Lemma iter_pos_shr_1_nonneg (p : positive) (mrs : shr_record) :
  0 <= shr_m mrs -> 0 <= shr_m (iter_pos shr_1 p mrs).
Proof.
  revert mrs. induction p as [p IH|p IH|]; intros mrs H; simpl.
  - apply IH, IH, shr_1_nonneg, H.
  - apply IH, IH, H.
  - apply shr_1_nonneg, H.
Qed.

Lemma shr_fexp_nonneg (m e : Z) (l : location) :
  0 <= m -> 0 <= shr_m (fst (shr_fexp prec emax m e l)).
Proof.
  intros H. unfold shr_fexp, shr.
  assert (H0 : 0 <= shr_m (shr_record_of_loc m l))
    by (destruct l as [|[| |]]; exact H).
  destruct (fexp prec emax (Zdigits2 m + e) - e); simpl; try assumption.
  now apply iter_pos_shr_1_nonneg.
Qed.

Lemma round_nearest_even_nonneg (m : Z) (l : location) :
  0 <= m -> 0 <= round_nearest_even m l.
Proof.
  intros H. destruct l as [|[| |]]; simpl; try lia.
  destruct (Z.even m); lia.
Qed.

(** Rounding keeps the sign it is given, and a mantissa that is not
    negative never rounds to a NaN. *)
Lemma binary_round_aux_shape (s : bool) (m e : Z) (l : location) :
  0 <= m ->
  has_sign s (binary_round_aux prec emax s m e l).
Proof.
  intros H. unfold has_sign, binary_round_aux.
  pose proof (shr_fexp_nonneg m e l H) as H1.
  destruct (shr_fexp prec emax m e l) as [mrs' e']. simpl in H1.
  pose proof (shr_fexp_nonneg _ e' loc_Exact
                (round_nearest_even_nonneg _ (loc_of_shr_record mrs') H1)) as H2.
  destruct (shr_fexp prec emax _ e' loc_Exact) as [mrs'' e'']. simpl in H2.
  destruct (shr_m mrs''); [reflexivity | | lia].
  destruct (e'' <=? emax - prec); reflexivity.
Qed.

Lemma binary_round_shape (s : bool) (m : positive) (e : Z) :
  has_sign s (binary_round prec emax s m e).
Proof.
  unfold binary_round.
  destruct (shl_align m e _) as [mz ez].
  apply binary_round_aux_shape. lia.
Qed.

Lemma SFdiv_core_nonneg (m1 m2 : positive) (e1 e2 : Z) :
  0 <= fst (fst (SFdiv_core_binary prec emax (Zpos m1) e1 (Zpos m2) e2)).
Proof.
  unfold SFdiv_core_binary.
  set (s := e1 - e2 - _).
  set (m' := match s with Z0 => Zpos m1 | Zpos _ => Z.shiftl (Zpos m1) s | Zneg _ => 0 end).
  assert (Hm : 0 <= m').
  { unfold m'. destruct s; try lia. apply Z.shiftl_nonneg. lia. }
  pose proof (Z.div_eucl_eq m' (Zpos m2) ltac:(lia)) as Heq.
  pose proof (Z.mod_pos_bound m' (Zpos m2) ltac:(lia)) as Hr.
  pose proof (Z.div_pos m' (Zpos m2) Hm ltac:(lia)) as Hq.
  unfold Z.modulo, Z.div in *.
  destruct (Z.div_eucl m' (Zpos m2)) as [q r]. simpl. exact Hq.
Qed.

(** The quotient of two positive numbers is not below zero. *)
Lemma SFdiv_pos_shape (s : bool) (m1 m2 : positive) (e1 e2 : Z) :
  has_sign s (SFdiv prec emax (S754_finite s m1 e1) (S754_finite false m2 e2)).
Proof.
  unfold SFdiv.
  pose proof (SFdiv_core_nonneg m1 m2 e1 e2) as H.
  destruct (SFdiv_core_binary prec emax (Zpos m1) e1 (Zpos m2) e2) as [[mz ez] lz].
  simpl in H. rewrite xorb_false_r. now apply binary_round_aux_shape.
Qed.

Lemma has_sign_opp (s : bool) (x : spec_float) :
  has_sign s x -> has_sign (negb s) (SFopp x).
Proof. destruct x; simpl; congruence. Qed.

(** Reading a signed number into a primitive float keeps its sign. *)
Lemma SF2Prim_sign (s : bool) (y : spec_float) :
  has_sign s y -> has_sign s (Prim2SF (SF2Prim y)).
Proof.
  destruct y as [s'|s'| |s' m e]; simpl; try contradiction.
  - intros ->. now destruct s.
  - intros ->. now destruct s.
  - intros ->.
    assert (Hf : has_sign false
                   (Prim2SF (Z.ldexp (of_uint63 (Uint63.of_Z (Zpos m))) e))).
    { rewrite Z_ldexp_spec, of_uint63_spec.
      pose proof (Uint63.to_Z_bounded (Uint63.of_Z (Zpos m))) as Hb.
      destruct (Uint63.to_Z (Uint63.of_Z (Zpos m))) as [|p|p]; simpl; [reflexivity| |lia].
      pose proof (binary_round_shape false p 0) as Hr.
      destruct (binary_round prec emax false p 0) as [s1|s1| |s1 m1 e1];
        simpl in *; try assumption.
      subst s1. apply binary_round_shape. }
    destruct s; [|assumption].
    rewrite opp_spec. now apply (has_sign_opp false).
Qed.

(** [round(x, 2)] keeps the sign of a finite non-zero [x] and leaves every
    other float as it is. *)
Lemma float_round2_sign (f : float) :
  match Prim2SF f with
  | S754_finite s _ _ => has_sign s (Prim2SF (float_round2 f))
  | _ => float_round2 f = f
  end.
Proof.
  unfold float_round2. destruct (Prim2SF f) as [s|s| |s m e]; try reflexivity.
  destruct (hundredths m e) as [|n|n]; try (now destruct s).
  apply SF2Prim_sign, SFdiv_pos_shape.
Qed.

(** *** Subtraction of a larger number *)

Lemma digits2_pos_bounds (m : positive) :
  2 ^ (Zpos (digits2_pos m) - 1) <= Zpos m < 2 ^ Zpos (digits2_pos m).
Proof.
  induction m as [m IH|m IH|]; simpl digits2_pos; [| |simpl; lia].
  - rewrite Pos2Z.inj_succ.
    replace (Z.succ (Zpos (digits2_pos m)) - 1)
      with (Z.succ (Zpos (digits2_pos m) - 1)) by lia.
    rewrite !Z.pow_succ_r by lia. lia.
  - rewrite Pos2Z.inj_succ.
    replace (Z.succ (Zpos (digits2_pos m)) - 1)
      with (Z.succ (Zpos (digits2_pos m) - 1)) by lia.
    rewrite !Z.pow_succ_r by lia. lia.
Qed.

Lemma bounded_digits (m : positive) (e : Z) :
  bounded prec emax m e = true ->
  Zpos (digits2_pos m) <= 53 /\ -1074 <= e
  /\ (-1074 < e -> Zpos (digits2_pos m) = 53).
Proof.
  unfold bounded, canonical_mantissa, fexp, SpecFloat.emin, prec, emax.
  intros H. apply andb_true_iff in H. destruct H as [H _].
  apply Z.eqb_eq in H. lia.
Qed.

Lemma iter_xO (m d : positive) :
  Zpos (Pos.iter xO m d) = Zpos m * 2 ^ Zpos d.
Proof.
  induction d as [|d IH] using Pos.peano_ind.
  - simpl. lia.
  - rewrite Pos.iter_succ, Pos2Z.inj_succ, Z.pow_succ_r by lia.
    rewrite Pos2Z.inj_xO, IH. lia.
Qed.

Lemma shl_align_fst (m : positive) (e e' : Z) :
  e' <= e -> Zpos (fst (shl_align m e e')) = Zpos m * 2 ^ (e - e').
Proof.
  intros H. unfold shl_align.
  destruct (e' - e) as [|d|d] eqn:E; cbn [fst]; try lia.
  - replace (e - e') with 0 by lia. rewrite Z.pow_0_r. lia.
  - rewrite iter_xO. f_equal. f_equal. lia.
Qed.

(** Of two representable positive numbers, the one with the smaller
    exponent is the smaller. *)
Lemma bounded_exponent_lt (mx my : positive) (ex ey : Z) :
  bounded prec emax mx ex = true -> bounded prec emax my ey = true ->
  ex < ey -> Zpos mx < Zpos my * 2 ^ (ey - ex).
Proof.
  intros Hx Hy Hlt.
  apply bounded_digits in Hx. destruct Hx as (Hdx & Hex & _).
  apply bounded_digits in Hy. destruct Hy as (_ & _ & Hdy).
  specialize (Hdy ltac:(lia)).
  pose proof (digits2_pos_bounds mx) as [_ Hmx].
  pose proof (digits2_pos_bounds my) as [Hmy _].
  rewrite Hdy in Hmy.
  assert (H53 : 2 ^ Zpos (digits2_pos mx) <= 2 ^ 53)
    by (apply Z.pow_le_mono_r; lia).
  assert (H2 : 2 ^ 1 <= 2 ^ (ey - ex)) by (apply Z.pow_le_mono_r; lia).
  change (2 ^ 1) with 2 in H2.
  change (2 ^ (53 - 1)) with 4503599627370496 in Hmy.
  change (2 ^ 53) with 9007199254740992 in H53.
  nia.
Qed.

Lemma binary_normalize_neg (z e : Z) :
  z <= 0 ->
  match binary_normalize prec emax z e false with
  | S754_zero _ => True
  | x => has_sign true x
  end.
Proof.
  intros H. destruct z as [|p|p]; simpl; [trivial | lia |].
  pose proof (binary_round_shape true p e) as Hs.
  destruct (binary_round prec emax true p e); simpl in *; trivial.
Qed.

(** Taking a larger number away leaves a zero or a negative number. *)
Lemma SFsub_lt (x y : spec_float) :
  valid_binary x = true -> valid_binary y = true ->
  SFcompare x y = Some Lt ->
  match SFsub prec emax x y with
  | S754_zero _ => True
  | d => has_sign true d
  end.
Proof.
  intros Hx Hy Hc.
  destruct x as [sx|sx| |sx mx ex], y as [sy|sy| |sy my ey];
    simpl in Hc; try discriminate;
    try (destruct sx; discriminate || reflexivity);
    try (destruct sy; discriminate || reflexivity);
    try (destruct sx, sy; discriminate || reflexivity).
  simpl in Hx, Hy. unfold SFsub.
  apply binary_normalize_neg.
  pose proof (Z.le_min_l ex ey) as Hl. pose proof (Z.le_min_r ex ey) as Hr.
  rewrite !shl_align_fst by assumption.
  assert (Hpx : 0 < 2 ^ (ex - Z.min ex ey)) by (apply Z.pow_pos_nonneg; lia).
  assert (Hpy : 0 < 2 ^ (ey - Z.min ex ey)) by (apply Z.pow_pos_nonneg; lia).
  destruct sx, sy; cbn [cond_Zopp]; try discriminate; try nia.
  - destruct (Z.compare_spec ex ey) as [->|Hlt|Hgt]; try discriminate.
    + rewrite Z.min_id, Z.sub_diag, Z.pow_0_r.
      injection Hc as Hc.
      change (Pos.compare_cont Eq mx my) with (mx ?= my)%positive in Hc.
      destruct (Pos.compare_spec mx my); try discriminate. lia.
    + rewrite Z.min_r, Z.sub_diag, Z.pow_0_r by lia.
      pose proof (bounded_exponent_lt my mx ey ex Hy Hx ltac:(lia)). lia.
  - destruct (Z.compare_spec ex ey) as [->|Hlt|Hgt]; try discriminate.
    + rewrite Z.min_id, Z.sub_diag, Z.pow_0_r.
      injection Hc as Hc.
      change (Pos.compare_cont Eq mx my) with (mx ?= my)%positive in Hc.
      destruct (Pos.compare_spec mx my); try discriminate. lia.
    + rewrite Z.min_l, Z.sub_diag, Z.pow_0_r by lia.
      pose proof (bounded_exponent_lt mx my ex ey Hx Hy ltac:(lia)). lia.
Qed.

Lemma SFcompare_antisym (x y : spec_float) :
  SFcompare y x = option_map CompOpp (SFcompare x y).
Proof.
  destruct x as [sx|sx| |sx mx ex], y as [sy|sy| |sy my ey]; simpl;
    try reflexivity; try (now destruct sx); try (now destruct sy);
    try (now destruct sx, sy).
  change (Pos.compare_cont Eq my mx) with (my ?= mx)%positive.
  change (Pos.compare_cont Eq mx my) with (mx ?= my)%positive.
  rewrite (Z.compare_antisym ex ey), (Pos.compare_antisym mx my).
  destruct sx, sy; try reflexivity;
    destruct (ex ?= ey); simpl; try reflexivity;
    destruct (mx ?= my)%positive; reflexivity.
Qed.

(** *** Python's view *)

Lemma compare_int_float_zero (f : float) :
  compare_int_float 0 f
  = match Prim2SF f with
    | S754_nan => None
    | S754_zero _ => Some Eq
    | S754_infinity s | S754_finite s _ _ => Some (if s then Gt else Lt)
    end.
Proof.
  unfold compare_int_float. destruct (Prim2SF f) as [s|s| |s m e]; try reflexivity.
  f_equal. destruct (0 <=? e) eqn:E.
  - apply Z.leb_le in E.
    assert (0 < 2 ^ e) by (apply Z.pow_pos_nonneg; lia).
    destruct s; [apply Z.compare_gt_iff | apply Z.compare_lt_iff]; nia.
  - rewrite Z.mul_0_l. now destruct s.
Qed.

(** [round(max(t, 0), 2)] is never below zero. *)
Lemma round2_max_not_negative (t : float) :
  PyNum.lt (round2 (PyNum.max (PyFloat t) (PyInt 0))) (PyInt 0) = false.
Proof.
  unfold PyNum.max, PyNum.gt. cbn [PyNum.compare].
  rewrite compare_int_float_zero.
  pose proof (float_round2_sign t) as Hr.
  destruct (Prim2SF t) as [s|s| |s m e] eqn:Et.
  - cbn [round2]. rewrite Hr. unfold PyNum.lt. cbn [PyNum.compare].
    now rewrite compare_int_float_zero, Et.
  - destruct s; [reflexivity|].
    cbn [round2]. rewrite Hr. unfold PyNum.lt. cbn [PyNum.compare].
    now rewrite compare_int_float_zero, Et.
  - cbn [round2]. rewrite Hr. unfold PyNum.lt. cbn [PyNum.compare].
    now rewrite compare_int_float_zero, Et.
  - destruct s; [reflexivity|].
    cbn [round2]. unfold PyNum.lt. cbn [PyNum.compare].
    rewrite compare_int_float_zero.
    destruct (Prim2SF (float_round2 t)) as [s'|s'| |s' m' e'];
      simpl in Hr; try contradiction; try subst s'; reflexivity.
Qed.

(** When the second operand exceeds the first, [round(max(a - d, 0), 2)]
    equals zero. *)
Lemma round2_max_sub_exceeding (a d : float) :
  PyNum.gt (PyFloat d) (PyFloat a) = true ->
  PyNum.eq
    (round2 (PyNum.max (PyNum.sub (PyFloat a) (PyFloat d)) (PyInt 0)))
    (PyInt 0) = true.
Proof.
  unfold PyNum.gt. cbn [PyNum.compare PyNum.sub to_float]. intros Hgt.
  assert (Hlt : SFcompare (Prim2SF a) (Prim2SF d) = Some Lt).
  { rewrite SFcompare_antisym.
    destruct (SFcompare (Prim2SF d) (Prim2SF a)) as [[| |]|];
      try discriminate; reflexivity. }
  pose proof (SFsub_lt _ _ (Prim2SF_valid a) (Prim2SF_valid d) Hlt) as Hs.
  change (SFsub prec emax) with SF64sub in Hs. rewrite <- sub_spec in Hs.
  unfold PyNum.max, PyNum.gt. cbn [PyNum.compare].
  rewrite compare_int_float_zero.
  pose proof (float_round2_sign (a - d)) as Hr.
  destruct (Prim2SF (a - d)) as [s|s| |s m e] eqn:Et; simpl in Hs;
    try contradiction; try subst s; try reflexivity.
  cbn [round2]. rewrite Hr. unfold PyNum.eq. cbn [PyNum.compare].
  now rewrite compare_int_float_zero, Et.
Qed.

Lemma leb_zero_of_sign (x : float) :
  has_sign false (Prim2SF x) -> (0 <=? x)%float = true.
Proof.
  rewrite leb_spec. change (Prim2SF 0) with (S754_zero false).
  destruct (Prim2SF x) as [s|s| |s m e]; simpl; try contradiction;
    try reflexivity; now intros ->.
Qed.

(** An integer that is not negative converts to a float that is not. *)
Lemma float_of_int_nonneg (z : Z) :
  0 <= z -> (0 <=? float_of_int z)%float = true.
Proof.
  intros H. unfold float_of_int. destruct z as [|p|p]; [reflexivity | | lia].
  apply leb_zero_of_sign, SF2Prim_sign. simpl. apply binary_round_shape.
Qed.

(** A float below zero fails [value >= 0]. *)
Lemma ltb_zero_not_leb (x : float) :
  (x <? 0)%float = true -> (0 <=? x)%float = false.
Proof.
  rewrite ltb_spec, leb_spec. unfold SFltb, SFleb.
  rewrite (SFcompare_antisym (Prim2SF x) (Prim2SF 0)).
  destruct (SFcompare (Prim2SF x) (Prim2SF 0)) as [[| |]|];
    simpl; congruence.
Qed.

End FloatFacts.

(** ** Rounding to two places *)

Module RoundFacts.

(** [hundredths] picks the nearest integer, and the even one at a tie. *)









End RoundFacts.

(** ** Validation *)

Section ValidationFacts.

Variable lib : Library.

Lemma ap_Valid_inv {A B : Type} (f : result (A -> B)) (x : result A) (b : B) :
  f <*> x = Valid b -> exists g a, f = Valid g /\ x = Valid a /\ b = g a.
Proof.
  destruct f as [g|es], x as [a|es']; simpl; try discriminate.
  intros [= <-]. now exists g, a.
Qed.

(** An error of an operand is an error of the whole. *)
Lemma ap_Invalid_r {A B : Type} (f : result (A -> B)) (es : list error_details) :
  exists es', f <*> Invalid es = Invalid es' /\ incl es es'.
Proof.
  destruct f as [g|es0]; simpl; eexists; (split; [reflexivity|]).
  - apply incl_refl.
  - apply incl_appr, incl_refl.
Qed.

Lemma ap_Invalid_l {A B : Type} (x : result A) (es : list error_details) :
  exists es', @Invalid (A -> B) es <*> x = Invalid es' /\ incl es es'.
Proof.
  destruct x as [a|es0]; simpl; eexists; (split; [reflexivity|]).
  - apply incl_refl.
  - apply incl_appl, incl_refl.
Qed.

Lemma required_set_other {A : Type} (k k' : string) (T : value -> result A)
  (v : value) (d : dict) :
  k <> k' -> required k T (Dict.set k' v d) = required k T d.
Proof. intros H. unfold required. now rewrite DictFacts.get_set_other. Qed.

Lemma defaulted_set_other {A : Type} (k k' : string) (a : A)
  (T : value -> result A) (v : value) (d : dict) :
  k <> k' -> defaulted k a T (Dict.set k' v d) = defaulted k a T d.
Proof. intros H. unfold defaulted. now rewrite DictFacts.get_set_other. Qed.

(** A body is valid exactly when each field is, and the model holds the
    validated fields. *)
Lemma Invoice_validator_fields (d : dict) (p : Invoice) :
  Invoice_validator lib (VDict d) = Valid p <->
  required "customer_name" str_validator d = Valid (customer_name p)
  /\ required "customer_email" (email_validator lib) d
     = Valid (customer_email p)
  /\ defaulted "customer_address" None (optional_validator str_validator) d
     = Valid (customer_address p)
  /\ defaulted "invoice_number" None (optional_validator str_validator) d
     = Valid (invoice_number p)
  /\ required "issue_date" (date_validator lib) d = Valid (issue_date p)
  /\ defaulted "due_date" None (optional_validator (date_validator lib)) d
     = Valid (due_date p)
  /\ defaulted "currency" "USD" str_validator d = Valid (currency p)
  /\ defaulted "items" [] (list_validator (InvoiceItem_validator lib)) d
     = Valid (items p)
  /\ defaulted "notes" None (optional_validator str_validator) d
     = Valid (notes p)
  /\ defaulted "status" "unpaid" str_validator d = Valid (status p)
  /\ required "subtotal" (float_ge0_validator lib) d = Valid (subtotal p)
  /\ defaulted "tax" (PyInt 0)
       (fun x => as_float (float_ge0_validator lib x)) d = Valid (tax p)
  /\ defaulted "discount" (PyInt 0)
       (fun x => as_float (float_ge0_validator lib x)) d = Valid (discount p)
  /\ required "total" (float_ge0_validator lib) d = Valid (total p).
Proof.
  unfold Invoice_validator. split.
  - intros H.
    repeat (apply ap_Valid_inv in H;
            let g := fresh "g" in let a := fresh "a" in
            let Ha := fresh "Ha" in
            destruct H as (g & a & H & Ha & ->)).
    injection H as <-. simpl. repeat split; assumption.
  - intros (H1 & H2 & H3 & H4 & H5 & H6 & H7 & H8 & H9 & H10 & H11 & H12
            & H13 & H14).
    rewrite H1, H2, H3, H4, H5, H6, H7, H8, H9, H10, H11, H12, H13, H14.
    destruct p; reflexivity.
Qed.

End ValidationFacts.

(** ** Creating an invoice *)

Section CreateFacts.

Variable lib : Library.

(** A request is answered 200 only if the store is connected and the body
    valid; the handler then ran on the validated model. *)
Lemma post_api_invoices_accepted
  (db db' : option store) (body : value) (r : response) :
  post_api_invoices lib db body = (db', r) -> status_of r = 200 ->
  exists st payload,
    db = Some st
    /\ Invoice_validator lib body = Valid payload
    /\ create_invoice lib (Some st) payload = (db', r).
Proof.
  unfold post_api_invoices. intros H Hs.
  destruct (Invoice_validator lib body) as [payload|es].
  - destruct db as [st|].
    + now exists st, payload.
    + simpl in H. injection H as <- <-. discriminate.
  - destruct (report_compliant body es); injection H as <- <-; discriminate.
Qed.

(** What the handler reads back from the dumped model is what the model
    holds. *)
Lemma model_dump_reads (payload : Invoice) :
  Dict.get_default "items" (VList []) (model_dump payload)
  = VList (map dump_item (items payload))
  /\ Dict.get_default "tax" (VNum (PyInt 0)) (model_dump payload)
     = VNum (tax payload)
  /\ Dict.get_default "discount" (VNum (PyInt 0)) (model_dump payload)
     = VNum (discount payload)
  /\ forall item d,
      dump_item item = VDict d ->
      Dict.get "quantity" d = Some (VNum (quantity item))
      /\ Dict.get "unit_price" d = Some (VNum (PyFloat (unit_price item))).
Proof.
  repeat split; try reflexivity; injection H as <-; reflexivity.
Qed.

(** What the handler stores on a connected store, field by field. *)
Lemma create_invoice_document (st : store) (payload : Invoice) :
  exists doc,
    create_invoice lib (Some st) payload
    = (Some (st ++ [("invoice", doc)])%list,
       JSONResponse
         (VDict
            [("id", VStr (ObjectId_str lib (generate_id lib st)));
             ("share_url",
              VStr ("/public/invoices/"
                      ++ ObjectId_str lib (generate_id lib st))%string)]))
    /\ Dict.get "subtotal" doc = Some (VNum (round2 (raw_subtotal payload)))
    /\ Dict.get "total" doc
       = Some (VNum (total_from (raw_subtotal payload) payload))
    /\ Dict.get "status" doc = Some (VStr (status payload))
    /\ Dict.get "tax" doc = Some (VNum (tax payload))
    /\ Dict.get "discount" doc = Some (VNum (discount payload))
    /\ Dict.get "items" doc = Some (VList (map (dump_item) (items payload)))
    /\ Dict.get "_id" doc = Some (VOid (generate_id lib st)).
Proof.
  eexists. split; [reflexivity|]. repeat split.
Qed.

(** The two together: the store after an accepted request. *)
Lemma post_api_invoices_stores
  (db db' : option store) (body : value) (r : response) :
  post_api_invoices lib db body = (db', r) -> status_of r = 200 ->
  exists st payload doc,
    db = Some st
    /\ Invoice_validator lib body = Valid payload
    /\ db' = Some (st ++ [("invoice", doc)])%list
    /\ Dict.get "subtotal" doc = Some (VNum (round2 (raw_subtotal payload)))
    /\ Dict.get "total" doc
       = Some (VNum (total_from (raw_subtotal payload) payload))
    /\ Dict.get "status" doc = Some (VStr (status payload)).
Proof.
  intros H Hs.
  destruct (post_api_invoices_accepted _ _ _ _ H Hs) as (st & payload & -> & Hv & Hc).
  destruct (create_invoice_document st payload)
    as (doc & Hd & Hsub & Htot & Hstat & _).
  rewrite Hd in Hc. injection Hc as <- <-.
  now exists st, payload, doc.
Qed.


End CreateFacts.

Section CreateClaims.

Variable lib : Library.



(** C3, as the code has it. Whenever [POST /api/invoices] accepts a
    payload, the stored total is not negative; if the discount exceeds
    [s + tax], where [s] is the sum of the line amounts before it is rounded
    for storage (not the stored subtotal), the stored total equals zero; and
    with no items, tax 0 and discount 5 the stored subtotal and total are
    both 0. *)
Theorem stored_total_never_negative
  (db db' : option store) (body : value) (r : response) :
  post_api_invoices lib db body = (db', r) -> status_of r = 200 ->
  exists st payload doc total,
    db = Some st
    /\ Invoice_validator lib body = Valid payload
    /\ db' = Some (st ++ [("invoice", doc)])%list
    /\ Dict.get "total" doc = Some (VNum total)
    /\ PyNum.lt total (PyInt 0) = false
    /\ (PyNum.gt (PyFloat (to_float (discount payload)))
                 (PyNum.add (PyNum.sum (map line_amount (items payload)))
                            (PyFloat (to_float (tax payload)))) = true ->
        PyNum.eq total (PyInt 0) = true)
    /\ (items payload = [] ->
        to_float (tax payload) = 0%float ->
        to_float (discount payload) = 5%float ->
        Dict.get "subtotal" doc = Some (VNum (PyInt 0))
        /\ total = PyInt 0).
Proof.
  intros H Hs.
  destruct (post_api_invoices_stores lib _ _ _ _ H Hs)
    as (st & payload & doc & -> & Hv & -> & Hsub & Htot & _).
  exists st, payload, doc. eexists.
  repeat (split; [reflexivity || eassumption|]).
  unfold total_from, raw_subtotal in *.
  set (s := PyNum.sum (map line_amount (items payload))) in *.
  assert (Ha : PyNum.add s (PyFloat (to_float (tax payload)))
               = PyFloat (to_float s + to_float (tax payload)))
    by (now destruct s).
  rewrite Ha. cbn [PyNum.sub to_float]. split; [|split].
  - apply FloatFacts.round2_max_not_negative.
  - apply FloatFacts.round2_max_sub_exceeding.
  - intros Hi Ht Hd. subst s. rewrite Hi in *. rewrite Ht, Hd.
    split; [exact Hsub | reflexivity].
Qed.

(** C8. For an accepted payload with the single item
    [{description: "Widget", quantity: 2, unit_price: 9.99}], tax 1.5 and
    discount 0, the stored subtotal is exactly 19.98 and the stored total
    exactly 21.48. *)
Theorem widget_example_totals
  (db db' : option store) (body : value) (r : response)
  (payload : Invoice) (item : InvoiceItem) :
  post_api_invoices lib db body = (db', r) -> status_of r = 200 ->
  Invoice_validator lib body = Valid payload ->
  items payload = [item] ->
  description item = "Widget" ->
  to_float (quantity item) = 2%float ->
  unit_price item = decimal 999 2 ->
  to_float (tax payload) = decimal 15 1 ->
  to_float (discount payload) = 0%float ->
  exists st doc,
    db = Some st
    /\ db' = Some (st ++ [("invoice", doc)])%list
    /\ Dict.get "subtotal" doc = Some (VNum (PyFloat (decimal 1998 2)))
    /\ Dict.get "total" doc = Some (VNum (PyFloat (decimal 2148 2))).
Proof.
  intros H Hs Hv Hi _ Hq Hu Ht Hd.
  destruct (post_api_invoices_stores lib _ _ _ _ H Hs)
    as (st & payload' & doc & -> & Hv' & -> & Hsub & Htot & _).
  rewrite Hv in Hv'. injection Hv' as <-.
  exists st, doc. split; [reflexivity|]. split; [reflexivity|].
  assert (Hraw : raw_subtotal payload = PyFloat (decimal 1998 2)).
  { unfold raw_subtotal, line_amount. rewrite Hi. cbn [map PyNum.sum fold_left].
    replace (PyNum.mul (quantity item) (PyFloat (unit_price item)))
      with (PyFloat (to_float (quantity item) * unit_price item))
      by (now destruct (quantity item)).
    rewrite Hq, Hu. reflexivity. }
  rewrite Hsub, Htot. unfold total_from. rewrite Hraw, Ht, Hd.
  split; reflexivity.
Qed.

End CreateClaims.

(** ** The examples, run *)




(** C3 as the code has it, on the request with no items, tax 0 and
    discount 5. *)
Lemma stored_total_never_negative_witness :
  exists st payload doc total,
    Some [] = Some st
    /\ Invoice_validator Reference.lib Reference.discount_body = Valid payload
    /\ fst (post_api_invoices Reference.lib (Some []) Reference.discount_body)
       = Some (st ++ [("invoice", doc)])%list
    /\ Dict.get "total" doc = Some (VNum total)
    /\ PyNum.lt total (PyInt 0) = false
    /\ (PyNum.gt (PyFloat (to_float (discount payload)))
                 (PyNum.add (PyNum.sum (map line_amount (items payload)))
                            (PyFloat (to_float (tax payload)))) = true ->
        PyNum.eq total (PyInt 0) = true)
    /\ (items payload = [] ->
        to_float (tax payload) = 0%float ->
        to_float (discount payload) = 5%float ->
        Dict.get "subtotal" doc = Some (VNum (PyInt 0))
        /\ total = PyInt 0).
Proof.
  apply (stored_total_never_negative Reference.lib (Some [])
           (fst (post_api_invoices Reference.lib (Some []) Reference.discount_body))
           Reference.discount_body
           (snd (post_api_invoices Reference.lib (Some []) Reference.discount_body))).
  - vm_compute. reflexivity.
  - vm_compute. reflexivity.
Defined.

(** C3, as stated, fails on a request with one item at 6137.865, tax
    518150.13999999996 and discount 524288: the stored subtotal is 6137.86,
    the discount exceeds the stored subtotal plus tax, and yet the stored
    total is 0.01, not 0. The discount does not exceed the unrounded sum
    plus tax, which is what the handler compares it with. *)
Lemma discount_above_stored_subtotal_leaves_a_cent :
  exists payload doc r stored_subtotal stored_total,
    post_api_invoices Reference.lib (Some []) Reference.between_body
    = (Some [("invoice", doc)], r)
    /\ status_of r = 200
    /\ Invoice_validator Reference.lib Reference.between_body = Valid payload
    /\ Dict.get "subtotal" doc = Some (VNum stored_subtotal)
    /\ stored_subtotal = PyFloat (decimal 613786 2)
    /\ PyNum.gt (PyFloat (to_float (discount payload)))
                (PyNum.add stored_subtotal (PyFloat (to_float (tax payload))))
       = true
    /\ Dict.get "total" doc = Some (VNum stored_total)
    /\ stored_total = PyFloat (decimal 1 2)
    /\ PyNum.eq stored_total (PyInt 0) = false
    /\ PyNum.gt stored_total (PyInt 0) = true
    /\ PyNum.gt (PyFloat (to_float (discount payload)))
                (PyNum.add (PyNum.sum (map line_amount (items payload)))
                           (PyFloat (to_float (tax payload))))
       = false.
Proof.
  do 5 eexists. repeat split; vm_compute; reflexivity.
Qed.

(** C8, on the Widget request. *)
Lemma widget_example_totals_witness :
  exists st doc,
    Some [] = Some st
    /\ fst (post_api_invoices Reference.lib (Some []) Reference.widget_body)
       = Some (st ++ [("invoice", doc)])%list
    /\ Dict.get "subtotal" doc = Some (VNum (PyFloat (decimal 1998 2)))
    /\ Dict.get "total" doc = Some (VNum (PyFloat (decimal 2148 2))).
Proof.
  apply (widget_example_totals Reference.lib (Some [])
           (fst (post_api_invoices Reference.lib (Some []) Reference.widget_body))
           Reference.widget_body
           (snd (post_api_invoices Reference.lib (Some []) Reference.widget_body))
           {| customer_name := "Ada Lovelace";
              customer_email := "ada@analytical.io";
              customer_address := None;
              invoice_number := None;
              issue_date := mkDate 2024 3 1;
              due_date := None;
              currency := "USD";
              items := [ {| description := "Widget";
                            quantity := PyFloat 2;
                            unit_price := decimal 999 2 |} ];
              notes := None;
              status := "unpaid";
              subtotal := 0;
              tax := PyFloat (decimal 15 1);
              discount := PyFloat 0;
              total := 0 |}
           {| description := "Widget";
              quantity := PyFloat 2;
              unit_price := decimal 999 2 |});
    vm_compute; reflexivity.
Defined.

(** C4, on a stored document that has fields beyond the public ones. *)
Lemma public_invoice_exactly_public_keys_witness :
  exists content,
    public_invoice Reference.lib (Some Reference.sample_store)
      "00000000000000000000002A" = JSONResponse content
    /\ exists d,
        content = VDict d
        /\ Dict.keys d = public_keys
        /\ List.length d = 15%nat
        /\ NoDup (Dict.keys d)
        /\ forall k, Dict.get k d <> None <-> In k public_keys.
Proof.
  eexists. split.
  - vm_compute. reflexivity.
  - apply (public_invoice_exactly_public_keys Reference.lib
             (Some Reference.sample_store) "00000000000000000000002A").
    vm_compute. reflexivity.
Defined.

(** C10, on a stored document that lacks most public fields. *)
Lemma public_invoice_absent_fields_witness :
  exists content,
    public_invoice Reference.lib (Some Reference.sample_store)
      "00000000000000000000002b" = JSONResponse content
    /\ exists st oid doc d,
        Some Reference.sample_store = Some st
        /\ ObjectId_new Reference.lib "00000000000000000000002b" = Some oid
        /\ find_one st "invoice" oid = Some doc
        /\ In ("invoice", doc) st
        /\ Dict.get "_id" doc = Some (VOid oid)
        /\ content = VDict d
        /\ (forall k, In k public_keys -> exists v, Dict.get k d = Some v)
        /\ Dict.get "id" d = Some (VStr (ObjectId_str Reference.lib oid))
        /\ (forall k, In k public_keys -> k <> "id" ->
            Dict.get k doc = None ->
            Dict.get k d
            = Some (if String.eqb k "items" then VList [] else VNone)).
Proof.
  eexists. split.
  - vm_compute. reflexivity.
  - apply (public_invoice_absent_fields Reference.lib
             (Some Reference.sample_store) "00000000000000000000002b").
    vm_compute. reflexivity.
Defined.

Section StatusClaim.

Variable lib : Library.

(** C9. The status is free text: if a body is valid, then with any string
    at all as its status it is accepted, and that string is stored
    unchanged; a valid body without a status is stored with status
    "unpaid". *)
Theorem status_not_validated_against_enumeration
  (st : store) (d : dict) (payload : Invoice) :
  Invoice_validator lib (VDict d) = Valid payload ->
  (Dict.get "status" d = None ->
   exists doc r,
     post_api_invoices lib (Some st) (VDict d)
     = (Some (st ++ [("invoice", doc)])%list, r)
     /\ status_of r = 200
     /\ Dict.get "status" doc = Some (VStr "unpaid"))
  /\ forall s : string,
      exists doc r,
        post_api_invoices lib (Some st)
          (VDict (Dict.set "status" (VStr s) d))
        = (Some (st ++ [("invoice", doc)])%list, r)
        /\ status_of r = 200
        /\ Dict.get "status" doc = Some (VStr s).
Proof.
  intros Hv. split.
  - intros Hnone.
    destruct (create_invoice_document lib st payload)
      as (doc & Hc & _ & _ & Hs & _).
    exists doc. eexists. unfold post_api_invoices. rewrite Hv.
    split; [exact Hc|]. split; [reflexivity|].
    apply Invoice_validator_fields in Hv.
    destruct Hv as (_ & _ & _ & _ & _ & _ & _ & _ & _ & Hst & _).
    unfold defaulted in Hst. rewrite Hnone in Hst. injection Hst as Hst.
    now rewrite Hs, <- Hst.
  - intros s.
    set (payload' :=
           {| customer_name := customer_name payload;
              customer_email := customer_email payload;
              customer_address := customer_address payload;
              invoice_number := invoice_number payload;
              issue_date := issue_date payload;
              due_date := due_date payload;
              currency := currency payload;
              items := items payload;
              notes := notes payload;
              status := s;
              subtotal := subtotal payload;
              tax := tax payload;
              discount := discount payload;
              total := total payload |}).
    assert (Hv' : Invoice_validator lib (VDict (Dict.set "status" (VStr s) d))
                  = Valid payload').
    { apply Invoice_validator_fields in Hv. apply Invoice_validator_fields.
      destruct Hv as (H1 & H2 & H3 & H4 & H5 & H6 & H7 & H8 & H9 & _ & H11
                      & H12 & H13 & H14).
      rewrite !required_set_other by discriminate.
      rewrite (defaulted_set_other "customer_address"),
        (defaulted_set_other "invoice_number"),
        (defaulted_set_other "due_date"), (defaulted_set_other "currency"),
        (defaulted_set_other "items"), (defaulted_set_other "notes"),
        (defaulted_set_other "tax"), (defaulted_set_other "discount")
        by discriminate.
      repeat (split; [assumption|]).
      split; [|repeat (split; [assumption|]); assumption].
      unfold defaulted. now rewrite DictFacts.get_set_same. }
    destruct (create_invoice_document lib st payload')
      as (doc & Hc & _ & _ & Hs & _).
    exists doc. eexists. unfold post_api_invoices. rewrite Hv'.
    split; [exact Hc|]. split; [reflexivity | exact Hs].
Qed.

End StatusClaim.

(** C9, on the Widget request: it has no status, so "unpaid" is stored, and
    any string in its place is stored as it is. *)
Lemma status_not_validated_against_enumeration_witness :
  exists payload,
    Invoice_validator Reference.lib (VDict Reference.widget_fields)
    = Valid payload
    /\ (Dict.get "status" Reference.widget_fields = None ->
        exists doc r,
          post_api_invoices Reference.lib (Some [])
            (VDict Reference.widget_fields)
          = (Some ([] ++ [("invoice", doc)])%list, r)
          /\ status_of r = 200
          /\ Dict.get "status" doc = Some (VStr "unpaid"))
    /\ forall s : string,
        exists doc r,
          post_api_invoices Reference.lib (Some [])
            (VDict (Dict.set "status" (VStr s) Reference.widget_fields))
          = (Some ([] ++ [("invoice", doc)])%list, r)
          /\ status_of r = 200
          /\ Dict.get "status" doc = Some (VStr s).
Proof.
  eexists. split.
  - vm_compute. reflexivity.
  - eapply (status_not_validated_against_enumeration Reference.lib []).
    vm_compute. reflexivity.
Defined.

(** ** The constraints of the specification against the schema *)

Section AcceptanceFacts.

Variable lib : Library.

Lemma spec_text_valid (b : bool) (v : value) :
  spec_text b v = true -> ints_fit v = true ->
  exists s, str_validator v = Valid s.
Proof. destruct v; try discriminate. intros _ _. now eexists. Qed.

Lemma spec_optional_valid {A : Type} (ok : value -> bool)
  (T : value -> result A) :
  (forall x, ok x = true -> ints_fit x = true -> exists a, T x = Valid a) ->
  forall v, spec_optional ok v = true -> ints_fit v = true ->
            exists o, optional_validator T v = Valid o.
Proof.
  intros HT v H Hfit. destruct v; simpl in H; try (now eexists);
    destruct (HT _ H Hfit) as [a Ha]; unfold optional_validator;
    rewrite Ha; now eexists.
Qed.

Lemma spec_email_valid (v : value) :
  spec_email lib v = true -> ints_fit v = true ->
  exists s, email_validator lib v = Valid s.
Proof.
  destruct v; try discriminate. simpl. intros H _.
  destruct (validate_email lib s); [now eexists | discriminate].
Qed.

Lemma spec_date_valid (v : value) :
  spec_date lib v = true -> ints_fit v = true ->
  exists t, date_validator lib v = Valid t.
Proof.
  unfold spec_date, date_validator. intros H _.
  destruct (validate_date lib v); [now eexists | discriminate].
Qed.

(** A number that is not negative passes [ge=0], provided it converts. *)
Lemma spec_nonneg_valid (v : value) :
  spec_nonneg_number v = true -> ints_fit v = true ->
  exists f, float_ge0_validator lib v = Valid f.
Proof.
  destruct v as [| |[z|f]| | | | |]; try discriminate; simpl; intros H Hfit.
  - apply Z.leb_le in H. apply negb_true_iff in Hfit.
    unfold float_ge0_validator, float_validator. rewrite Hfit.
    rewrite (FloatFacts.float_of_int_nonneg z H). now eexists.
  - unfold float_ge0_validator. simpl. rewrite H. now eexists.
Qed.

Lemma spec_nonneg_valid_number (v : value) :
  spec_nonneg_number v = true -> ints_fit v = true ->
  exists n, as_float (float_ge0_validator lib v) = Valid n.
Proof.
  intros H Hfit. destruct (spec_nonneg_valid v H Hfit) as [f Hf].
  unfold as_float. rewrite Hf. now eexists.
Qed.

Lemma spec_required_valid {A : Type} (k : string) (ok : value -> bool)
  (T : value -> result A) (d : dict) :
  (forall x, ok x = true -> ints_fit x = true -> exists a, T x = Valid a) ->
  ints_fit (VDict d) = true ->
  spec_field k true ok d = true -> exists a, required k T d = Valid a.
Proof.
  unfold spec_field, required. intros HT Hfit H.
  destruct (Dict.get k d) as [v|] eqn:E; [|discriminate].
  destruct (HT v H (LeafFacts.every_leaf_get _ _ _ _ Hfit E)) as [a Ha].
  rewrite Ha. now eexists.
Qed.

Lemma spec_defaulted_valid {A : Type} (k : string) (ok : value -> bool)
  (a0 : A) (T : value -> result A) (d : dict) :
  (forall x, ok x = true -> ints_fit x = true -> exists a, T x = Valid a) ->
  ints_fit (VDict d) = true ->
  spec_field k false ok d = true -> exists a, defaulted k a0 T d = Valid a.
Proof.
  unfold spec_field, defaulted. intros HT Hfit H.
  destruct (Dict.get k d) as [v|] eqn:E; [|now eexists].
  destruct (HT v H (LeafFacts.every_leaf_get _ _ _ _ Hfit E)) as [a Ha].
  rewrite Ha. now eexists.
Qed.

(** A field the specification lets a payload omit, but the schema requires,
    validates once it is supplied. *)
Lemma spec_supplied_valid {A : Type} (k : string) (ok : value -> bool)
  (T : value -> result A) (d : dict) :
  (forall x, ok x = true -> ints_fit x = true -> exists a, T x = Valid a) ->
  ints_fit (VDict d) = true ->
  spec_field k false ok d = true -> Dict.get k d <> None ->
  exists a, required k T d = Valid a.
Proof.
  unfold spec_field, required. intros HT Hfit H Hs.
  destruct (Dict.get k d) as [v|] eqn:E; [|congruence].
  destruct (HT v H (LeafFacts.every_leaf_get _ _ _ _ Hfit E)) as [a Ha].
  rewrite Ha. now eexists.
Qed.

Lemma spec_item_valid (v : value) :
  spec_item v = true -> ints_fit v = true ->
  exists it, InvoiceItem_validator lib v = Valid it.
Proof.
  destruct v; try discriminate. simpl. intros H Hfit.
  apply andb_true_iff in H. destruct H as [H Hu].
  apply andb_true_iff in H. destruct H as [Hd Hq].
  destruct (spec_required_valid "description" _ str_validator d
              (spec_text_valid true) Hfit Hd) as [a1 H1].
  destruct (spec_defaulted_valid "quantity" _ (PyInt 1)
              (fun x => as_float (float_ge0_validator lib x)) d
              spec_nonneg_valid_number Hfit Hq) as [a2 H2].
  destruct (spec_required_valid "unit_price" _ (float_ge0_validator lib) d
              spec_nonneg_valid Hfit Hu) as [a3 H3].
  rewrite H1, H2, H3. now eexists.
Qed.

Lemma spec_items_valid (v : value) :
  spec_items v = true -> ints_fit v = true ->
  exists its, list_validator (InvoiceItem_validator lib) v = Valid its.
Proof.
  destruct v; try discriminate. unfold ints_fit. cbn [spec_items every_leaf].
  simpl list_validator. generalize 0%nat.
  induction l as [|v l IH]; intros i H Hfit; cbn [list_items].
  - now eexists.
  - cbn [forallb] in H, Hfit.
    apply andb_true_iff in H. destruct H as [Hv Hl].
    apply andb_true_iff in Hfit. destruct Hfit as [Fv Fl].
    destruct (spec_item_valid v Hv Fv) as [it Hit].
    destruct (IH (S i) Hl Fl) as [its Hits].
    rewrite Hit, Hits. now eexists.
Qed.

(** A payload that meets the constraints of the specification, whose
    integers convert to floats and which supplies [subtotal] and [total], is
    valid for the schema. *)
Lemma spec_section3_valid (d : dict) :
  spec_section3 lib d = true -> ints_fit (VDict d) = true ->
  Dict.get "subtotal" d <> None -> Dict.get "total" d <> None ->
  exists payload, Invoice_validator lib (VDict d) = Valid payload.
Proof.
  unfold spec_section3. intros H Hfit Hsub Htot.
  repeat (apply andb_true_iff in H;
          let H' := fresh "F" in destruct H as [H H']).
  destruct (spec_required_valid "customer_name" _ str_validator d
              (spec_text_valid true) Hfit H) as [a1 H1].
  destruct (spec_required_valid "customer_email" _ (email_validator lib) d
              spec_email_valid Hfit F11) as [a2 H2].
  destruct (spec_defaulted_valid "customer_address" _ None
              (optional_validator str_validator) d
              (spec_optional_valid _ _ (spec_text_valid false)) Hfit F10)
    as [a3 H3].
  destruct (spec_defaulted_valid "invoice_number" _ None
              (optional_validator str_validator) d
              (spec_optional_valid _ _ (spec_text_valid false)) Hfit F9)
    as [a4 H4].
  destruct (spec_required_valid "issue_date" _ (date_validator lib) d
              spec_date_valid Hfit F8) as [a5 H5].
  destruct (spec_defaulted_valid "due_date" _ None
              (optional_validator (date_validator lib)) d
              (spec_optional_valid _ _ spec_date_valid) Hfit F7) as [a6 H6].
  destruct (spec_defaulted_valid "currency" _ "USD" str_validator d
              (spec_text_valid false) Hfit F6) as [a7 H7].
  destruct (spec_defaulted_valid "items" _ []
              (list_validator (InvoiceItem_validator lib)) d
              spec_items_valid Hfit F5) as [a8 H8].
  destruct (spec_defaulted_valid "notes" _ None
              (optional_validator str_validator) d
              (spec_optional_valid _ _ (spec_text_valid false)) Hfit F4)
    as [a9 H9].
  destruct (spec_defaulted_valid "status" _ "unpaid" str_validator d
              (spec_text_valid false) Hfit F3) as [a10 H10].
  destruct (spec_supplied_valid "subtotal" _ (float_ge0_validator lib) d
              spec_nonneg_valid Hfit F2 Hsub) as [a11 H11].
  destruct (spec_defaulted_valid "tax" _ (PyInt 0)
              (fun x => as_float (float_ge0_validator lib x)) d
              spec_nonneg_valid_number Hfit F1) as [a12 H12].
  destruct (spec_defaulted_valid "discount" _ (PyInt 0)
              (fun x => as_float (float_ge0_validator lib x)) d
              spec_nonneg_valid_number Hfit F0) as [a13 H13].
  destruct (spec_supplied_valid "total" _ (float_ge0_validator lib) d
              spec_nonneg_valid Hfit F Htot) as [a14 H14].
  exists (Build_Invoice a1 a2 a3 a4 a5 a6 a7 a8 a9 a10 a11 a12 a13 a14).
  apply Invoice_validator_fields. simpl. repeat split; assumption.
Qed.

End AcceptanceFacts.

(** ** Refusing a payload *)

Section RefusalFacts.

Variable lib : Library.

Lemma reports_fail {A : Type} (t : error_type) : reports (@fail A t) [].
Proof. eexists. split; [reflexivity | now left]. Qed.

Lemma reports_under {A : Type} (k : loc_item) (r : result A)
  (l : list loc_item) :
  reports r l -> reports (under k r) (k :: l).
Proof.
  intros (es & -> & Hin). eexists. split; [reflexivity|].
  rewrite map_map. apply in_map_iff in Hin. destruct Hin as (e & <- & He).
  apply in_map_iff. now exists e.
Qed.

Lemma reports_ap_r {A B : Type} (f : result (A -> B)) (x : result A)
  (l : list loc_item) :
  reports x l -> reports (f <*> x) l.
Proof.
  intros (es & -> & Hin). destruct (ap_Invalid_r f es) as (es' & -> & Hincl).
  exists es'. split; [reflexivity|].
  apply in_map_iff in Hin. destruct Hin as (e & <- & He).
  apply in_map. now apply Hincl.
Qed.

Lemma reports_ap_l {A B : Type} (f : result (A -> B)) (x : result A)
  (l : list loc_item) :
  reports f l -> reports (f <*> x) l.
Proof.
  intros (es & -> & Hin).
  destruct (@ap_Invalid_l A B x es) as (es' & -> & Hincl).
  exists es'. split; [reflexivity|].
  apply in_map_iff in Hin. destruct Hin as (e & <- & He).
  apply in_map. now apply Hincl.
Qed.

Lemma reports_required_missing {A : Type} (k : string)
  (T : value -> result A) (d : dict) :
  Dict.get k d = None -> reports (required k T d) [Key k].
Proof.
  intros H. unfold required. rewrite H. apply reports_under, reports_fail.
Qed.

Lemma reports_required {A : Type} (k : string) (T : value -> result A)
  (d : dict) (v : value) (l : list loc_item) :
  Dict.get k d = Some v -> reports (T v) l ->
  reports (required k T d) (Key k :: l).
Proof. intros H Hr. unfold required. rewrite H. now apply reports_under. Qed.

Lemma reports_defaulted {A : Type} (k : string) (a : A)
  (T : value -> result A) (d : dict) (v : value) (l : list loc_item) :
  Dict.get k d = Some v -> reports (T v) l ->
  reports (defaulted k a T d) (Key k :: l).
Proof. intros H Hr. unfold defaulted. rewrite H. now apply reports_under. Qed.

Lemma reports_str (v : value) :
  is_text v = false -> reports (str_validator v) [].
Proof. destruct v; try discriminate; intros _; apply reports_fail. Qed.

Lemma reports_email_type (v : value) :
  is_text v = false -> reports (email_validator lib v) [].
Proof. destruct v; try discriminate; intros _; apply reports_fail. Qed.

Lemma reports_email (s : string) :
  validate_email lib s = None -> reports (email_validator lib (VStr s)) [].
Proof. intros H. simpl. rewrite H. apply reports_fail. Qed.

Lemma reports_date (v : value) :
  validate_date lib v = None -> reports (date_validator lib v) [].
Proof. intros H. unfold date_validator. rewrite H. apply reports_fail. Qed.

Lemma reports_optional {A : Type} (T : value -> result A) (v : value)
  (l : list loc_item) :
  v <> VNone -> reports (T v) l -> reports (optional_validator T v) l.
Proof.
  intros Hv Hr. destruct v; try congruence; now apply reports_ap_r.
Qed.

Lemma reports_float_type (v : value) :
  float_validator lib v = fail float_type ->
  reports (float_ge0_validator lib v) [].
Proof.
  intros H. unfold float_ge0_validator. rewrite H. apply reports_fail.
Qed.

Lemma reports_number_type (v : value) :
  is_number v = false -> lax_float lib v = None ->
  reports (float_ge0_validator lib v) [].
Proof.
  intros Hn Hl. apply reports_float_type.
  destruct v; try discriminate; simpl; now rewrite Hl.
Qed.

Lemma reports_too_large (z : Z) :
  float_overflows z = true ->
  reports (float_ge0_validator lib (VNum (PyInt z))) [].
Proof.
  intros Ho. apply reports_float_type. simpl. now rewrite Ho.
Qed.

Lemma reports_negative (v : value) (f : float) :
  float_validator lib v = Valid f -> (f <? 0)%float = true ->
  reports (float_ge0_validator lib v) [].
Proof.
  intros H Hneg. unfold float_ge0_validator.
  rewrite H, (FloatFacts.ltb_zero_not_leb f Hneg). apply reports_fail.
Qed.

Lemma reports_as_float (r : result float) (l : list loc_item) :
  reports r l -> reports (as_float r) l.
Proof. apply reports_ap_r. Qed.

Lemma reports_list_items {A : Type} (T : value -> result A)
  (l : list value) (i j : nat) (v : value) (loc : list loc_item) :
  nth_error l i = Some v -> reports (T v) loc ->
  reports (list_items T j l) (Index (j + i) :: loc).
Proof.
  revert i j. induction l as [|x l IH]; intros i j Hn Hr.
  - destruct i; discriminate.
  - destruct i as [|i]; simpl in Hn.
    + injection Hn as ->. rewrite Nat.add_0_r. cbn [list_items].
      apply reports_ap_l, reports_ap_r. now apply reports_under.
    + cbn [list_items]. apply reports_ap_r.
      replace (j + S i)%nat with (S j + i)%nat by lia. now apply IH.
Qed.

Lemma reports_error_ap_r {A B : Type} (f : result (A -> B)) (x : result A)
  (e : error_details) :
  reports_error x e -> reports_error (f <*> x) e.
Proof.
  intros (es & -> & Hin). destruct (ap_Invalid_r f es) as (es' & -> & Hincl).
  exists es'. split; [reflexivity | now apply Hincl].
Qed.

Lemma reports_error_ap_l {A B : Type} (f : result (A -> B)) (x : result A)
  (e : error_details) :
  reports_error f e -> reports_error (f <*> x) e.
Proof.
  intros (es & -> & Hin).
  destruct (@ap_Invalid_l A B x es) as (es' & -> & Hincl).
  exists es'. split; [reflexivity | now apply Hincl].
Qed.

Lemma reports_error_missing {A : Type} (k : string) (T : value -> result A)
  (d : dict) :
  Dict.get k d = None -> reports_error (required k T d) (missing_at k).
Proof.
  intros H. unfold required. rewrite H. eexists.
  split; [reflexivity | now left].
Qed.

(** A body without [subtotal] or without [total] is refused with a
    [missing] error for it. *)
Lemma missing_total_reported (d : dict) (k : string) :
  In k ["subtotal"; "total"] -> Dict.get k d = None ->
  reports_error (Invoice_validator lib (VDict d)) (missing_at k).
Proof.
  intros Hk Hm.
  pose proof (reports_error_missing k (float_ge0_validator lib) d Hm) as Hreq.
  simpl in Hk. destruct Hk as [<-|[<-|[]]]; unfold Invoice_validator;
    repeat first [ apply reports_error_ap_r; exact Hreq
                 | apply reports_error_ap_l ].
Qed.

(** The answer to a body that lacks a required field of the model echoes
    the whole body. *)
Lemma report_compliant_missing (d : dict) (k : string)
  (es : list error_details) :
  In (missing_at k) es ->
  report_compliant (VDict d) es = json_compliant (VDict d).
Proof.
  intros Hin. destruct (json_compliant (VDict d)) eqn:E.
  - now apply LeafFacts.report_compliant_of_body.
  - destruct (report_compliant (VDict d) es) eqn:R; [|reflexivity].
    unfold report_compliant in R. rewrite forallb_forall in R.
    specialize (R _ Hin). unfold error_input, missing_at in R.
    cbn [type_ loc removelast value_at] in R. congruence.
Qed.

Create HintDb reports.

#[local] Hint Resolve reports_fail reports_required_missing reports_required
  reports_defaulted reports_str reports_email_type reports_email reports_date
  reports_optional reports_number_type reports_too_large reports_negative
  reports_as_float
  : reports.

(** The model validator reports the error of any one of its fields. *)
Ltac report_field :=
  repeat first [ apply reports_ap_r; solve [eauto with reports]
               | apply reports_ap_l ].

Lemma item_violation_reports (v : value) (l : list loc_item) :
  item_violation lib v l -> reports (InvoiceItem_validator lib v) l.
Proof.
  intros H. destruct H as [v Hv|d k Hk Hg|d v Hg Hv|d k v Hk Hg Hv Hl
                           |d k z Hk Hg Ho|d k v f Hk Hg Hv Hneg].
  - destruct v; try discriminate; apply reports_fail.
  - simpl in Hk. destruct Hk as [<-|[<-|[]]];
      unfold InvoiceItem_validator; report_field.
  - unfold InvoiceItem_validator; report_field.
  - simpl in Hk. destruct Hk as [<-|[<-|[]]];
      unfold InvoiceItem_validator; report_field.
  - simpl in Hk. destruct Hk as [<-|[<-|[]]];
      unfold InvoiceItem_validator; report_field.
  - simpl in Hk. destruct Hk as [<-|[<-|[]]];
      unfold InvoiceItem_validator; report_field.
Qed.

Lemma violation_reports (body : value) (l : list loc_item) :
  violation lib body l -> reports (Invoice_validator lib body) l.
Proof.
  intros H.
  destruct H as [v Hv|d k Hk Hg|d k v Hk Hg Hv|d k v Hk Hg Hv Hn
                 |d k v Hk Hg Hv Hl|d k z Hk Hg Ho|d k v f Hk Hg Hv Hneg
                 |d s Hg Hv|d v Hg Hv
                 |d v Hg Hn Hv|d v Hg Hv|d l0 i v loc Hg Hn Hv].
  - destruct v; try discriminate; apply reports_fail.
  - simpl in Hk. destruct Hk as [<-|[<-|[<-|[]]]];
      unfold Invoice_validator; report_field.
  - simpl in Hk. destruct Hk as [<-|[<-|[<-|[<-|[]]]]];
      unfold Invoice_validator; report_field.
  - simpl in Hk. destruct Hk as [<-|[<-|[<-|[]]]];
      unfold Invoice_validator; report_field.
  - simpl in Hk. destruct Hk as [<-|[<-|[<-|[<-|[]]]]];
      unfold Invoice_validator; report_field.
  - simpl in Hk. destruct Hk as [<-|[<-|[<-|[<-|[]]]]];
      unfold Invoice_validator; report_field.
  - simpl in Hk. destruct Hk as [<-|[<-|[<-|[<-|[]]]]];
      unfold Invoice_validator; report_field.
  - unfold Invoice_validator; report_field.
  - unfold Invoice_validator; report_field.
  - unfold Invoice_validator; report_field.
  - assert (Hr : reports (list_validator (InvoiceItem_validator lib) v) [])
      by (destruct v; try discriminate; apply reports_fail).
    unfold Invoice_validator; report_field.
  - assert (Hr : reports (list_validator (InvoiceItem_validator lib) (VList l0))
                   (Index i :: loc))
      by (apply (reports_list_items _ l0 i 0 v loc Hn),
            item_violation_reports, Hv).
    unfold Invoice_validator; report_field.
Qed.

End RefusalFacts.

Section RefusalClaims.

Variable lib : Library.

Lemma prefixed_loc (k : loc_item) (l : list loc_item)
  (es : list error_details) :
  In l (map loc es) -> In (k :: l) (map loc (map (prefix k) es)).
Proof.
  intros Hin. rewrite map_map.
  apply in_map_iff in Hin. destruct Hin as (e & <- & Hin).
  apply in_map_iff. now exists e.
Qed.

(** What the route does with a body the request model refuses. *)
Lemma post_api_invoices_refused
  (db : option store) (body : value) (es : list error_details) :
  Invoice_validator lib body = Invalid es ->
  fst (post_api_invoices lib db body) = db
  /\ snd (post_api_invoices lib db body)
     = (if report_compliant body es
        then RequestValidationError (map (prefix (Key "body")) es)
        else InternalServerError)
  /\ status_of (snd (post_api_invoices lib db body)) <> 200
  /\ (json_compliant body = true ->
      post_api_invoices lib db body
      = (db, RequestValidationError (map (prefix (Key "body")) es))).
Proof.
  intros He. unfold post_api_invoices. rewrite He.
  split; [now destruct (report_compliant body es)|].
  split; [now destruct (report_compliant body es)|].
  split; [destruct (report_compliant body es); discriminate|].
  intros Hb. now rewrite (LeafFacts.report_compliant_of_body body es Hb).
Qed.

(** C7, as the code has it. A payload that breaks a field constraint (a
    required field is missing, a value has a type the field does not take, a
    number is negative, the e-mail address or a date is malformed) is
    refused by the request model with an error at the location of the
    offending field, and the store is left as it was. The answer is the 422
    validation error listing that location whenever it can be rendered, as
    it can for every payload that holds no infinity and no NaN; when an
    echoed input cannot be rendered the answer is a 500 instead, as it is
    when the offending value itself holds an infinity or a NaN. *)
Theorem invalid_payload_rejected
  (db : option store) (body : value) (l : list loc_item) :
  violation lib body l ->
  exists es,
    Invoice_validator lib body = Invalid es
    /\ In l (map loc es)
    /\ fst (post_api_invoices lib db body) = db
    /\ snd (post_api_invoices lib db body)
       = (if report_compliant body es
          then RequestValidationError (map (prefix (Key "body")) es)
          else InternalServerError)
    /\ In (Key "body" :: l) (map loc (map (prefix (Key "body")) es))
    /\ (json_compliant body = true ->
        post_api_invoices lib db body
        = (db, RequestValidationError (map (prefix (Key "body")) es))
        /\ status_of (snd (post_api_invoices lib db body)) = 422)
    /\ (forall x,
          value_at body l = Some x -> json_compliant x = false ->
          snd (post_api_invoices lib db body) = InternalServerError).
Proof.
  intros H. apply violation_reports in H. destruct H as (es & He & Hin).
  destruct (post_api_invoices_refused db body es He)
    as (Hfst & Hsnd & _ & Hok).
  exists es. do 4 (split; [assumption|]).
  split; [now apply prefixed_loc|]. split.
  - intros Hb. specialize (Hok Hb). split; [exact Hok|]. now rewrite Hok.
  - intros x Hx Hc. rewrite Hsnd.
    now rewrite (LeafFacts.report_not_compliant body es l x Hin Hx Hc).
Qed.

(** C6, as the code has it. A payload that meets every field constraint of
    the specification, and whose integers are within the range of a float,
    is accepted provided it supplies both [subtotal] and [total] (which need
    only be numbers that are not negative); the values supplied are
    overwritten by the computed ones before the document is stored. If it
    leaves either of them out it is refused with an error that reports the
    field missing, and nothing is stored: the schema requires both. The
    answer is then the 422 validation error, unless the payload holds an
    infinity or a NaN: the error echoes the payload, which then cannot be
    rendered, and the answer is a 500. *)
Theorem payload_accepted_when_totals_supplied (st : store) (d : dict) :
  spec_section3 lib d = true ->
  (Dict.get "subtotal" d = None \/ Dict.get "total" d = None ->
   exists es,
     Invoice_validator lib (VDict d) = Invalid es
     /\ (Dict.get "subtotal" d = None -> In (missing_at "subtotal") es)
     /\ (Dict.get "total" d = None -> In (missing_at "total") es)
     /\ forall db,
         post_api_invoices lib db (VDict d)
         = (db,
            if json_compliant (VDict d)
            then RequestValidationError (map (prefix (Key "body")) es)
            else InternalServerError))
  /\ (Dict.get "subtotal" d <> None -> Dict.get "total" d <> None ->
      ints_fit (VDict d) = true ->
      exists payload doc r,
        Invoice_validator lib (VDict d) = Valid payload
        /\ post_api_invoices lib (Some st) (VDict d)
           = (Some (st ++ [("invoice", doc)])%list, r)
        /\ status_of r = 200
        /\ Dict.get "subtotal" doc
           = Some (VNum (round2 (PyNum.sum (map line_amount (items payload)))))
        /\ Dict.get "total" doc
           = Some (VNum
                     (round2
                        (PyNum.max
                           (PyNum.sub
                              (PyNum.add
                                 (PyNum.sum (map line_amount (items payload)))
                                 (PyFloat (to_float (tax payload))))
                              (PyFloat (to_float (discount payload))))
                           (PyInt 0))))).
Proof.
  intros Hspec. split.
  - intros Hmiss.
    assert (Hr : forall k, In k ["subtotal"; "total"] -> Dict.get k d = None ->
                           reports_error (Invoice_validator lib (VDict d))
                             (missing_at k))
      by (intros k; apply missing_total_reported).
    assert (He : exists es k, Invoice_validator lib (VDict d) = Invalid es
                              /\ In (missing_at k) es).
    { destruct Hmiss as [Hm|Hm];
        [destruct (Hr "subtotal" (or_introl eq_refl) Hm) as (es & He & Hin)
        |destruct (Hr "total" (or_intror (or_introl eq_refl)) Hm)
           as (es & He & Hin)]; eauto. }
    destruct He as (es & k & He & Hk).
    exists es. split; [exact He|].
    split; [|split].
    + intros Hm.
      destruct (Hr "subtotal" (or_introl eq_refl) Hm) as (es' & He' & Hin).
      rewrite He in He'. now injection He' as <-.
    + intros Hm.
      destruct (Hr "total" (or_intror (or_introl eq_refl)) Hm)
        as (es' & He' & Hin).
      rewrite He in He'. now injection He' as <-.
    + intros db. unfold post_api_invoices.
      rewrite He, (report_compliant_missing d k es Hk).
      now destruct (json_compliant (VDict d)).
  - intros Hsub Htot Hfit.
    destruct (spec_section3_valid lib d Hspec Hfit Hsub Htot) as [payload Hv].
    destruct (create_invoice_document lib st payload)
      as (doc & Hc & Hs & Ht & _).
    exists payload, doc. eexists. unfold post_api_invoices. rewrite Hv.
    split; [reflexivity|]. split; [exact Hc|]. split; [reflexivity|].
    split; [exact Hs | exact Ht].
Qed.

End RefusalClaims.

(** C7, on the Widget request with quantity -2: answered 422 with the
    location of the quantity. *)
Lemma invalid_payload_rejected_witness :
  violation Reference.lib Reference.negative_quantity_body
    [Key "items"; Index 0; Key "quantity"]
  /\ status_of
       (snd (post_api_invoices Reference.lib (Some Reference.sample_store)
               Reference.negative_quantity_body)) = 422
  /\ exists es,
      Invoice_validator Reference.lib Reference.negative_quantity_body
      = Invalid es
      /\ In [Key "items"; Index 0; Key "quantity"] (map loc es)
      /\ fst (post_api_invoices Reference.lib (Some Reference.sample_store)
                Reference.negative_quantity_body)
         = Some Reference.sample_store
      /\ snd (post_api_invoices Reference.lib (Some Reference.sample_store)
                Reference.negative_quantity_body)
         = (if report_compliant Reference.negative_quantity_body es
            then RequestValidationError (map (prefix (Key "body")) es)
            else InternalServerError)
      /\ In [Key "body"; Key "items"; Index 0; Key "quantity"]
            (map loc (map (prefix (Key "body")) es))
      /\ (json_compliant Reference.negative_quantity_body = true ->
          post_api_invoices Reference.lib (Some Reference.sample_store)
            Reference.negative_quantity_body
          = (Some Reference.sample_store,
             RequestValidationError (map (prefix (Key "body")) es))
          /\ status_of
               (snd (post_api_invoices Reference.lib
                       (Some Reference.sample_store)
                       Reference.negative_quantity_body)) = 422)
      /\ (forall x,
            value_at Reference.negative_quantity_body
              [Key "items"; Index 0; Key "quantity"] = Some x ->
            json_compliant x = false ->
            snd (post_api_invoices Reference.lib
                   (Some Reference.sample_store)
                   Reference.negative_quantity_body)
            = InternalServerError).
Proof.
  assert (H : violation Reference.lib Reference.negative_quantity_body
                [Key "items"; Index 0; Key "quantity"]).
  { eapply in_item; [reflexivity | reflexivity |].
    eapply item_negative with (f := float_of_int (-2));
      [simpl; tauto | reflexivity | reflexivity | vm_compute; reflexivity]. }
  split; [exact H|]. split; [vm_compute; reflexivity|].
  apply (invalid_payload_rejected Reference.lib
           (Some Reference.sample_store) Reference.negative_quantity_body
           [Key "items"; Index 0; Key "quantity"] H).
Defined.

(** C7, as stated, fails in two ways. A value of the wrong type is not
    always refused: the Widget request with the tax written as the string
    "1.5" is answered 200 and stored with tax 1.5, because the request model
    converts a numeric string. And a refusal is not always a 422: the Widget
    request with tax [-Infinity] breaks the constraint on tax and is refused,
    but the answer is a 500, because the error echoes a number that cannot
    be rendered. *)
Lemma text_for_a_number_accepted_and_infinity_unreported :
  (exists doc r,
      value_at Reference.text_tax_body [Key "tax"] = Some (VStr "1.5")
      /\ is_number (VStr "1.5") = false
      /\ post_api_invoices Reference.lax_lib (Some []) Reference.text_tax_body
         = (Some [("invoice", doc)], r)
      /\ status_of r = 200
      /\ Dict.get "tax" doc = Some (VNum (PyFloat (decimal 15 1))))
  /\ violation Reference.lib Reference.infinite_tax_body [Key "tax"]
  /\ post_api_invoices Reference.lib (Some []) Reference.infinite_tax_body
     = (Some [], InternalServerError)
  /\ status_of
       (snd (post_api_invoices Reference.lib (Some [])
               Reference.infinite_tax_body)) = 500.
Proof.
  split; [|split; [|split]].
  - do 2 eexists. repeat split; vm_compute; reflexivity.
  - eapply negative_number with (k := "tax") (f := neg_infinity);
      [simpl; tauto | reflexivity | reflexivity | vm_compute; reflexivity].
  - vm_compute. reflexivity.
  - vm_compute. reflexivity.
Qed.

(** C6, as stated, fails on the Widget request sent without [subtotal] and
    [total]: it meets every field constraint of the specification, yet it is
    refused with 422 (both fields reported missing) and nothing is
    stored. *)
Lemma payload_without_totals_rejected :
  spec_section3 Reference.lib Reference.widget_body_without_totals = true
  /\ Dict.get "subtotal" Reference.widget_body_without_totals = None
  /\ Dict.get "total" Reference.widget_body_without_totals = None
  /\ post_api_invoices Reference.lib (Some [])
       (VDict Reference.widget_body_without_totals)
     = (Some [],
        RequestValidationError
          [ {| loc := [Key "body"; Key "subtotal"]; type_ := missing |};
            {| loc := [Key "body"; Key "total"]; type_ := missing |} ])
  /\ status_of
       (snd (post_api_invoices Reference.lib (Some [])
               (VDict Reference.widget_body_without_totals))) = 422.
Proof.
  repeat split; vm_compute; reflexivity.
Qed.

(** C6 as the code has it, on the Widget request with both fields
    supplied. With 10^400 as its tax the same request is refused, and
    without the two fields and with an infinite tax it is answered 500. *)
Lemma payload_accepted_when_totals_supplied_witness :
  spec_section3 Reference.lib Reference.widget_fields = true
  /\ status_of
       (snd (post_api_invoices Reference.lib (Some [])
               (VDict (Dict.set "tax" (VNum (PyInt (10 ^ 400)))
                         Reference.widget_fields)))) = 422
  /\ post_api_invoices Reference.lib (Some [])
       (VDict (Dict.set "tax" (VNum (PyFloat infinity))
                 Reference.widget_body_without_totals))
     = (Some [], InternalServerError)
  /\ (Dict.get "subtotal" Reference.widget_fields = None
      \/ Dict.get "total" Reference.widget_fields = None ->
      exists es,
        Invoice_validator Reference.lib (VDict Reference.widget_fields)
        = Invalid es
        /\ (Dict.get "subtotal" Reference.widget_fields = None ->
            In (missing_at "subtotal") es)
        /\ (Dict.get "total" Reference.widget_fields = None ->
            In (missing_at "total") es)
        /\ forall db,
            post_api_invoices Reference.lib db (VDict Reference.widget_fields)
            = (db,
               if json_compliant (VDict Reference.widget_fields)
               then RequestValidationError (map (prefix (Key "body")) es)
               else InternalServerError))
  /\ (Dict.get "subtotal" Reference.widget_fields <> None ->
      Dict.get "total" Reference.widget_fields <> None ->
      ints_fit (VDict Reference.widget_fields) = true ->
      exists payload doc r,
        Invoice_validator Reference.lib (VDict Reference.widget_fields)
        = Valid payload
        /\ post_api_invoices Reference.lib (Some [])
             (VDict Reference.widget_fields)
           = (Some ([] ++ [("invoice", doc)])%list, r)
        /\ status_of r = 200
        /\ Dict.get "subtotal" doc
           = Some (VNum (round2 (PyNum.sum (map line_amount (items payload)))))
        /\ Dict.get "total" doc
           = Some (VNum
                     (round2
                        (PyNum.max
                           (PyNum.sub
                              (PyNum.add
                                 (PyNum.sum (map line_amount (items payload)))
                                 (PyFloat (to_float (tax payload))))
                              (PyFloat (to_float (discount payload))))
                           (PyInt 0))))).
Proof.
  split; [vm_compute; reflexivity|].
  split; [vm_compute; reflexivity|].
  split; [vm_compute; reflexivity|].
  apply (payload_accepted_when_totals_supplied Reference.lib []).
  vm_compute. reflexivity.
Defined.

(** * Further properties of the code *)

(** ** [serialize_invoice] *)

Section SerializeProperties.

Variable lib : Library.

Lemma get_remove_same (k : string) (d : dict) :
  NoDup (Dict.keys d) -> Dict.get k (Dict.remove k d) = None.
Proof.
  induction d as [|[k' v] d IH]; simpl; [reflexivity|].
  intros Hnd. inversion Hnd as [|? ? Hnin Hnd']; subst.
  destruct (String.eqb k k') eqn:E.
  - apply String.eqb_eq in E. subst k'.
    destruct (Dict.get k d) eqn:G; [|reflexivity].
    exfalso. apply Hnin. apply get_keys. congruence.
  - simpl. rewrite E. now apply IH.
Qed.

(** X1. [serialize_invoice] leaves every field other than ["_id"], ["id"]
    and the four date keys exactly as it is in the document: present with
    the same value, or absent. *)
Theorem serialize_invoice_keeps_other_fields (doc : dict) (k : string) :
  k <> "id" -> k <> "_id" -> ~ In k date_keys ->
  Dict.get k (serialize_invoice lib doc) = Dict.get k doc.
Proof.
  intros Hid Hoid Hdate. unfold serialize_invoice.
  destruct (negb (truthy (VDict doc))); [reflexivity|].
  destruct (Dict.get "_id" doc) as [v|]; [destruct (truthy v)|];
    rewrite isoformat_keys_other by assumption;
    rewrite DictFacts.get_set_other by assumption;
    rewrite ?DictFacts.get_remove_other by assumption; reflexivity.
Qed.

(** The loop over the date keys turns a date under one of them into its ISO
    string and changes nothing else. *)
Lemma isoformat_keys_date (keys : list string) (d : dict) (k : string) :
  In k keys ->
  Dict.get k (fold_left (isoformat_key lib) keys d)
  = match Dict.get k d with
    | Some (VDate t) => Some (VStr (isoformat lib t))
    | other => other
    end.
Proof.
  revert d. induction keys as [|key keys IH]; intros d Hin; [contradiction|].
  simpl. destruct (string_dec key k) as [->|Hne].
  - assert (Hstep : Dict.get k (isoformat_key lib d k)
                    = match Dict.get k d with
                      | Some (VDate t) => Some (VStr (isoformat lib t))
                      | other => other
                      end).
    { unfold isoformat_key.
      destruct (Dict.get k d) as [[| | | |t| | |]|] eqn:E; try exact E.
      apply DictFacts.get_set_same. }
    destruct (in_dec string_dec k keys) as [Hin'|Hnin].
    + rewrite IH by assumption. rewrite Hstep.
      destruct (Dict.get k d) as [[| | | |t| | |]|]; reflexivity.
    + rewrite isoformat_keys_other by assumption. exact Hstep.
  - destruct Hin as [Heq|Hin]; [congruence|].
    rewrite IH by assumption.
    assert (Hstep : Dict.get k (isoformat_key lib d key) = Dict.get k d).
    { unfold isoformat_key.
      destruct (Dict.get key d) as [[| | | |t| | |]|]; try reflexivity.
      apply DictFacts.get_set_other. congruence. }
    now rewrite Hstep.
Qed.

(** X2. Under each of the keys issue_date, due_date, created_at and
    updated_at, [serialize_invoice] replaces a date by its ISO-8601 string
    and leaves any other value (a string, null) or the absence of the key
    as it is. *)
Theorem serialize_invoice_dates (doc : dict) (k : string) :
  In k date_keys ->
  Dict.get k (serialize_invoice lib doc)
  = match Dict.get k doc with
    | Some (VDate t) => Some (VStr (isoformat lib t))
    | other => other
    end.
Proof.
  intros Hin. unfold serialize_invoice.
  assert (Hk : k <> "id" /\ k <> "_id")
    by (unfold date_keys in Hin; simpl in Hin;
        destruct Hin as [<-|[<-|[<-|[<-|[]]]]]; split; discriminate).
  destruct Hk as [Hid Hoid].
  destruct doc as [|e doc]; [reflexivity|].
  cbn [truthy negb].
  destruct (Dict.get "_id" (e :: doc)) as [v|]; [destruct (truthy v)|];
    rewrite isoformat_keys_date by assumption;
    rewrite DictFacts.get_set_other by assumption;
    rewrite ?DictFacts.get_remove_other by assumption; reflexivity.
Qed.

(** After the ["id"] entry is set, the loop over the date keys touches
    neither it nor ["_id"]. *)
Lemma id_entries_after_dates (d0 : dict) (id : value) :
  Dict.get "id" (fold_left (isoformat_key lib) date_keys
                   (Dict.set "id" id d0)) = Some id
  /\ Dict.get "_id" (fold_left (isoformat_key lib) date_keys
                       (Dict.set "id" id d0)) = Dict.get "_id" d0.
Proof.
  assert (Hd : forall k, In k ["_id"; "id"] -> ~ In k date_keys)
    by (intros k [<-|[<-|[]]]; unfold date_keys; simpl;
        intros [H|[H|[H|[H|[]]]]]; discriminate).
  rewrite !isoformat_keys_other by (apply Hd; simpl; tauto).
  split; [apply DictFacts.get_set_same|].
  now rewrite DictFacts.get_set_other by discriminate.
Qed.

(** X3. For a document with distinct keys whose ["_id"] is truthy,
    [serialize_invoice] moves the identifier: the result has no ["_id"] and
    its ["id"] is the string form of the identifier, whatever ["id"] the
    document had. *)
Theorem serialize_invoice_moves_id (doc : dict) (v : value) :
  NoDup (Dict.keys doc) ->
  Dict.get "_id" doc = Some v -> truthy v = true ->
  Dict.get "_id" (serialize_invoice lib doc) = None
  /\ Dict.get "id" (serialize_invoice lib doc) = Some (VStr (py_str lib v)).
Proof.
  intros Hnd Hget Ht. unfold serialize_invoice.
  destruct doc as [|e doc]; [discriminate|].
  cbn [truthy negb]. rewrite Hget, Ht.
  destruct (id_entries_after_dates (Dict.remove "_id" (e :: doc))
              (VStr (py_str lib v))) as [Hid Hoid].
  split; [|exact Hid].
  rewrite Hoid. now apply get_remove_same.
Qed.

(** X4. A non-empty document without ["_id"], or whose ["_id"] is falsy
    (0, the empty string, null), is serialized with a null ["id"], and its
    ["_id"] entry, if any, stays in place; the empty document is returned
    as it is, without an ["id"]. *)
Theorem serialize_invoice_without_id (doc : dict) :
  (doc = [] -> serialize_invoice lib doc = [])
  /\ (doc <> [] ->
      (Dict.get "_id" doc = None
       \/ exists v, Dict.get "_id" doc = Some v /\ truthy v = false) ->
      Dict.get "id" (serialize_invoice lib doc) = Some VNone
      /\ Dict.get "_id" (serialize_invoice lib doc) = Dict.get "_id" doc).
Proof.
  split; [now intros ->|]. intros Hne Hid. unfold serialize_invoice.
  destruct doc as [|e doc]; [congruence|].
  cbn [truthy negb].
  destruct (id_entries_after_dates (e :: doc) VNone) as [A B].
  destruct Hid as [Hnone|(v & Hv & Hf)].
  - rewrite Hnone in *. split; assumption.
  - rewrite Hv in *. rewrite Hf. split; assumption.
Qed.

(** X5. [serialize_invoice] is not idempotent: serializing a second time a
    document with distinct keys and a truthy ["_id"] replaces the ["id"] it
    had been given by null, since the ["_id"] is gone. *)
Theorem serialize_invoice_twice_loses_id (doc : dict) (v : value) :
  NoDup (Dict.keys doc) ->
  Dict.get "_id" doc = Some v -> truthy v = true ->
  Dict.get "id" (serialize_invoice lib doc) = Some (VStr (py_str lib v))
  /\ Dict.get "id" (serialize_invoice lib (serialize_invoice lib doc))
     = Some VNone.
Proof.
  intros Hnd Hget Ht.
  assert (H1 : serialize_invoice lib doc
               = fold_left (isoformat_key lib) date_keys
                   (Dict.set "id" (VStr (py_str lib v))
                      (Dict.remove "_id" doc))).
  { unfold serialize_invoice. destruct doc as [|e doc]; [discriminate|].
    cbn [truthy negb]. now rewrite Hget, Ht. }
  destruct (id_entries_after_dates (Dict.remove "_id" doc)
              (VStr (py_str lib v))) as [Hid Hoid].
  rewrite get_remove_same in Hoid by assumption.
  rewrite <- H1 in Hid, Hoid. split; [exact Hid|].
  unfold serialize_invoice at 1.
  destruct (serialize_invoice lib doc) as [|e d1] eqn:E; [discriminate|].
  cbn [truthy negb]. rewrite Hoid. apply id_entries_after_dates.
Qed.

End SerializeProperties.

(** ** The read routes *)

Section ReadRouteProperties.

Variable lib : Library.

(** X6. The public view is a projection of the owner view: whenever
    [GET /api/invoices/{id}] succeeds, [GET /public/invoices/{id}] succeeds
    on the same request, and under each public key it carries what the owner
    view has under that key (null when the owner view lacks it, the empty
    list for ["items"]). *)
Theorem public_view_projects_owner_view
  (db : option store) (invoice_id : string) (owner : dict) :
  get_invoice lib db invoice_id = JSONResponse (VDict owner) ->
  exists public,
    public_invoice lib db invoice_id = JSONResponse (VDict public)
    /\ forall k, In k public_keys ->
         Dict.get k public
         = Some (Dict.get_default k
                   (if String.eqb k "items" then VList [] else VNone) owner).
Proof.
  unfold get_invoice, public_invoice. intros H.
  destruct (ObjectId_new lib invoice_id) as [oid|]; [|discriminate].
  destruct db as [st|]; [|discriminate].
  destruct (find_one st "invoice" oid) as [doc|]; [|discriminate].
  destruct (negb (truthy (VDict doc))); [discriminate|].
  injection H as <-. eexists. split; [reflexivity|].
  intros k Hk. unfold public_keys in Hk. simpl in Hk.
  repeat (destruct Hk as [<-|Hk]; [reflexivity|]). contradiction.
Qed.

(** X7. Without a store connection the two read routes never answer 200 or
    404: a malformed identifier is answered 400 as usual, and a well-formed
    one ends in an unhandled error (500), because neither handler tests
    [db] before subscripting it. *)
Theorem read_routes_without_store (invoice_id : string) :
  get_invoice lib None invoice_id = public_invoice lib None invoice_id
  /\ (ObjectId_new lib invoice_id = None ->
      get_invoice lib None invoice_id
      = HTTPException 400 "Invalid invoice id")
  /\ (ObjectId_new lib invoice_id <> None ->
      get_invoice lib None invoice_id = InternalServerError)
  /\ status_of (get_invoice lib None invoice_id) <> 200
  /\ status_of (get_invoice lib None invoice_id) <> 404.
Proof.
  unfold get_invoice, public_invoice.
  destruct (ObjectId_new lib invoice_id) as [oid|]; simpl;
    repeat split; try reflexivity; try discriminate; congruence.
Qed.

Lemma find_app {A : Type} (f : A -> bool) (l l' : list A) :
  find f (l ++ l')%list
  = match find f l with Some x => Some x | None => find f l' end.
Proof.
  induction l as [|x l IH]; simpl; [reflexivity|].
  destruct (f x); [reflexivity | exact IH].
Qed.

(** A document appended under a fresh identifier is the one found under
    it. *)
Lemma find_one_appended (st : store) (name : string) (oid : ObjectId)
  (doc : dict) :
  find_one st name oid = None ->
  Dict.get "_id" doc = Some (VOid oid) ->
  find_one (st ++ [(name, doc)])%list name oid = Some doc.
Proof.
  unfold find_one, collection. intros Hnone Hid.
  rewrite filter_app, map_app, find_app, Hnone. simpl.
  rewrite String.eqb_refl. simpl.
  apply has_id_spec in Hid. now rewrite Hid.
Qed.

(** What the two handlers return for the identifier of an invoice just
    created. *)
Lemma handlers_after_create
  (st : store) (body : value) (db' : option store) (content : value) :
  ObjectId_new lib (ObjectId_str lib (generate_id lib st))
  = Some (generate_id lib st) ->
  find_one st "invoice" (generate_id lib st) = None ->
  post_api_invoices lib (Some st) body = (db', JSONResponse content) ->
  exists payload id,
    Invoice_validator lib body = Valid payload
    /\ id = ObjectId_str lib (generate_id lib st)
    /\ content = VDict [("id", VStr id);
                        ("share_url", VStr ("/public/invoices/" ++ id)%string)]
    /\ get_invoice lib db' id = JSONResponse (created_owner_view lib payload id)
    /\ public_invoice lib db' id
       = JSONResponse (created_public_view lib payload id).
Proof.
  intros Hparse Hfresh H.
  destruct (post_api_invoices_accepted lib _ _ _ _ H eq_refl)
    as (st0 & payload & [= <-] & Hv & Hc).
  destruct (create_invoice_document lib st payload)
    as (doc & Hd & _ & _ & _ & _ & _ & _ & Hid).
  exists payload, (ObjectId_str lib (generate_id lib st)).
  split; [exact Hv|]. split; [reflexivity|].
  assert (Hc' := Hc). rewrite Hd in Hc'. injection Hc' as <- <-.
  split; [reflexivity|].
  unfold get_invoice, public_invoice. rewrite Hparse.
  rewrite (find_one_appended st "invoice" _ doc Hfresh Hid).
  clear Hfresh Hparse H Hv Hid.
  unfold create_invoice, create_document in Hd. cbn in Hd.
  injection Hd as Hd. apply app_inv_head in Hd. injection Hd as <-.
  unfold created_owner_view, created_public_view.
  destruct (due_date payload); split; reflexivity.
Qed.

(** X8. Round trip through the owner route. If the identifier the store
    generates is fresh and its string form parses back to it, then for the
    [id] returned by an accepted [POST /api/invoices] the handler of
    [GET /api/invoices/{id}] returns the validated fields in schema order
    (dates as ISO strings, subtotal and total as computed), followed by
    ["id"]; the ["_id"] is not exposed. The route answers with that object
    when every number of the invoice is finite, and with a 500 otherwise: an
    infinity or a NaN cannot be rendered. *)
Theorem create_then_get_invoice
  (st : store) (body : value) (db' : option store) (content : value) :
  ObjectId_new lib (ObjectId_str lib (generate_id lib st))
  = Some (generate_id lib st) ->
  find_one st "invoice" (generate_id lib st) = None ->
  post_api_invoices lib (Some st) body = (db', JSONResponse content) ->
  exists payload id,
    Invoice_validator lib body = Valid payload
    /\ id = ObjectId_str lib (generate_id lib st)
    /\ content = VDict [("id", VStr id);
                        ("share_url", VStr ("/public/invoices/" ++ id)%string)]
    /\ get_api_invoice lib db' id
       = (if finite_amounts payload
          then JSONResponse (created_owner_view lib payload id)
          else InternalServerError).
Proof.
  intros Hparse Hfresh H.
  destruct (handlers_after_create st body db' content Hparse Hfresh H)
    as (payload & id & Hv & Hid & Hc & Hg & _).
  exists payload, id. do 3 (split; [assumption|]).
  unfold get_api_invoice. rewrite Hg. cbn [rendered].
  now rewrite LeafFacts.compliant_owner_view.
Qed.

(** X9. Round trip through the share link. Under the same two conditions,
    for the identifier returned by an accepted [POST /api/invoices] the
    handler of [GET /public/invoices/{id}] returns the 15 public fields with
    the values validated and computed at creation. The route answers with
    that object when every number of the invoice is finite, and with a 500
    otherwise. *)
Theorem create_then_public_invoice
  (st : store) (body : value) (db' : option store) (content : value) :
  ObjectId_new lib (ObjectId_str lib (generate_id lib st))
  = Some (generate_id lib st) ->
  find_one st "invoice" (generate_id lib st) = None ->
  post_api_invoices lib (Some st) body = (db', JSONResponse content) ->
  exists payload id,
    Invoice_validator lib body = Valid payload
    /\ Dict.get "id" (match content with VDict d => d | _ => [] end)
       = Some (VStr id)
    /\ get_public_invoice lib db' id
       = (if finite_amounts payload
          then JSONResponse (created_public_view lib payload id)
          else InternalServerError).
Proof.
  intros Hparse Hfresh H.
  destruct (handlers_after_create st body db' content Hparse Hfresh H)
    as (payload & id & Hv & Hid & Hc & _ & Hp).
  exists payload, id. split; [assumption|].
  split; [now rewrite Hc|].
  unfold get_public_invoice. rewrite Hp. cbn [rendered].
  now rewrite LeafFacts.compliant_public_view.
Qed.

End ReadRouteProperties.

(** ** The request model *)

Section ModelProperties.

Variable lib : Library.

Lemma under_Valid_inv {A : Type} (l : loc_item) (r : result A) (a : A) :
  under l r = Valid a -> r = Valid a.
Proof. destruct r; simpl; congruence. Qed.

Lemma required_Valid_inv {A : Type} (k : string) (T : value -> result A)
  (d : dict) (a : A) :
  required k T d = Valid a ->
  exists v, Dict.get k d = Some v /\ T v = Valid a.
Proof.
  unfold required. destruct (Dict.get k d) as [v|]; [|discriminate].
  intros H. apply under_Valid_inv in H. now exists v.
Qed.

Lemma defaulted_Valid_inv {A : Type} (k : string) (a0 : A)
  (T : value -> result A) (d : dict) (a : A) :
  defaulted k a0 T d = Valid a ->
  (Dict.get k d = None /\ a = a0)
  \/ exists v, Dict.get k d = Some v /\ T v = Valid a.
Proof.
  unfold defaulted. destruct (Dict.get k d) as [v|].
  - intros H. apply under_Valid_inv in H. right. now exists v.
  - intros [= <-]. now left.
Qed.

Lemma float_ge0_Valid (v : value) (f : float) :
  float_ge0_validator lib v = Valid f -> (0 <=? f)%float = true.
Proof.
  unfold float_ge0_validator.
  destruct (float_validator lib v) as [g|es]; [|discriminate].
  destruct (0 <=? g)%float eqn:E; [|discriminate]. now intros [= <-].
Qed.

Lemma as_float_ge0_Valid (v : value) (n : number) :
  as_float (float_ge0_validator lib v) = Valid n ->
  exists f, n = PyFloat f /\ (0 <=? f)%float = true.
Proof.
  unfold as_float. intros H. apply ap_Valid_inv in H.
  destruct H as (g & f & [= <-] & Hf & ->).
  exists f. split; [reflexivity | now apply float_ge0_Valid in Hf].
Qed.

Lemma defaulted_number_inv (k : string) (z : Z) (d : dict) (n : number) :
  defaulted k (PyInt z) (fun x => as_float (float_ge0_validator lib x)) d
  = Valid n ->
  default_or_ge0 z n /\ (Dict.get k d = None -> n = PyInt z).
Proof.
  intros H. apply defaulted_Valid_inv in H.
  destruct H as [[Hn ->]|(v & Hv & H)].
  - split; [now left | reflexivity].
  - split; [right; now apply as_float_ge0_Valid in H | congruence].
Qed.

Lemma InvoiceItem_validator_inv (v : value) (it : InvoiceItem) :
  InvoiceItem_validator lib v = Valid it ->
  exists d,
    v = VDict d
    /\ Dict.get "description" d = Some (VStr (description it))
    /\ default_or_ge0 1 (quantity it)
    /\ (Dict.get "quantity" d = None -> quantity it = PyInt 1)
    /\ (0 <=? unit_price it)%float = true.
Proof.
  destruct v; try discriminate. unfold InvoiceItem_validator. intros H.
  repeat (apply ap_Valid_inv in H;
          let g := fresh "g" in let a := fresh "a" in
          let Ha := fresh "Ha" in
          destruct H as (g & a & H & Ha & ->)).
  injection H as <-. simpl. exists d. split; [reflexivity|].
  apply required_Valid_inv in Ha1. destruct Ha1 as (v1 & Hg1 & Hs).
  destruct v1; try discriminate. injection Hs as <-.
  apply defaulted_number_inv in Ha0. destruct Ha0 as [Hq Hq'].
  apply required_Valid_inv in Ha. destruct Ha as (v3 & _ & Hu).
  apply float_ge0_Valid in Hu. repeat split; assumption.
Qed.

Lemma list_items_Valid_inv {A : Type} (T : value -> result A) (i : nat)
  (l : list value) (its : list A) :
  list_items T i l = Valid its -> Forall2 (fun v a => T v = Valid a) l its.
Proof.
  revert i its. induction l as [|v l IH]; intros i its H.
  - simpl in H. injection H as <-. constructor.
  - cbn [list_items] in H.
    apply ap_Valid_inv in H. destruct H as (g & tl & H & Htl & ->).
    apply ap_Valid_inv in H. destruct H as (g0 & a & [= <-] & Ha & ->).
    apply under_Valid_inv in Ha. constructor; [assumption | eauto].
Qed.

(** X10. Fields outside the schema are ignored: adding to a body, or
    changing in it, a key that is not a field of [Invoice] does not change
    the outcome of validation (the same model, or errors of the same types
    at the same locations); for a valid body it changes neither what
    [POST /api/invoices] answers nor what it stores, and a refused body
    stays refused, with nothing stored. (The answer to a refused body echoes
    the body, so the field can turn a 422 into a 500.) *)
Theorem unknown_fields_ignored
  (db : option store) (d : dict) (k : string) (v : value) :
  ~ In k schema_keys ->
  Invoice_validator lib (VDict (Dict.set k v d))
  = Invoice_validator lib (VDict d)
  /\ (forall payload,
        Invoice_validator lib (VDict d) = Valid payload ->
        post_api_invoices lib db (VDict (Dict.set k v d))
        = post_api_invoices lib db (VDict d))
  /\ (forall es,
        Invoice_validator lib (VDict d) = Invalid es ->
        fst (post_api_invoices lib db (VDict (Dict.set k v d))) = db
        /\ status_of (snd (post_api_invoices lib db (VDict (Dict.set k v d))))
           <> 200
        /\ fst (post_api_invoices lib db (VDict d)) = db
        /\ status_of (snd (post_api_invoices lib db (VDict d))) <> 200).
Proof.
  intros Hk.
  assert (Hne : forall k', In k' schema_keys -> k' <> k)
    by (intros k' Hin ->; contradiction).
  assert (Hv : Invoice_validator lib (VDict (Dict.set k v d))
               = Invoice_validator lib (VDict d)).
  { unfold Invoice_validator.
    rewrite (required_set_other "customer_name"),
      (required_set_other "customer_email"),
      (defaulted_set_other "customer_address"),
      (defaulted_set_other "invoice_number"),
      (required_set_other "issue_date"), (defaulted_set_other "due_date"),
      (defaulted_set_other "currency"), (defaulted_set_other "items"),
      (defaulted_set_other "notes"), (defaulted_set_other "status"),
      (required_set_other "subtotal"), (defaulted_set_other "tax"),
      (defaulted_set_other "discount"), (required_set_other "total")
      by (apply Hne; unfold schema_keys; simpl; tauto).
    reflexivity. }
  split; [exact Hv|]. split.
  - intros payload Hp. unfold post_api_invoices. now rewrite Hv, Hp.
  - intros es He. unfold post_api_invoices. rewrite Hv, He.
    destruct (report_compliant (VDict (Dict.set k v d)) es),
      (report_compliant (VDict d) es); repeat split; discriminate.
Qed.

(** X11. The document stored by an accepted [POST /api/invoices] has
    exactly the 14 schema fields, in schema order, followed by ["_id"]; the
    ["_id"] is the identifier the store generated, and every field other
    than [subtotal] and [total] holds the validated value. *)
Theorem stored_document_shape
  (db db' : option store) (body : value) (r : response) :
  post_api_invoices lib db body = (db', r) -> status_of r = 200 ->
  exists st payload doc,
    db = Some st
    /\ Invoice_validator lib body = Valid payload
    /\ db' = Some (st ++ [("invoice", doc)])%list
    /\ Dict.keys doc = (schema_keys ++ ["_id"])%list
    /\ Dict.get "_id" doc = Some (VOid (generate_id lib st))
    /\ forall k, k <> "subtotal" -> k <> "total" -> k <> "_id" ->
         Dict.get k doc = Dict.get k (model_dump payload).
Proof.
  intros H Hs.
  destruct (post_api_invoices_accepted lib _ _ _ _ H Hs)
    as (st & payload & -> & Hv & Hc).
  exists st, payload,
    (Dict.set "_id" (VOid (generate_id lib st))
       (Dict.set "total" (VNum (total_from (raw_subtotal payload) payload))
          (Dict.set "subtotal" (VNum (round2 (raw_subtotal payload)))
             (model_dump payload)))).
  split; [reflexivity|]. split; [assumption|].
  split; [now injection Hc as <- _|].
  split; [reflexivity|]. split; [reflexivity|].
  intros k H1 H2 H3. now rewrite !DictFacts.get_set_other by assumption.
Qed.

(** X12. Omitted fields take the defaults written in the schema: no
    address, invoice number, due date or notes, currency "USD", no items,
    status "unpaid", and the integers 0 for tax and discount (the defaults
    are not converted to floats); an explicit null for an optional text or
    date is kept as none. *)
Theorem omitted_fields_take_defaults (d : dict) (payload : Invoice) :
  Invoice_validator lib (VDict d) = Valid payload ->
  (forall k get_field,
      In (k, get_field)
         [ ("customer_address", customer_address);
           ("invoice_number", invoice_number); ("notes", notes) ] ->
      Dict.get k d = None \/ Dict.get k d = Some VNone ->
      get_field payload = None)
  /\ (Dict.get "due_date" d = None \/ Dict.get "due_date" d = Some VNone ->
      due_date payload = None)
  /\ (Dict.get "currency" d = None -> currency payload = "USD")
  /\ (Dict.get "items" d = None -> items payload = [])
  /\ (Dict.get "status" d = None -> status payload = "unpaid")
  /\ (Dict.get "tax" d = None -> tax payload = PyInt 0)
  /\ (Dict.get "discount" d = None -> discount payload = PyInt 0).
Proof.
  intros H. apply Invoice_validator_fields in H.
  destruct H as (_ & _ & H3 & H4 & _ & H6 & H7 & H8 & H9 & H10 & _ & H12
                 & H13 & _).
  assert (Hopt : forall (A : Type) (T : value -> result A) k o,
             defaulted k None (optional_validator T) d = Valid o ->
             Dict.get k d = None \/ Dict.get k d = Some VNone -> o = None).
  { intros A T k o Hd Hk. unfold defaulted in Hd.
    destruct Hk as [Hk|Hk]; rewrite Hk in Hd; simpl in Hd; congruence. }
  assert (Hdef : forall (A : Type) (T : value -> result A) k a0 a,
             defaulted k a0 T d = Valid a -> Dict.get k d = None -> a = a0).
  { intros A T k a0 a Hd Hk. unfold defaulted in Hd. rewrite Hk in Hd.
    congruence. }
  split; [|split; [|split; [|split; [|split; [|split]]]]]; eauto.
  intros k get_field Hin Hk. simpl in Hin.
  destruct Hin as [[= <- <-]|[[= <- <-]|[[= <- <-]|[]]]]; eauto.
Qed.

(** X13. What validation establishes: in a validated invoice, [subtotal],
    [total] and every [unit_price] are floats that passed [>= 0] (so none is
    a NaN or below zero); [tax] and [discount] are such floats or the
    default integer 0, and every [quantity] such a float or the default
    integer 1. *)
Theorem validated_numbers_not_negative (body : value) (payload : Invoice) :
  Invoice_validator lib body = Valid payload ->
  (0 <=? subtotal payload)%float = true
  /\ (0 <=? total payload)%float = true
  /\ default_or_ge0 0 (tax payload)
  /\ default_or_ge0 0 (discount payload)
  /\ Forall (fun item => default_or_ge0 1 (quantity item)
                         /\ (0 <=? unit_price item)%float = true)
            (items payload).
Proof.
  intros H. destruct body; try discriminate.
  apply Invoice_validator_fields in H.
  destruct H as (_ & _ & _ & _ & _ & _ & _ & H8 & _ & _ & H11 & H12 & H13
                 & H14).
  apply required_Valid_inv in H11, H14.
  destruct H11 as (v1 & _ & H11). destruct H14 as (v2 & _ & H14).
  apply float_ge0_Valid in H11, H14.
  apply defaulted_number_inv in H12, H13.
  repeat split; try tauto.
  apply defaulted_Valid_inv in H8. destruct H8 as [[_ ->]|(v & _ & H8)].
  - constructor.
  - destruct v; try discriminate. simpl in H8.
    apply list_items_Valid_inv in H8.
    induction H8 as [|x it l its Hx _ IH]; constructor; [|exact IH].
    apply InvoiceItem_validator_inv in Hx.
    destruct Hx as (dd & _ & _ & Hq & _ & Hu). now split.
Qed.

End ModelProperties.

(** ** Amounts that are not negative *)

Module AmountFacts.

Lemma leb_zero_not_below (x : float) :
  (0 <=? x)%float = true -> not_below_zero (Prim2SF x).
Proof.
  rewrite leb_spec. change (Prim2SF 0) with (S754_zero false).
  destruct (Prim2SF x) as [s|s| |s m e]; simpl; trivial;
    destruct s; try discriminate; reflexivity.
Qed.

Lemma has_sign_not_below (x : spec_float) :
  has_sign false x -> not_below_zero x.
Proof. destruct x; simpl; tauto. Qed.

Lemma SFmul_not_below (x y : spec_float) :
  not_below_zero x -> not_below_zero y ->
  not_below_zero (SFmul prec emax x y).
Proof.
  destruct x as [sx|sx| |sx mx ex], y as [sy|sy| |sy my ey]; simpl; trivial;
    try (intros -> ->; reflexivity); try (intros _ ->; reflexivity);
    try (intros -> _; reflexivity).
  intros -> ->. apply has_sign_not_below.
  apply (FloatFacts.binary_round_aux_shape false). lia.
Qed.

Lemma SFadd_not_below (x y : spec_float) :
  not_below_zero x -> not_below_zero y ->
  not_below_zero (SFadd prec emax x y).
Proof.
  destruct x as [sx|sx| |sx mx ex], y as [sy|sy| |sy my ey]; simpl; trivial;
    try (intros -> ->; reflexivity); try (now destruct sx, sy);
    try (now destruct sx); try (now destruct sy).
  intros -> ->. cbn [cond_Zopp Z.add]. apply has_sign_not_below.
  apply FloatFacts.binary_round_shape.
Qed.

Lemma to_float_not_below (n : number) :
  number_not_below_zero n -> not_below_zero (Prim2SF (to_float n)).
Proof.
  destruct n as [z|f]; simpl; [|trivial]. intros H.
  apply leb_zero_not_below, FloatFacts.float_of_int_nonneg, H.
Qed.

Lemma default_or_ge0_not_below (z : Z) (n : number) :
  0 <= z -> default_or_ge0 z n -> number_not_below_zero n.
Proof.
  intros Hz [->|(f & -> & Hf)]; simpl; [assumption|].
  now apply leb_zero_not_below.
Qed.

Lemma add_float_not_below (acc : number) (x : float) :
  number_not_below_zero acc -> not_below_zero (Prim2SF x) ->
  number_not_below_zero (PyNum.add acc (PyFloat x)).
Proof.
  intros Ha Hx.
  replace (PyNum.add acc (PyFloat x)) with (PyFloat (to_float acc + x))
    by (now destruct acc).
  simpl. rewrite add_spec. apply SFadd_not_below; [|assumption].
  now apply to_float_not_below.
Qed.

Lemma sum_not_below (xs : list number) (acc : number) :
  number_not_below_zero acc ->
  Forall (fun x => exists f, x = PyFloat f /\ not_below_zero (Prim2SF f)) xs ->
  number_not_below_zero (fold_left PyNum.add xs acc).
Proof.
  intros Ha Hxs. revert acc Ha.
  induction Hxs as [|x xs (f & -> & Hf) _ IH]; intros acc Ha; simpl;
    [assumption|].
  apply IH. now apply add_float_not_below.
Qed.

Lemma round2_not_below (n : number) :
  number_not_below_zero n -> PyNum.lt (round2 n) (PyInt 0) = false.
Proof.
  destruct n as [z|f]; simpl; intros H.
  - unfold PyNum.lt. simpl. destruct (Z.compare_spec z 0); try reflexivity. lia.
  - unfold PyNum.lt. cbn [PyNum.compare].
    rewrite FloatFacts.compare_int_float_zero.
    pose proof (FloatFacts.float_round2_sign f) as Hr.
    destruct (Prim2SF f) as [s|s| |s m e] eqn:E; simpl in H;
      try (rewrite Hr, E; try subst s; reflexivity).
    subst s.
    destruct (Prim2SF (float_round2 f)) as [s'|s'| |s' m' e'];
      simpl in Hr; try contradiction; try subst s'; reflexivity.
Qed.

Lemma line_amount_not_below (item : InvoiceItem) :
  default_or_ge0 1 (quantity item) ->
  (0 <=? unit_price item)%float = true ->
  exists f, line_amount item = PyFloat f /\ not_below_zero (Prim2SF f).
Proof.
  intros Hq Hu. exists (to_float (quantity item) * unit_price item)%float.
  split; [unfold line_amount; now destruct (quantity item)|].
  rewrite mul_spec. apply SFmul_not_below.
  - apply to_float_not_below.
    now apply (default_or_ge0_not_below 1); [lia|].
  - now apply leb_zero_not_below.
Qed.

(** Multiplying by 1.0 changes nothing. *)
Lemma mul_one_l (f : float) : (1 * f)%float = f.
Proof.
  apply Prim2SF_inj. rewrite mul_spec.
  change (Prim2SF 1) with (S754_finite false 4503599627370496 (-52)).
  pose proof (Prim2SF_valid f) as Hv.
  destruct (Prim2SF f) as [s|s| |s m e]; try reflexivity.
  simpl in Hv. unfold SF64mul, SFmul. cbn [xorb].
  apply andb_true_iff in Hv. destruct Hv as [Hc He].
  unfold canonical_mantissa in Hc. apply Z.eqb_eq in Hc.
  unfold binary_round_aux, shr_fexp.
  assert (Hd : Zdigits2 (Zpos (4503599627370496 * m))
               = Zpos (digits2_pos m) + 52)
    by (cbn [Pos.mul Zdigits2 digits2_pos]; lia).
  rewrite Hd.
  replace (Zpos (digits2_pos m) + 52 + (-52 + e))
    with (Zpos (digits2_pos m) + e) by lia.
  rewrite Hc. replace (e - (-52 + e)) with 52 by lia.
  cbn [shr shr_record_of_loc iter_pos shr_1 Pos.mul orb shr_m
       loc_of_shr_record round_nearest_even].
  replace (-52 + e + 52) with e by lia.
  cbn [Zdigits2]. rewrite Hc, Z.sub_diag. cbn [shr shr_m].
  now rewrite He.
Qed.

End AmountFacts.

(** ** Amounts stored *)

Section AmountProperties.

Variable lib : Library.

(** Every validated item has a quantity and a unit price that passed
    [>= 0] (or the default quantity). *)
Lemma validated_items (body : value) (payload : Invoice) :
  Invoice_validator lib body = Valid payload ->
  Forall (fun item => default_or_ge0 1 (quantity item)
                      /\ (0 <=? unit_price item)%float = true)
         (items payload).
Proof.
  intros H. destruct body; try discriminate.
  apply Invoice_validator_fields in H.
  destruct H as (_ & _ & _ & _ & _ & _ & _ & H8 & _).
  apply defaulted_Valid_inv in H8. destruct H8 as [[_ ->]|(v & _ & H8)].
  - constructor.
  - destruct v; try discriminate. simpl in H8.
    apply list_items_Valid_inv in H8.
    induction H8 as [|x it l its Hx _ IH]; constructor; [|exact IH].
    apply InvoiceItem_validator_inv in Hx.
    destruct Hx as (dd & _ & _ & Hq & _ & Hu). now split.
Qed.

(** X14. The stored subtotal is never negative: for every payload accepted
    by [POST /api/invoices], [subtotal < 0] is false of the stored subtotal
    (it is the integer 0 without items and can be a NaN when an infinite
    quantity meets a zero price, but never a number below zero). *)
Theorem stored_subtotal_never_negative
  (db db' : option store) (body : value) (r : response) :
  post_api_invoices lib db body = (db', r) -> status_of r = 200 ->
  exists st doc subtotal,
    db = Some st
    /\ db' = Some (st ++ [("invoice", doc)])%list
    /\ Dict.get "subtotal" doc = Some (VNum subtotal)
    /\ PyNum.lt subtotal (PyInt 0) = false.
Proof.
  intros H Hs.
  destruct (post_api_invoices_stores lib _ _ _ _ H Hs)
    as (st & payload & doc & -> & Hv & -> & Hsub & _).
  exists st, doc. eexists. do 3 (split; [reflexivity || eassumption|]).
  apply AmountFacts.round2_not_below.
  unfold raw_subtotal, PyNum.sum.
  apply AmountFacts.sum_not_below; [simpl; lia|].
  apply Forall_map.
  eapply Forall_impl; [|exact (validated_items body payload Hv)].
  intros item [Hq Hu]. now apply AmountFacts.line_amount_not_below.
Qed.

(** X15. An item sent without a quantity is validated with the default
    quantity, the integer 1, and counts for exactly its unit price: its
    line amount is the unit price itself, bit for bit. *)
Theorem item_without_quantity_counts_its_price (d : dict) (item : InvoiceItem) :
  InvoiceItem_validator lib (VDict d) = Valid item ->
  Dict.get "quantity" d = None ->
  quantity item = PyInt 1
  /\ line_amount item = PyFloat (unit_price item).
Proof.
  intros H Hq. apply InvoiceItem_validator_inv in H.
  destruct H as (d' & [= <-] & _ & _ & Hone & _).
  specialize (Hone Hq). split; [exact Hone|].
  unfold line_amount. rewrite Hone. cbn [PyNum.mul to_float].
  change (float_of_int 1) with 1%float.
  now rewrite AmountFacts.mul_one_l.
Qed.

End AmountProperties.

(** ** The other routes *)

Section OtherRouteProperties.

Variable lib : Library.

(** X16. [ObjectIdStr.validate] returns its input in string form, not a
    normalised identifier, and it refuses a string exactly when the read
    routes answer 400 for it. *)
Theorem ObjectIdStr_validate_agrees_with_routes
  (db : option store) (v : value) (s : string) :
  (ObjectIdStr_validate lib v = None
   \/ ObjectIdStr_validate lib v = Some (py_str lib v))
  /\ (ObjectIdStr_validate lib (VStr s) = Some s
      <-> status_of (get_invoice lib db s) <> 400)
  /\ (ObjectIdStr_validate lib (VStr s) = None
      <-> status_of (get_invoice lib db s) = 400).
Proof.
  unfold ObjectIdStr_validate. split; [|split].
  - destruct (ObjectId_new lib (py_str lib v)); [now right | now left].
  - cbn [py_str]. unfold get_invoice.
    destruct (ObjectId_new lib s) as [oid|].
    + split; [|reflexivity]. intros _.
      destruct db as [st|]; [|discriminate].
      destruct (find_one st "invoice" oid) as [doc|]; [|discriminate].
      destruct (negb (truthy (VDict doc))); discriminate.
    + split; [discriminate|]. simpl. congruence.
  - cbn [py_str]. unfold get_invoice.
    destruct (ObjectId_new lib s) as [oid|].
    + split; [discriminate|].
      destruct db as [st|]; [|discriminate].
      destruct (find_one st "invoice" oid) as [doc|]; [|discriminate].
      destruct (negb (truthy (VDict doc))); discriminate.
    + split; reflexivity.
Qed.

(** X17. The diagnostics route degrades instead of failing: whatever the
    environment, the store handle and the outcome of listing the
    collections, its answer has the same six keys; it reports "Connected"
    exactly when there is a store handle, lists the collection names when
    the listing succeeds and an empty list when there is no handle or the
    listing raises; an environment variable that is unset or empty is
    reported as not set. *)
Theorem test_database_degrades
  (getenv : string -> option string)
  (list_collection_names : store -> option (list string))
  (db : option store) :
  let response := test_database getenv list_collection_names db in
  Dict.keys response
  = ["backend"; "database"; "database_url"; "database_name";
     "connection_status"; "collections"]
  /\ Dict.get "backend" response = Some (VStr "✅ Running")
  /\ (Dict.get "connection_status" response = Some (VStr "Connected")
      <-> db <> None)
  /\ (Dict.get "database" response = Some (VStr "✅ Connected")
      <-> db <> None)
  /\ Dict.get "collections" response
     = Some (VList (match db with
                    | Some st =>
                        match list_collection_names st with
                        | Some names => map VStr names
                        | None => []
                        end
                    | None => []
                    end))
  /\ (Dict.get "database_url" response = Some (VStr "✅ Set")
      <-> exists s, getenv "DATABASE_URL" = Some s /\ s <> EmptyString).
Proof.
  assert (Hflag : forall name,
             env_flag getenv name = VStr "✅ Set"
             <-> exists s, getenv name = Some s /\ s <> EmptyString).
  { intros name. unfold env_flag. destruct (getenv name) as [s|].
    - destruct (String.eqb s EmptyString) eqn:E; simpl.
      + apply String.eqb_eq in E. split; [discriminate|].
        intros (s' & [= <-] & Hne). contradiction.
      + apply String.eqb_neq in E. split; [|reflexivity].
        intros _. now exists s.
    - split; [discriminate|]. intros (s & [=] & _). }
  specialize (Hflag "DATABASE_URL").
  unfold test_database. destruct db as [st|].
  - destruct (list_collection_names st) as [names|]; cbn;
      (repeat split; try reflexivity; try discriminate; try congruence);
      try (intros [= H]; now apply Hflag);
      try (intros H; f_equal; now apply Hflag).
  - cbn. repeat split; try reflexivity; try discriminate; try congruence;
      try (intros [= H]; now apply Hflag);
      try (intros H; f_equal; now apply Hflag).
Qed.

(** X18. The listing agrees with the single get: the answer of
    [GET /api/invoices] has one entry per document the gateway returns; if
    the store finds one of those documents under an identifier, what
    [GET /api/invoices/{id}] returns for that identifier is one of the
    entries. Either answer is a 500 when it holds a value that cannot be
    rendered, so whenever the listing is answered 200 the single get is
    too, and a document with an infinity or a NaN in a field makes both
    answers a 500. *)
Theorem listed_invoice_matches_single_get
  (get_documents : store -> string -> option Z -> list dict)
  (st : store) (limit : option Z) (doc : dict) (oid : ObjectId)
  (invoice_id : string) :
  In doc (get_documents st "invoice" limit) ->
  find_one st "invoice" oid = Some doc ->
  ObjectId_new lib invoice_id = Some oid ->
  exists entries entry,
    get_api_invoices lib get_documents (Some st) limit
    = (if json_compliant (VList entries) then JSONResponse (VList entries)
       else InternalServerError)
    /\ List.length entries
       = List.length (get_documents st "invoice" limit)
    /\ In entry entries
    /\ get_api_invoice lib (Some st) invoice_id
       = (if json_compliant entry then JSONResponse entry
          else InternalServerError)
    /\ (status_of (get_api_invoices lib get_documents (Some st) limit) = 200 ->
        get_api_invoice lib (Some st) invoice_id = JSONResponse entry)
    /\ (forall k f,
          Dict.get k (serialize_invoice lib doc) = Some (VNum (PyFloat f)) ->
          is_finite f = false ->
          get_api_invoice lib (Some st) invoice_id = InternalServerError
          /\ get_api_invoices lib get_documents (Some st) limit
             = InternalServerError).
Proof.
  intros Hin Hfind Hparse.
  unfold get_api_invoices, get_api_invoice, list_invoices, get_invoice.
  rewrite Hparse, Hfind.
  destruct (find_one_Some _ _ _ _ Hfind) as (_ & _ & Ht). rewrite Ht.
  cbn [negb rendered].
  set (entries := map (fun d => VDict (serialize_invoice lib d))
                      (get_documents st "invoice" limit)).
  assert (He : In (VDict (serialize_invoice lib doc)) entries)
    by (apply in_map_iff; now exists doc).
  exists entries, (VDict (serialize_invoice lib doc)).
  split; [reflexivity|]. split; [apply length_map|].
  split; [exact He|]. split; [reflexivity|]. split.
  - destruct (json_compliant (VList entries)) eqn:E; [|discriminate].
    intros _. unfold json_compliant in E. cbn [every_leaf] in E.
    rewrite forallb_forall in E. unfold json_compliant. now rewrite (E _ He).
  - intros k f Hk Hf.
    pose proof (LeafFacts.not_compliant_get k _ f Hk Hf) as Hd.
    rewrite Hd, (LeafFacts.not_compliant_In _ entries He Hd). now split.
Qed.

(** X19. Without a store connection, validation still comes first: a
    refused body is answered 422 (500 when that answer cannot be rendered,
    as when a refused value holds an infinity or a NaN), a valid one 500
    "Database not available", and so is every listing; nothing is stored
    either way. *)
Theorem write_routes_without_store
  (get_documents : store -> string -> option Z -> list dict)
  (body : value) (limit : option Z) :
  fst (post_api_invoices lib None body) = None
  /\ (forall payload,
        Invoice_validator lib body = Valid payload ->
        snd (post_api_invoices lib None body)
        = HTTPException 500 "Database not available")
  /\ (forall es,
        Invoice_validator lib body = Invalid es ->
        snd (post_api_invoices lib None body)
        = (if report_compliant body es
           then RequestValidationError (map (prefix (Key "body")) es)
           else InternalServerError))
  /\ (forall es,
        Invoice_validator lib body = Invalid es ->
        json_compliant body = true ->
        status_of (snd (post_api_invoices lib None body)) = 422)
  /\ (forall es l x,
        Invoice_validator lib body = Invalid es ->
        In l (map loc es) -> value_at body l = Some x ->
        json_compliant x = false ->
        snd (post_api_invoices lib None body) = InternalServerError)
  /\ get_api_invoices lib get_documents None limit
     = HTTPException 500 "Database not available".
Proof.
  unfold post_api_invoices.
  destruct (Invoice_validator lib body) as [payload|es].
  - repeat split; try reflexivity; intros; discriminate.
  - split; [now destruct (report_compliant body es)|].
    split; [intros; discriminate|].
    split; [intros es' [= <-]; now destruct (report_compliant body es)|].
    split; [|split; [|reflexivity]].
    + intros es' [= <-] Hb.
      now rewrite (LeafFacts.report_compliant_of_body body es Hb).
    + intros es' l x [= <-] Hin Hx Hc.
      now rewrite (LeafFacts.report_not_compliant body es l x Hin Hx Hc).
Qed.

End OtherRouteProperties.

(** ** The further properties, run *)

Ltac distinct_keys :=
  repeat (constructor; [simpl; intuition discriminate|]); constructor.

(** X1, on an owner-only field of a stored invoice. *)
Lemma serialize_invoice_keeps_other_fields_witness :
  Dict.get "owner_notes"
    (serialize_invoice Reference.lib Samples.owner_document)
  = Dict.get "owner_notes" Samples.owner_document.
Proof.
  apply (serialize_invoice_keeps_other_fields Reference.lib
           Samples.owner_document "owner_notes");
    [discriminate | discriminate | simpl; intuition discriminate].
Defined.

(** X2, on the creation date of a stored invoice. *)
Lemma serialize_invoice_dates_witness :
  Dict.get "created_at"
    (serialize_invoice Reference.lib Samples.owner_document)
  = match Dict.get "created_at" Samples.owner_document with
    | Some (VDate t) => Some (VStr (isoformat Reference.lib t))
    | other => other
    end.
Proof.
  apply (serialize_invoice_dates Reference.lib Samples.owner_document
           "created_at").
  simpl. tauto.
Defined.

(** X3, on a stored invoice. *)
Lemma serialize_invoice_moves_id_witness :
  Dict.get "_id" (serialize_invoice Reference.lib Samples.owner_document)
  = None
  /\ Dict.get "id" (serialize_invoice Reference.lib Samples.owner_document)
     = Some (VStr (py_str Reference.lib (VOid "00000000000000000000002a"))).
Proof.
  apply (serialize_invoice_moves_id Reference.lib Samples.owner_document
           (VOid "00000000000000000000002a"));
    [distinct_keys | reflexivity | reflexivity].
Defined.

(** X5, on a stored invoice. *)
Lemma serialize_invoice_twice_loses_id_witness :
  Dict.get "id" (serialize_invoice Reference.lib Samples.owner_document)
  = Some (VStr (py_str Reference.lib (VOid "00000000000000000000002a")))
  /\ Dict.get "id"
       (serialize_invoice Reference.lib
          (serialize_invoice Reference.lib Samples.owner_document))
     = Some VNone.
Proof.
  apply (serialize_invoice_twice_loses_id Reference.lib
           Samples.owner_document (VOid "00000000000000000000002a"));
    [distinct_keys | reflexivity | reflexivity].
Defined.

(** X6, on a stored invoice with owner-only fields. *)
Lemma public_view_projects_owner_view_witness :
  exists owner,
    get_invoice Reference.lib (Some Reference.sample_store)
      "00000000000000000000002a" = JSONResponse (VDict owner)
    /\ exists public,
        public_invoice Reference.lib (Some Reference.sample_store)
          "00000000000000000000002a" = JSONResponse (VDict public)
        /\ forall k, In k public_keys ->
             Dict.get k public
             = Some (Dict.get_default k
                       (if String.eqb k "items" then VList [] else VNone)
                       owner).
Proof.
  eexists. split.
  - vm_compute. reflexivity.
  - apply (public_view_projects_owner_view Reference.lib
             (Some Reference.sample_store) "00000000000000000000002a").
    vm_compute. reflexivity.
Defined.

(** X8, on a request with two items: the answer is a 200. *)
Lemma create_then_get_invoice_witness :
  status_of
    (get_api_invoice Reference.lib (fst Samples.two_items_outcome)
       "000000000000000000000000") = 200
  /\ exists payload id,
      Invoice_validator Reference.lib (VDict Samples.two_items_fields)
      = Valid payload
      /\ id = ObjectId_str Reference.lib (generate_id Reference.lib [])
      /\ Samples.two_items_content
         = VDict [("id", VStr id);
                  ("share_url", VStr ("/public/invoices/" ++ id)%string)]
      /\ get_api_invoice Reference.lib (fst Samples.two_items_outcome) id
         = (if finite_amounts payload
            then JSONResponse (created_owner_view Reference.lib payload id)
            else InternalServerError).
Proof.
  split; [vm_compute; reflexivity|].
  apply (create_then_get_invoice Reference.lib []
           (VDict Samples.two_items_fields)
           (fst Samples.two_items_outcome) Samples.two_items_content);
    vm_compute; reflexivity.
Defined.

(** X9, on the same request. *)
Lemma create_then_public_invoice_witness :
  status_of
    (get_public_invoice Reference.lib (fst Samples.two_items_outcome)
       "000000000000000000000000") = 200
  /\ exists payload id,
      Invoice_validator Reference.lib (VDict Samples.two_items_fields)
      = Valid payload
      /\ Dict.get "id"
           (match Samples.two_items_content with VDict d => d | _ => [] end)
         = Some (VStr id)
      /\ get_public_invoice Reference.lib (fst Samples.two_items_outcome) id
         = (if finite_amounts payload
            then JSONResponse (created_public_view Reference.lib payload id)
            else InternalServerError).
Proof.
  split; [vm_compute; reflexivity|].
  apply (create_then_public_invoice Reference.lib []
           (VDict Samples.two_items_fields)
           (fst Samples.two_items_outcome) Samples.two_items_content);
    vm_compute; reflexivity.
Defined.

(** X10, on a body that tries to choose its own ["_id"]. *)
Lemma unknown_fields_ignored_witness :
  post_api_invoices Reference.lib (Some [])
    (VDict (Dict.set "_id" (VStr "chosen") Reference.widget_fields))
  = post_api_invoices Reference.lib (Some []) (VDict Reference.widget_fields)
  /\ Invoice_validator Reference.lib
       (VDict (Dict.set "_id" (VStr "chosen") Reference.widget_fields))
     = Invoice_validator Reference.lib (VDict Reference.widget_fields)
  /\ (forall payload,
        Invoice_validator Reference.lib (VDict Reference.widget_fields)
        = Valid payload ->
        post_api_invoices Reference.lib (Some [])
          (VDict (Dict.set "_id" (VStr "chosen") Reference.widget_fields))
        = post_api_invoices Reference.lib (Some [])
            (VDict Reference.widget_fields))
  /\ (forall es,
        Invoice_validator Reference.lib (VDict Reference.widget_fields)
        = Invalid es ->
        fst (post_api_invoices Reference.lib (Some [])
               (VDict (Dict.set "_id" (VStr "chosen") Reference.widget_fields)))
        = Some []
        /\ status_of
             (snd (post_api_invoices Reference.lib (Some [])
                     (VDict (Dict.set "_id" (VStr "chosen")
                               Reference.widget_fields)))) <> 200
        /\ fst (post_api_invoices Reference.lib (Some [])
                  (VDict Reference.widget_fields)) = Some []
        /\ status_of
             (snd (post_api_invoices Reference.lib (Some [])
                     (VDict Reference.widget_fields))) <> 200).
Proof.
  split; [vm_compute; reflexivity|].
  apply (unknown_fields_ignored Reference.lib (Some [])
           Reference.widget_fields "_id" (VStr "chosen")).
  unfold schema_keys. simpl. intuition discriminate.
Defined.

(** X11, on the request with two items. *)
Lemma stored_document_shape_witness :
  exists st payload doc,
    Some [] = Some st
    /\ Invoice_validator Reference.lib (VDict Samples.two_items_fields)
       = Valid payload
    /\ fst Samples.two_items_outcome = Some (st ++ [("invoice", doc)])%list
    /\ Dict.keys doc = (schema_keys ++ ["_id"])%list
    /\ Dict.get "_id" doc = Some (VOid (generate_id Reference.lib st))
    /\ forall k, k <> "subtotal" -> k <> "total" -> k <> "_id" ->
         Dict.get k doc = Dict.get k (model_dump payload).
Proof.
  apply (stored_document_shape Reference.lib (Some [])
           (fst Samples.two_items_outcome) (VDict Samples.two_items_fields)
           (snd Samples.two_items_outcome));
    vm_compute; reflexivity.
Defined.

(** X12, on a request with only the required fields. *)
Lemma omitted_fields_take_defaults_witness :
  exists payload,
    Invoice_validator Reference.lib (VDict Samples.minimal_fields)
    = Valid payload
    /\ (forall k get_field,
          In (k, get_field)
             [ ("customer_address", customer_address);
               ("invoice_number", invoice_number); ("notes", notes) ] ->
          Dict.get k Samples.minimal_fields = None
          \/ Dict.get k Samples.minimal_fields = Some VNone ->
          get_field payload = None)
    /\ (Dict.get "due_date" Samples.minimal_fields = None
        \/ Dict.get "due_date" Samples.minimal_fields = Some VNone ->
        due_date payload = None)
    /\ (Dict.get "currency" Samples.minimal_fields = None ->
        currency payload = "USD")
    /\ (Dict.get "items" Samples.minimal_fields = None -> items payload = [])
    /\ (Dict.get "status" Samples.minimal_fields = None ->
        status payload = "unpaid")
    /\ (Dict.get "tax" Samples.minimal_fields = None -> tax payload = PyInt 0)
    /\ (Dict.get "discount" Samples.minimal_fields = None ->
        discount payload = PyInt 0).
Proof.
  eexists. split.
  - vm_compute. reflexivity.
  - eapply (omitted_fields_take_defaults Reference.lib Samples.minimal_fields).
    vm_compute. reflexivity.
Defined.

(** X13, on the request with two items. *)
Lemma validated_numbers_not_negative_witness :
  exists payload,
    Invoice_validator Reference.lib (VDict Samples.two_items_fields)
    = Valid payload
    /\ (0 <=? subtotal payload)%float = true
    /\ (0 <=? total payload)%float = true
    /\ default_or_ge0 0 (tax payload)
    /\ default_or_ge0 0 (discount payload)
    /\ Forall (fun item => default_or_ge0 1 (quantity item)
                           /\ (0 <=? unit_price item)%float = true)
              (items payload).
Proof.
  eexists. split.
  - vm_compute. reflexivity.
  - eapply (validated_numbers_not_negative Reference.lib
              (VDict Samples.two_items_fields)).
    vm_compute. reflexivity.
Defined.

(** X14, on the request with two items. *)
Lemma stored_subtotal_never_negative_witness :
  exists st doc subtotal,
    Some [] = Some st
    /\ fst Samples.two_items_outcome = Some (st ++ [("invoice", doc)])%list
    /\ Dict.get "subtotal" doc = Some (VNum subtotal)
    /\ PyNum.lt subtotal (PyInt 0) = false.
Proof.
  apply (stored_subtotal_never_negative Reference.lib (Some [])
           (fst Samples.two_items_outcome) (VDict Samples.two_items_fields)
           (snd Samples.two_items_outcome));
    vm_compute; reflexivity.
Defined.

(** X15, on an item without a quantity. *)
Lemma item_without_quantity_counts_its_price_witness :
  exists item,
    InvoiceItem_validator Reference.lib (VDict Samples.delivery_item_fields)
    = Valid item
    /\ quantity item = PyInt 1
    /\ line_amount item = PyFloat (unit_price item).
Proof.
  eexists. split.
  - vm_compute. reflexivity.
  - eapply (item_without_quantity_counts_its_price Reference.lib
              Samples.delivery_item_fields);
      vm_compute; reflexivity.
Defined.

(** X18, on a store with two invoices listed with limit 1: both answers
    are 200. *)
Lemma listed_invoice_matches_single_get_witness :
  status_of
    (get_api_invoices Reference.lib Samples.first_documents
       (Some Reference.sample_store) (Some 1)) = 200
  /\ exists entries entry,
      get_api_invoices Reference.lib Samples.first_documents
        (Some Reference.sample_store) (Some 1)
      = (if json_compliant (VList entries) then JSONResponse (VList entries)
         else InternalServerError)
      /\ List.length entries
         = List.length
             (Samples.first_documents Reference.sample_store "invoice"
                (Some 1))
      /\ In entry entries
      /\ get_api_invoice Reference.lib (Some Reference.sample_store)
           "00000000000000000000002a"
         = (if json_compliant entry then JSONResponse entry
            else InternalServerError)
      /\ (status_of
            (get_api_invoices Reference.lib Samples.first_documents
               (Some Reference.sample_store) (Some 1)) = 200 ->
          get_api_invoice Reference.lib (Some Reference.sample_store)
            "00000000000000000000002a" = JSONResponse entry)
      /\ (forall k f,
            Dict.get k
              (serialize_invoice Reference.lib
                 (hd [] (collection Reference.sample_store "invoice")))
            = Some (VNum (PyFloat f)) ->
            is_finite f = false ->
            get_api_invoice Reference.lib (Some Reference.sample_store)
              "00000000000000000000002a" = InternalServerError
            /\ get_api_invoices Reference.lib Samples.first_documents
                 (Some Reference.sample_store) (Some 1)
               = InternalServerError).
Proof.
  split; [vm_compute; reflexivity|].
  apply (listed_invoice_matches_single_get Reference.lib
           Samples.first_documents Reference.sample_store (Some 1)
           (hd [] (collection Reference.sample_store "invoice"))
           "00000000000000000000002a" "00000000000000000000002a").
  - left. reflexivity.
  - vm_compute. reflexivity.
  - vm_compute. reflexivity.
Defined.

(** ** Rendering *)

(** A route answers what its handler ends in, except that a returned value
    which cannot be rendered becomes a 500: a 200 of the route carries the
    value the handler returned, and a 400 or a 404 is the handler's. *)
Lemma rendered_answer (r : response) :
  (forall content, rendered r = JSONResponse content -> r = JSONResponse content)
  /\ (status_of (rendered r) = 400 <-> status_of r = 400)
  /\ (status_of (rendered r) = 404 <-> status_of r = 404)
  /\ (rendered r = r \/ rendered r = InternalServerError).
Proof.
  destruct r as [c|code detail|es|]; simpl;
    try (repeat split; try tauto; now left).
  destruct (json_compliant c); simpl;
    (split; [intros content H; congruence|]);
    (split; [split; discriminate|]);
    (split; [split; discriminate|]); [now left | now right].
Qed.

(** ** Numbers at the edge of binary64, run *)

(** An integer beyond the range of a float is refused as not a float: the
    Widget request with tax 10^400 meets the constraints of the
    specification and is answered 422. *)
Example integer_beyond_float_refused :
  spec_section3 Reference.lib
    (Dict.set "tax" (VNum (PyInt (10 ^ 400))) Reference.widget_fields) = true
  /\ post_api_invoices Reference.lib (Some [])
       (VDict (Dict.set "tax" (VNum (PyInt (10 ^ 400)))
                 Reference.widget_fields))
     = (Some [],
        RequestValidationError
          [ {| loc := [Key "body"; Key "tax"]; type_ := float_type |} ]).
Proof. split; vm_compute; reflexivity. Qed.

(** An infinite tax passes [ge=0]: the invoice is created, with an infinite
    total, and neither read route can render it. *)
Example infinite_tax_stored_but_not_rendered :
  exists db' content,
    post_api_invoices Reference.lib (Some [])
      (VDict (Dict.set "tax" (VNum (PyFloat infinity)) Reference.widget_fields))
    = (db', JSONResponse content)
    /\ get_api_invoice Reference.lib db' "000000000000000000000000"
       = InternalServerError
    /\ get_public_invoice Reference.lib db' "000000000000000000000000"
       = InternalServerError.
Proof. do 2 eexists. repeat split; vm_compute; reflexivity. Qed.

(** A refused body that holds an infinity: the Widget request without
    [subtotal] and [total] and with an infinite tax is answered 500, since
    the two errors echo the body. *)
Example missing_totals_with_infinite_tax :
  post_api_invoices Reference.lib (Some [])
    (VDict (Dict.set "tax" (VNum (PyFloat infinity))
              Reference.widget_body_without_totals))
  = (Some [], InternalServerError).
Proof. vm_compute. reflexivity. Qed.
